(** * Shopify discount tool: price arithmetic and batch update job

    A shallow embedding of [app/discount_strategies.py] and of the batch
    job of [app/main.py], with the statements of the specification proved
    or refuted against it.

    Numbers.  Python's [float] values are modelled by exact rationals [Q]
    compared with [==]: the arithmetic identities and orderings below are
    those of the source expressions, while binary64 rounding error,
    overflow to infinity and NaN are outside this model.  A float division
    by zero raises [ZeroDivisionError], as in Python.  Where rounding
    decides a statement, the price arithmetic is given twice more: in
    [Rounded], with every operation followed by a rounding operator, and
    in [Binary64], on the binary64 numbers themselves.

    Scheduling.  [process_discount_update] is modelled as one computation
    in [Main], and as a coroutine that other coroutines interleave with at
    its [await]s in [Coroutine]. *)

From Stdlib Require Import QArith Qabs Qround ZArith List Bool Sorted Lia Lqa.
From Stdlib Require Import DecimalString Qpower.
From Stdlib Require PrimFloat FloatOps SpecFloat.
From stdpp Require Import gmap strings.

Local Open Scope Q_scope.

(** ** Python runtime: exceptions, truthiness, rounding, formatting *)

Module Py.

Inductive exn : Type :=
| ValueError (msg : string)
| ZeroDivisionError
| KeyError (key : string)
| HTTPError (msg : string)
| DatabaseError (msg : string)
| HTTPException (status_code : Z) (detail : string).

(** [str(e)] *)
Definition exn_str (e : exn) : string :=
  match e with
  | ValueError msg => msg
  | ZeroDivisionError => "float division by zero"
  | KeyError key => "'" +:+ key +:+ "'"
  | HTTPError msg => msg
  | DatabaseError msg => msg
  | HTTPException _ detail => detail
  end.

Inductive result (A : Type) : Type :=
| Ok (a : A)
| Raise (e : exn).

Arguments Ok {A} a.
Arguments Raise {A} e.

Definition bind {A B} (r : result A) (k : A -> result B) : result B :=
  match r with
  | Ok a => k a
  | Raise e => Raise e
  end.

(** Truth value of a float: every value but zero. *)
Definition truthy (x : Q) : bool := negb (Qeq_bool x 0).

(** [if o: then_(o) else: else_] for an [Optional[float]]: [None] and [0.0]
    both take the else branch. *)
Definition if_opt {A} (o : option Q) (then_ : Q -> A) (else_ : A) : A :=
  match o with
  | Some c => if truthy c then then_ c else else_
  | None => else_
  end.

(** [x / y] on floats. *)
Definition fdiv (x y : Q) : result Q :=
  if Qeq_bool y 0 then Raise ZeroDivisionError else Ok (x / y).

(** [x <= y] and [x > y] on floats. *)
Definition fle (x y : Q) : bool := Qle_bool x y.
Definition fgt (x y : Q) : bool := negb (Qle_bool x y).

(** [int(x)]: truncation toward zero. *)
Definition int_of_float (x : Q) : Z :=
  if (Qnum x <? 0)%Z then Qceiling x else Qfloor x.

(** [x or default] for an optional integer: [None] and [0] give the default. *)
Definition or_default (x : option Z) (default : Z) : Z :=
  match x with
  | Some n => if (n =? 0)%Z then default else n
  | None => default
  end.

(** Nearest integer, ties to the even one. *)
Definition round_half_even (q : Q) : Z :=
  let n := Qnum q in
  let d := Zpos (Qden q) in
  let fl := (n / d)%Z in
  let r2 := (2 * (n mod d))%Z in
  if (r2 <? d)%Z then fl
  else if (d <? r2)%Z then (fl + 1)%Z
  else if Z.even fl then fl else (fl + 1)%Z.

(** [round(x, 2)] *)
Definition round2 (x : Q) : Q := round_half_even (x * 100) # 100.

Definition digits (n : Z) : string :=
  NilZero.string_of_uint (N.to_uint (Z.to_N n)).

(** [f"{x:.2f}"]: sign, integer part, point, two digits. *)
Definition format_2f (x : Q) : string :=
  let a := Z.abs (round_half_even (x * 100)) in
  let frac := (a mod 100)%Z in
  ((if (Qnum x <? 0)%Z then "-" else "")
   +:+ digits (a / 100)
   +:+ "."
   +:+ (if (frac <? 10)%Z then "0" else "") +:+ digits frac)%string.

(** [repr(s)] of a [str]: the text in single quotes, or in double quotes
    when it holds a single quote and no double quote; the backslash, the
    enclosing quote, tab, newline and carriage return escaped, other ASCII
    control characters as [\xNN].  Bytes above 127 are kept as they are:
    Python writes the characters it does not count as printable as escapes
    there. *)
Definition hex_digit (n : nat) : Ascii.ascii :=
  nth n (String.list_ascii_of_string "0123456789abcdef") (Ascii.ascii_of_nat 48).

Definition repr_char (quote c : Ascii.ascii) : string :=
  let n := Ascii.nat_of_ascii c in
  if Nat.eqb n 92 then "\\"
  else if Ascii.eqb c quote then "\" +:+ String.String quote String.EmptyString
  else if Nat.eqb n 9 then "\t"
  else if Nat.eqb n 10 then "\n"
  else if Nat.eqb n 13 then "\r"
  else if (n <? 32)%nat || Nat.eqb n 127 then
    "\x"
    +:+ String.String (hex_digit (n / 16))
          (String.String (hex_digit (n mod 16)) String.EmptyString)
  else String.String c String.EmptyString.

Definition repr_str (s : string) : string :=
  let chars := String.list_ascii_of_string s in
  let single := Ascii.ascii_of_nat 39 in
  let double := Ascii.ascii_of_nat 34 in
  let quote :=
    if existsb (Ascii.eqb single) chars && negb (existsb (Ascii.eqb double) chars)
    then double else single in
  String.String quote
    (fold_right (fun c acc => repr_char quote c +:+ acc)
       (String.String quote String.EmptyString) chars).

End Py.

(** ** app/discount_strategies.py *)

Module DiscountCalculator.
Import Py.

Inductive DiscountStrategy : Type :=
| INCREASE_COMPARE_ONLY
| DECREASE_PRICE_ONLY
| BOTH_DIRECTIONS
| SET_DISCOUNT_PERCENTAGE.

(** [strategy.value] *)
Definition strategy_value (s : DiscountStrategy) : string :=
  match s with
  | INCREASE_COMPARE_ONLY => "increase_compare_only"
  | DECREASE_PRICE_ONLY => "decrease_price_only"
  | BOTH_DIRECTIONS => "both_directions"
  | SET_DISCOUNT_PERCENTAGE => "set_discount_percentage"
  end.

(** [DiscountStrategy(name)]: the member with that value, else [ValueError]. *)
Definition strategy_of_string (name : string) : result DiscountStrategy :=
  if String.eqb name "increase_compare_only" then Ok INCREASE_COMPARE_ONLY
  else if String.eqb name "decrease_price_only" then Ok DECREASE_PRICE_ONLY
  else if String.eqb name "both_directions" then Ok BOTH_DIRECTIONS
  else if String.eqb name "set_discount_percentage" then Ok SET_DISCOUNT_PERCENTAGE
  else Raise (ValueError (repr_str name +:+ " is not a valid DiscountStrategy")).

(** The final [else: raise ValueError("Невідома стратегія")] of the source
    has no member of the enumeration left to reach it. *)
Definition calculate_new_prices
    (current_price : Q) (current_compare_at_price : option Q)
    (strategy : DiscountStrategy) (value : Q)
    (target_discount_percentage : option Q) : result (Q * option Q) :=
  match strategy with
  | INCREASE_COMPARE_ONLY =>
      let new_price := current_price in
      let new_compare_at_price :=
        if_opt current_compare_at_price
          (fun c => c * (1 + value / 100))
          (current_price * (1 + value / 100)) in
      Ok (new_price, Some new_compare_at_price)
  | DECREASE_PRICE_ONLY =>
      let new_price := current_price * (1 - Qabs value / 100) in
      let new_compare_at_price :=
        if_opt current_compare_at_price (fun c => c) current_price in
      Ok (new_price, Some new_compare_at_price)
  | BOTH_DIRECTIONS =>
      let new_price := current_price * (1 + value / 100) in
      let new_compare_at_price :=
        if_opt current_compare_at_price
          (fun c =>
             let compare_multiplier := 1 + (value * 1.5) / 100 in
             c * compare_multiplier)
          (current_price * (1 + Qabs (value * 2) / 100)) in
      Ok (new_price, Some new_compare_at_price)
  | SET_DISCOUNT_PERCENTAGE =>
      match target_discount_percentage with
      | None =>
          Raise (ValueError "target_discount_percentage обов'язковий для цієї стратегії")
      | Some target =>
          let new_price := current_price in
          bind (fdiv current_price (1 - target / 100))
            (fun new_compare_at_price =>
               Ok (new_price, Some new_compare_at_price))
      end
  end.

Definition calculate_discount_percentage (price compare_at_price : Q) : result Q :=
  if fle compare_at_price price then Ok 0
  else bind (fdiv (compare_at_price - price) compare_at_price)
         (fun ratio => Ok (ratio * 100)).

Definition get_strategy_description (strategy : DiscountStrategy) : string :=
  match strategy with
  | INCREASE_COMPARE_ONLY =>
      "Збільшення тільки порівняльної ціни (збільшити знижку)"
  | DECREASE_PRICE_ONLY =>
      "Зменшення тільки основної ціни (збільшити знижку + зменшити ціну)"
  | BOTH_DIRECTIONS =>
      "Зміна обох цін (максимальний контроль знижки)"
  | SET_DISCOUNT_PERCENTAGE =>
      "Встановлення конкретного відсотка знижки"
  end.

(** The dict returned by [preview_discount_change]. *)
Record Preview : Type := {
  current_price : Q;
  current_compare_at_price : option Q;
  current_discount_percentage : Q;
  new_price : Q;
  new_compare_at_price : option Q;
  new_discount_percentage : Q;
  discount_change : Q;
  strategy_description : string
}.

(** [d = 0.0; if compare and compare > price: d = calculate_discount_percentage(price, compare)] *)
Definition guarded_discount (price : Q) (compare : option Q) : result Q :=
  if_opt compare
    (fun c => if fgt c price then calculate_discount_percentage price c else Ok 0)
    (Ok 0).

Definition preview_discount_change
    (current_price : Q) (current_compare_at_price : option Q)
    (strategy : DiscountStrategy) (value : Q)
    (target_discount_percentage : option Q) : result Preview :=
  bind (guarded_discount current_price current_compare_at_price)
    (fun current_discount =>
  bind (calculate_new_prices current_price current_compare_at_price
          strategy value target_discount_percentage)
    (fun '(new_price, new_compare_at_price) =>
  bind (guarded_discount new_price new_compare_at_price)
    (fun new_discount =>
  Ok {| current_price := current_price;
        current_compare_at_price := current_compare_at_price;
        current_discount_percentage := round2 current_discount;
        new_price := round2 new_price;
        new_compare_at_price :=
          if_opt new_compare_at_price (fun c => Some (round2 c)) None;
        new_discount_percentage := round2 new_discount;
        discount_change := round2 (new_discount - current_discount);
        strategy_description := get_strategy_description strategy |}))).

End DiscountCalculator.

(** ** app/main.py: the batch job and its collaborators *)

Module Main.
Import Py DiscountCalculator.

(** *** Catalog items as the remote API returns them

    [variant_price] is the number [float(variant['price'])] reads;
    [variant_compare_at_price] is [None] when the JSON value is missing,
    null or empty, and [Some c] with [c] the number read otherwise (the
    truth test of the source is on the JSON string, so ["0.00"] gives
    [Some 0]). *)

Record Variant : Type := {
  variant_id : Z;
  variant_title : option string;
  variant_price : Q;
  variant_compare_at_price : option Q
}.

Record Product : Type := {
  product_id : Z;
  product_title : string;
  product_variants : list Variant
}.

(** *** Requests and rows *)

(** Body of [PUT variants/{id}.json]; a missing key is [None]. *)
Record VariantPayload : Type := {
  payload_id : Z;
  payload_price : string;
  payload_compare_at_price : option string
}.

Record RollbackData : Type := {
  rb_variant_id : Z;
  restore_price : Q;
  restore_compare_at_price : option Q;
  rb_old_discount_percentage : Q;
  rb_new_discount_percentage : Q
}.

Record PriceChange : Type := {
  pc_product_id : Z;
  pc_variant_id : Z;
  pc_old_price : Q;
  pc_new_price : Q;
  pc_old_compare_at_price : option Q;
  pc_new_compare_at_price : option Q;
  pc_change_type : string;
  pc_session_id : string;
  pc_notes : string;
  pc_rollback_data : RollbackData
}.

Record RollbackSession : Type := {
  rs_session_id : string;
  rs_operation_type : string;
  rs_description : string
}.

(** *** Job progress: the dict stored under a task id *)

Record ErrorEntry : Type := {
  err_product : string;
  err_variant_id : Z;
  err_error : string
}.

Record FinalStats : Type := {
  total_processed : nat;
  successful_updates : nat;
  errors_count : nat
}.

(** Keys that the initial dict does not have ([successful],
    [completed_at], [final_stats], [error]) are [None] until an update
    adds them. *)
Record Progress : Type := {
  status : string;
  current : nat;
  total : nat;
  percentage : Z;
  current_item : option string;
  errors : list ErrorEntry;
  session_id : string;
  strategy : string;
  successful : option nat;
  completed_at : option string;
  final_stats : option FinalStats;
  error : option string
}.

(** Arguments of a scheduled [process_discount_update]. *)
Record Task : Type := {
  t_task_id : string;
  t_session_id : string;
  t_strategy : DiscountStrategy;
  t_value : Q;
  t_target_discount : option Q;
  t_filter_type : string;
  t_filter_value : option string;
  t_limit_products : option Z
}.

(** *** Process state *)

Record World : Type := {
  task_progress : gmap string Progress;
  (** every value the registry has taken, newest first *)
  registry_log : list (gmap string Progress);
  (** [PUT] requests sent to the shop, newest first *)
  remote_calls : list VariantPayload;
  (** rows of [price_changes], newest first *)
  price_changes : list PriceChange;
  (** rows of [rollback_sessions], newest first *)
  rollback_sessions : list RollbackSession;
  (** tasks handed to [BackgroundTasks], oldest first *)
  background_tasks : list Task
}.

(** *** What the process cannot decide: the shop, the database, the clock *)

Inductive CatalogQuery : Type :=
| AllProducts (limit : Z)
| ByProductType (limit : Z) (product_type : option string)
| ByVendor (limit : Z) (vendor : option string).

Record Env : Type := {
  (** [shopify_client.get_products]: a list, or the exception of the request *)
  shop_get_products : CatalogQuery -> result (list Product);
  (** [shopify_client.get_products_by_collection_smart]: every request in
      it sits under an [except Exception], so it always returns a list *)
  shop_get_products_by_collection_smart : option string -> Z -> list Product;
  (** outcome of a [PUT], given the requests sent before it: [None] when
      the shop accepts it, the exception of [raise_for_status] otherwise *)
  shop_put_variant : list VariantPayload -> VariantPayload -> option exn;
  (** outcome of the insert of [log_price_change], given the rows so far *)
  db_insert_price_change : list PriceChange -> PriceChange -> option exn;
  (** [str(uuid.uuid4())], by the number of sessions created so far *)
  uuid4 : nat -> string;
  (** [int(time.time())] *)
  time_now : Z;
  (** [datetime.now().isoformat()] *)
  isoformat_now : string;
  (** [str] of a float inside an f-string *)
  float_str : Q -> string
}.

(** *** State and exceptions *)

Definition M (A : Type) : Type := World -> result A * World.

Definition ret {A} (a : A) : M A := fun w => (Ok a, w).

Definition raise {A} (e : exn) : M A := fun w => (Raise e, w).

Definition mbind {A B} (c : M A) (k : A -> M B) : M B :=
  fun w =>
    match c w with
    | (Ok a, w') => k a w'
    | (Raise e, w') => (Raise e, w')
    end.

Definition lift {A} (r : result A) : M A := fun w => (r, w).

(** [try: body  except Exception as e: handler(e)]; what [body] did to the
    state before it raised stays done. *)
Definition try_except {A} (body : M A) (handler : exn -> M A) : M A :=
  fun w =>
    match body w with
    | (Ok a, w') => (Ok a, w')
    | (Raise e, w') => handler e w'
    end.

Declare Scope py_scope.
Delimit Scope py_scope with py.
Notation "x <- c ;; k" := (mbind c (fun x => k))
  (at level 100, c at next level, right associativity) : py_scope.
Notation "c ;;; k" := (mbind c (fun _ => k))
  (at level 100, right associativity) : py_scope.
Local Open Scope py_scope.

(** *** The registry [task_progress] *)

Definition set_registry (reg : gmap string Progress) : M unit :=
  fun w =>
    (Ok tt,
     {| task_progress := reg;
        registry_log := reg :: registry_log w;
        remote_calls := remote_calls w;
        price_changes := price_changes w;
        rollback_sessions := rollback_sessions w;
        background_tasks := background_tasks w |}).

(** [task_progress[task_id] = p] *)
Definition registry_assign (task_id : string) (p : Progress) : M unit :=
  fun w => set_registry (<[task_id := p]> (task_progress w)) w.

(** [task_progress[task_id].update(...)] and other changes in place of the
    dict stored under [task_id]; [KeyError] when there is none. *)
Definition registry_modify (task_id : string) (f : Progress -> Progress) : M unit :=
  fun w =>
    match task_progress w !! task_id with
    | Some p => set_registry (<[task_id := f p]> (task_progress w)) w
    | None => (Raise (KeyError task_id), w)
    end.

Definition registry_read (task_id : string) : M Progress :=
  fun w =>
    match task_progress w !! task_id with
    | Some p => (Ok p, w)
    | None => (Raise (KeyError task_id), w)
    end.

(** *** Collaborators *)

Definition log_remote_call (payload : VariantPayload) (w : World) : World :=
  {| task_progress := task_progress w;
     registry_log := registry_log w;
     remote_calls := payload :: remote_calls w;
     price_changes := price_changes w;
     rollback_sessions := rollback_sessions w;
     background_tasks := background_tasks w |}.

(** The payload of [ShopifyClient.update_variant_price]:
    [compare_at_price] enters it only when it is a non-empty string. *)
Definition variant_payload (variant_id : Z) (price : string)
    (compare_at_price : option string) : VariantPayload :=
  {| payload_id := variant_id;
     payload_price := price;
     payload_compare_at_price :=
       match compare_at_price with
       | Some s => if String.eqb s "" then None else Some s
       | None => None
       end |}.

(** [ShopifyClient.update_variant_price] *)
Definition update_variant_price (env : Env) (variant_id : Z) (price : string)
    (compare_at_price : option string) : M unit :=
  let payload := variant_payload variant_id price compare_at_price in
  fun w =>
    match shop_put_variant env (remote_calls w) payload with
    | None => (Ok tt, log_remote_call payload w)
    | Some e => (Raise e, log_remote_call payload w)
    end.

(** [DatabaseManager.log_price_change] *)
Definition log_price_change (env : Env) (change_data : PriceChange) : M unit :=
  fun w =>
    match db_insert_price_change env (price_changes w) change_data with
    | None =>
        (Ok tt,
         {| task_progress := task_progress w;
            registry_log := registry_log w;
            remote_calls := remote_calls w;
            price_changes := change_data :: price_changes w;
            rollback_sessions := rollback_sessions w;
            background_tasks := background_tasks w |})
    | Some e => (Raise e, w)
    end.

(** [DatabaseManager.create_rollback_session] *)
Definition create_rollback_session (env : Env) (operation_type description : string)
    : M string :=
  fun w =>
    let session_id := uuid4 env (length (rollback_sessions w)) in
    (Ok session_id,
     {| task_progress := task_progress w;
        registry_log := registry_log w;
        remote_calls := remote_calls w;
        price_changes := price_changes w;
        rollback_sessions :=
          {| rs_session_id := session_id;
             rs_operation_type := operation_type;
             rs_description := description |} :: rollback_sessions w;
        background_tasks := background_tasks w |}).

(** [background_tasks.add_task(process_discount_update, ...)] *)
Definition add_task (t : Task) : M unit :=
  fun w =>
    (Ok tt,
     {| task_progress := task_progress w;
        registry_log := registry_log w;
        remote_calls := remote_calls w;
        price_changes := price_changes w;
        rollback_sessions := rollback_sessions w;
        background_tasks := background_tasks w ++ [t] |}).

(** *** get_filtered_products *)

(** The body of the [try]. *)
Definition catalog_request (env : Env) (filter_type : string)
    (filter_value : option string) (limit : option Z) : result (list Product) :=
  if String.eqb filter_type "all" then
    shop_get_products env (AllProducts (or_default limit 250))
  else if String.eqb filter_type "collection" then
    Ok (shop_get_products_by_collection_smart env filter_value (or_default limit 250))
  else if String.eqb filter_type "product_type" then
    shop_get_products env (ByProductType (or_default limit 250) filter_value)
  else if String.eqb filter_type "vendor" then
    shop_get_products env (ByVendor (or_default limit 250) filter_value)
  else Ok [].

Definition get_filtered_products (env : Env) (filter_type : string)
    (filter_value : option string) (limit : option Z) : M (list Product) :=
  try_except
    (lift (catalog_request env filter_type filter_value limit))
    (fun e => ret []).

(** *** update_single_variant_discount *)

Definition update_single_variant_discount (env : Env)
    (product : Product) (variant : Variant) (strategy : DiscountStrategy)
    (value : Q) (target_discount : option Q) (session_id : string) : M bool :=
  try_except
    (let current_price := variant_price variant in
     let current_compare_at_price := variant_compare_at_price variant in
     prices <- lift (calculate_new_prices current_price current_compare_at_price
                       strategy value target_discount) ;;
     let '(new_price, new_compare_at_price) := prices in
     update_variant_price env (variant_id variant)
       (format_2f new_price)
       (if_opt new_compare_at_price (fun c => Some (format_2f c)) None) ;;;
     old_discount <- lift (guarded_discount current_price current_compare_at_price) ;;
     new_discount <- lift (guarded_discount new_price new_compare_at_price) ;;
     log_price_change env
       {| pc_product_id := product_id product;
          pc_variant_id := variant_id variant;
          pc_old_price := current_price;
          pc_new_price := new_price;
          pc_old_compare_at_price := current_compare_at_price;
          pc_new_compare_at_price := new_compare_at_price;
          pc_change_type := "DISCOUNT_UPDATE";
          pc_session_id := session_id;
          pc_notes :=
            "Стратегія: " +:+ strategy_value strategy
            +:+ ", Стара знижка: " +:+ format_2f old_discount
            +:+ "%, Нова знижка: " +:+ format_2f new_discount +:+ "%";
          pc_rollback_data :=
            {| rb_variant_id := variant_id variant;
               restore_price := current_price;
               restore_compare_at_price := current_compare_at_price;
               rb_old_discount_percentage := old_discount;
               rb_new_discount_percentage := new_discount |} |} ;;;
     ret true)
    (fun e => ret false).

(** *** process_discount_update *)

Definition initial_progress (session_id : string) (strategy : DiscountStrategy)
    : Progress :=
  {| status := "initializing";
     current := 0;
     total := 0;
     percentage := 0;
     current_item := None;
     errors := [];
     session_id := session_id;
     strategy := strategy_value strategy;
     successful := None;
     completed_at := None;
     final_stats := None;
     error := None |}.

(** [.update({'total': total_variants, 'status': 'processing'})] *)
Definition set_processing (total_variants : nat) (p : Progress) : Progress :=
  {| status := "processing";
     current := current p;
     total := total_variants;
     percentage := percentage p;
     current_item := current_item p;
     errors := errors p;
     session_id := session_id p;
     strategy := strategy p;
     successful := successful p;
     completed_at := completed_at p;
     final_stats := final_stats p;
     error := error p |}.

(** [.update({'current': ..., 'successful': ..., 'percentage': ..., 'current_item': ...})] *)
Definition set_unit_progress (current' successful_updates : nat)
    (percentage' : Z) (item : string) (p : Progress) : Progress :=
  {| status := status p;
     current := current';
     total := total p;
     percentage := percentage';
     current_item := Some item;
     errors := errors p;
     session_id := session_id p;
     strategy := strategy p;
     successful := Some successful_updates;
     completed_at := completed_at p;
     final_stats := final_stats p;
     error := error p |}.

(** [['errors'].append(entry)] *)
Definition append_error (entry : ErrorEntry) (p : Progress) : Progress :=
  {| status := status p;
     current := current p;
     total := total p;
     percentage := percentage p;
     current_item := current_item p;
     errors := errors p ++ [entry];
     session_id := session_id p;
     strategy := strategy p;
     successful := successful p;
     completed_at := completed_at p;
     final_stats := final_stats p;
     error := error p |}.

(** [.update({'status': 'completed', 'completed_at': ..., 'final_stats': {...}})] *)
Definition set_completed (now : string) (current' successful_updates : nat)
    (p : Progress) : Progress :=
  {| status := "completed";
     current := current p;
     total := total p;
     percentage := percentage p;
     current_item := current_item p;
     errors := errors p;
     session_id := session_id p;
     strategy := strategy p;
     successful := successful p;
     completed_at := Some now;
     final_stats :=
       Some {| total_processed := current';
               successful_updates := successful_updates;
               errors_count := length (errors p) |};
     error := error p |}.

(** [.update({'status': 'failed', 'error': str(e)})] *)
Definition set_failed (e : exn) (p : Progress) : Progress :=
  {| status := "failed";
     current := current p;
     total := total p;
     percentage := percentage p;
     current_item := current_item p;
     errors := errors p;
     session_id := session_id p;
     strategy := strategy p;
     successful := successful p;
     completed_at := completed_at p;
     final_stats := final_stats p;
     error := Some (exn_str e) |}.

(** The [except Exception as e] of the loop body. *)
Definition record_unit_error (task_id : string) (product : Product)
    (variant : Variant) (e : exn) : M unit :=
  registry_modify task_id
    (append_error {| err_product := product_title product;
                     err_variant_id := variant_id variant;
                     err_error := exn_str e |}).

(** [f"{product['title']} - {variant.get('title', 'За замовчуванням')}"] *)
Definition item_label (product : Product) (variant : Variant) : string :=
  product_title product +:+ " - "
  +:+ match variant_title variant with
      | Some t => t
      | None => "За замовчуванням"
      end.

(** The progress update that closes the [try] block of the loop body;
    [asyncio.sleep(0.5)] after it changes nothing here. *)
Definition publish_unit_progress (task_id : string) (total_variants : nat)
    (product : Product) (variant : Variant)
    (current' successful_updates : nat) : M unit :=
  ratio <- lift (fdiv (inject_Z (Z.of_nat current'))
                      (inject_Z (Z.of_nat total_variants))) ;;
  registry_modify task_id
    (set_unit_progress current' successful_updates
       (int_of_float (ratio * 100)) (item_label product variant)).

(** One turn of the inner loop on the locals [(current, successful_updates)].
    An exception leaves the locals as they were when it was raised. *)
Definition process_unit (env : Env) (task_id session_id : string)
    (strategy : DiscountStrategy) (value : Q) (target_discount : option Q)
    (total_variants : nat) (product : Product) (variant : Variant)
    (locals : nat * nat) : M (nat * nat) :=
  fun w =>
    let '(current0, successful0) := locals in
    match update_single_variant_discount env product variant strategy value
            target_discount session_id w with
    | (Raise e, w1) =>
        (record_unit_error task_id product variant e ;;;
         ret (current0, successful0)) w1
    | (Ok success, w1) =>
        let successful1 := if success then S successful0 else successful0 in
        let current1 := S current0 in
        match publish_unit_progress task_id total_variants product variant
                current1 successful1 w1 with
        | (Raise e, w2) =>
            (record_unit_error task_id product variant e ;;;
             ret (current1, successful1)) w2
        | (Ok _, w2) => (Ok (current1, successful1), w2)
        end
    end.

(** [for x in xs: body] on the loop's locals. *)
Fixpoint for_each {A S : Type} (xs : list A) (body : A -> S -> M S) (s : S) : M S :=
  match xs with
  | [] => ret s
  | x :: xs' => s' <- body x s ;; for_each xs' body s'
  end.

(** [sum(len(p.get('variants', [])) for p in products)] *)
Definition count_variants (products : list Product) : nat :=
  list_sum (map (fun p => length (product_variants p)) products).

Definition process_discount_update (env : Env) (task_id session_id : string)
    (strategy : DiscountStrategy) (value : Q) (target_discount : option Q)
    (filter_type : string) (filter_value : option string)
    (limit_products : option Z) : M unit :=
  try_except
    (registry_assign task_id (initial_progress session_id strategy) ;;;
     products <- get_filtered_products env filter_type filter_value limit_products ;;
     let total_variants := count_variants products in
     registry_modify task_id (set_processing total_variants) ;;;
     locals <- for_each products
                 (fun product =>
                    for_each (product_variants product)
                      (process_unit env task_id session_id strategy value
                         target_discount total_variants product))
                 (0%nat, 0%nat) ;;
     let '(current', successful_updates) := locals in
     registry_modify task_id
       (set_completed (isoformat_now env) current' successful_updates))
    (fun e => registry_modify task_id (set_failed e)).

Definition run_task (env : Env) (t : Task) : M unit :=
  process_discount_update env (t_task_id t) (t_session_id t) (t_strategy t)
    (t_value t) (t_target_discount t) (t_filter_type t) (t_filter_value t)
    (t_limit_products t).

(** *** The endpoints *)

Record StartResponse : Type := {
  resp_task_id : string;
  resp_session_id : string;
  resp_status : string;
  resp_message : string
}.

(** [POST /update-prices] *)
Definition update_prices (env : Env) (strategy : string) (value : Q)
    (target_discount : option Q) (filter_type : string)
    (filter_value : option string) (limit_products : option Z) : M StartResponse :=
  match strategy_of_string strategy with
  | Raise _ => raise (HTTPException 400 "Невірна стратегія знижки")
  | Ok discount_strategy =>
      let strategy_description := get_strategy_description discount_strategy in
      session_id <- create_rollback_session env "DISCOUNT_UPDATE"
                      (strategy_description +:+ " - значення: "
                       +:+ float_str env value +:+ "%") ;;
      let task_id := "discount_update_" +:+ digits (time_now env) in
      add_task {| t_task_id := task_id;
                  t_session_id := session_id;
                  t_strategy := discount_strategy;
                  t_value := value;
                  t_target_discount := target_discount;
                  t_filter_type := filter_type;
                  t_filter_value := filter_value;
                  t_limit_products := limit_products |} ;;;
      ret {| resp_task_id := task_id;
             resp_session_id := session_id;
             resp_status := "started";
             resp_message :=
               "Оновлення знижок розпочато: " +:+ strategy_description |}
  end.


End Main.

(** ** Vocabulary of the statements: the words of the specification and
    the invariants of the job *)

Module Spec.
Import Py DiscountCalculator Main.

(** A call returned the quote [(p, c)], up to equality of rationals. *)
Definition returns_quote (r : result (Q * option Q)) (p c : Q) : Prop :=
  exists p' c', r = Ok (p', Some c') /\ p' == p /\ c' == c.

(** The per-strategy table of the specification for the three strategies
    that take [value], read on the compare price [existing] that it
    counts as present. *)
Definition table_row (strategy : DiscountStrategy) (currentPrice : Q)
    (existing : option Q) (value : Q) : option (Q * Q) :=
  match strategy with
  | INCREASE_COMPARE_ONLY =>
      Some (currentPrice,
            match existing with Some c => c | None => currentPrice end
            * (1 + value / 100))
  | DECREASE_PRICE_ONLY =>
      Some (currentPrice * (1 - Qabs value / 100),
            match existing with Some c => c | None => currentPrice end)
  | BOTH_DIRECTIONS =>
      Some (currentPrice * (1 + value / 100),
            match existing with
            | Some c => c * (1 + 1.5 * value / 100)
            | None => currentPrice * (1 + 2 * Qabs value / 100)
            end)
  | SET_DISCOUNT_PERCENTAGE => None
  end.

(** The compare price that the code counts as existing: present and not zero. *)
Definition effective_compare (compare : option Q) : option Q :=
  if_opt compare (fun c => Some c) None.

(** [y] has two decimal places. *)
Definition two_decimals (y : Q) : Prop := exists z : Z, y == z # 100.

(** [y] is [x] rounded to two decimal places. *)
Definition rounded_to_2 (x y : Q) : Prop :=
  two_decimals y /\ Qabs (y - x) <= 1 # 200.

Definition opt_rounded_to_2 (x : Q) (y : option Q) : Prop :=
  match y with
  | Some y' => rounded_to_2 x y'
  | None => False
  end.

(** Consecutive states of one job's entry: no counter goes down, and the
    [successful] key, once there, stays. *)
Definition opt_le (a b : option nat) : Prop :=
  match a, b with
  | None, _ => True
  | Some x, Some y => (x <= y)%nat
  | Some _, None => False
  end.

Definition counters_le (p q : Progress) : Prop :=
  (current p <= current q)%nat /\
  (percentage p <= percentage q)%Z /\
  opt_le (successful p) (successful q).

(** The entries stored under [task_id] in a list of registry values. *)
Definition entry_log (task_id : string) (log : list (gmap string Progress))
    : list Progress :=
  omap (fun reg : gmap string Progress => reg !! task_id) log.

(** The units of a product list, in processing order. *)
Definition units (products : list Product) : list (Product * Variant) :=
  flat_map (fun p => map (pair p) (product_variants p)) products.

(** [int((current / total_variants) * 100)] *)
Definition pct (total_variants current' : nat) : Z :=
  int_of_float (inject_Z (Z.of_nat current') / inject_Z (Z.of_nat total_variants) * 100).

(** What [get_filtered_products] returns. *)
Definition enumerated (env : Env) (filter_type : string)
    (filter_value : option string) (limit : option Z) : list Product :=
  match catalog_request env filter_type filter_value limit with
  | Ok products => products
  | Raise _ => []
  end.

(** Number of [True] in a list of unit outcomes. *)
Fixpoint count_true (bs : list bool) : nat :=
  match bs with
  | [] => 0
  | b :: bs' => (if b then 1 else 0) + count_true bs'
  end.

(** A computation that leaves the registry, the sessions and the
    scheduled tasks as they are. *)
Definition quiet {A} (c : M A) : Prop :=
  forall w,
    task_progress (snd (c w)) = task_progress w /\
    registry_log (snd (c w)) = registry_log w /\
    rollback_sessions (snd (c w)) = rollback_sessions w /\
    background_tasks (snd (c w)) = background_tasks w.

(** The call of [update_single_variant_discount] that the job makes for a unit. *)
Definition update_unit (env : Env) (strategy : DiscountStrategy) (value : Q)
    (target_discount : option Q) (session_id : string)
    (u : Product * Variant) : M bool :=
  update_single_variant_discount env (fst u) (snd u) strategy value
    target_discount session_id.

(** The price computation of a unit. *)
Definition unit_prices (strategy : DiscountStrategy) (value : Q)
    (target_discount : option Q) (u : Product * Variant)
    : result (Q * option Q) :=
  calculate_new_prices (variant_price (snd u))
    (variant_compare_at_price (snd u)) strategy value target_discount.

(** The identifier of a unit. *)
Definition unit_id (u : Product * Variant) : Z := variant_id (snd u).

(** The request that [update_single_variant_discount] sends for new prices. *)
Definition unit_request (u : Product * Variant) (np : Q) (nc : option Q)
    : VariantPayload :=
  variant_payload (variant_id (snd u)) (format_2f np)
    (if_opt nc (fun c => Some (format_2f c)) None).

(** A later state of an entry against an earlier one. *)
Definition not_below (newer older : Progress) : Prop := counters_le older newer.

(** The loop of [process_discount_update] after [c] units of which [s]
    succeeded: the entry of the job is in the registry with these
    counters and no error, and the registry values written since [log0],
    two before the loop and one for each unit, all hold an entry for the
    job, none with a counter below an earlier one. *)
Definition loop_inv (task_id : string) (T : nat)
    (log0 : list (gmap string Progress)) (c s : nat) (w : World) : Prop :=
  exists p rest,
    task_progress w !! task_id = Some p /\
    registry_log w = (task_progress w :: rest) ++ log0 /\
    length rest = S c /\
    Forall (fun reg : gmap string Progress => is_Some (reg !! task_id))
      (task_progress w :: rest) /\
    Sorted not_below (entry_log task_id (task_progress w :: rest)) /\
    status p = "processing" /\
    total p = T /\
    errors p = [] /\
    error p = None /\
    current p = c /\
    percentage p = pct T c /\
    successful p = (if Nat.eqb c 0 then None else Some s) /\
    (s <= c)%nat.

(** The loop body of the job on a unit. *)
Definition unit_turn (env : Env) (task_id session_id : string)
    (strategy : DiscountStrategy) (value : Q) (target_discount : option Q)
    (total_variants : nat) (u : Product * Variant) : nat * nat -> M (nat * nat) :=
  process_unit env task_id session_id strategy value target_discount
    total_variants (fst u) (snd u).

(** The final entry of a job that went through [N] units, [succ] of them
    with success. *)
Definition completed_with (N succ : nat) (pf : Progress) : Prop :=
  status pf = "completed" /\
  current pf = N /\
  total pf = N /\
  percentage pf = pct N N /\
  errors pf = [] /\
  error pf = None /\
  successful pf = (if Nat.eqb N 0 then None else Some succ) /\
  final_stats pf = Some {| total_processed := N;
                           successful_updates := succ;
                           errors_count := 0 |}.

End Spec.

(** ** Sample catalog, shop and database *)

Module Examples.
Import Py DiscountCalculator Main.

Definition variant_s : Variant :=
  {| variant_id := 1001;
     variant_title := Some "S";
     variant_price := 100;
     variant_compare_at_price := Some 120 |}.

Definition variant_default : Variant :=
  {| variant_id := 1002;
     variant_title := None;
     variant_price := 50;
     variant_compare_at_price := None |}.

Definition shirt : Product :=
  {| product_id := 1;
     product_title := "Shirt";
     product_variants := [variant_s; variant_default] |}.

Definition cap : Product :=
  {| product_id := 2;
     product_title := "Cap";
     product_variants := [variant_s] |}.

(** A shop and a database that answer every request. *)
Definition env_up (products : list Product) : Env :=
  {| shop_get_products := fun _ => Ok products;
     shop_get_products_by_collection_smart := fun _ _ => products;
     shop_put_variant := fun _ _ => None;
     db_insert_price_change := fun _ _ => None;
     uuid4 := fun n => "session-" +:+ digits (Z.of_nat n);
     time_now := 1700000000;
     isoformat_now := "2023-11-14T22:13:20";
     float_str := fun _ => "15.0" |}.

(** The shop rejects the update of variant 1001 and accepts the others. *)
Definition env_rejects_1001 : Env :=
  {| shop_get_products := fun _ => Ok [shirt];
     shop_get_products_by_collection_smart := fun _ _ => [shirt];
     shop_put_variant :=
       fun _ payload =>
         if (payload_id payload =? 1001)%Z
         then Some (HTTPError "422 Client Error: Unprocessable Entity")
         else None;
     db_insert_price_change := fun _ _ => None;
     uuid4 := fun n => "session-" +:+ digits (Z.of_nat n);
     time_now := 1700000000;
     isoformat_now := "2023-11-14T22:13:20";
     float_str := fun _ => "15.0" |}.

(** The shop accepts every update and the history database is locked. *)
Definition env_history_locked : Env :=
  {| shop_get_products := fun _ => Ok [cap];
     shop_get_products_by_collection_smart := fun _ _ => [cap];
     shop_put_variant := fun _ _ => None;
     db_insert_price_change := fun _ _ => Some (DatabaseError "database is locked");
     uuid4 := fun n => "session-" +:+ digits (Z.of_nat n);
     time_now := 1700000000;
     isoformat_now := "2023-11-14T22:13:20";
     float_str := fun _ => "15.0" |}.

(** The shop refuses the listing of products. *)
Definition env_catalog_down : Env :=
  {| shop_get_products := fun _ => Raise (HTTPError "401 Client Error: Unauthorized");
     shop_get_products_by_collection_smart := fun _ _ => [];
     shop_put_variant := fun _ _ => None;
     db_insert_price_change := fun _ _ => None;
     uuid4 := fun n => "session-" +:+ digits (Z.of_nat n);
     time_now := 1700000000;
     isoformat_now := "2023-11-14T22:13:20";
     float_str := fun _ => "15.0" |}.

(** A process that has just started. *)
Definition world0 : World :=
  {| task_progress := ∅;
     registry_log := [];
     remote_calls := [];
     price_changes := [];
     rollback_sessions := [];
     background_tasks := [] |}.

(** The job on the shop that rejects variant 1001. *)
Definition run_rejects_1001 : World :=
  snd (process_discount_update env_rejects_1001 "discount_update_1700000000"
         "session-0" INCREASE_COMPARE_ONLY 15 None "all" None None world0).




(** The job while the shop refuses the listing. *)
Definition run_catalog_down : World :=
  snd (process_discount_update env_catalog_down "discount_update_1700000000"
         "session-0" INCREASE_COMPARE_ONLY 15 None "all" None None world0).

End Examples.

(** ** Vocabulary of the further statements *)

Module Steps.
Import Py DiscountCalculator Main Spec.

(** The state when the loop of a job starts: the initial dict has been
    stored under the task id and switched to processing. *)
Definition started_world (task_id session_id : string)
    (strategy : DiscountStrategy) (N : nat) (w : World) : World :=
  let reg_a := <[task_id := initial_progress session_id strategy]> (task_progress w) in
  snd (set_registry
         (<[task_id := set_processing N (initial_progress session_id strategy)]> reg_a)
         (snd (set_registry reg_a w))).

(** The state after the turn of the loop on unit [u]: [w1] is the state
    that [update_single_variant_discount] left, [p] the entry before the
    turn, [c] and [s] the counters before it and [b] the outcome. *)
Definition turn_world (task_id : string) (T c s : nat) (u : Product * Variant)
    (b : bool) (p : Progress) (w1 : World) : World :=
  snd (set_registry
         (<[task_id := set_unit_progress (S c) (s + if b then 1 else 0)
                         (pct T (S c)) (item_label (fst u) (snd u)) p]>
            (task_progress w1))
         w1).

(** The state after the final update of a job. *)
Definition finished_world (task_id now : string) (c s : nat) (p : Progress)
    (w : World) : World :=
  snd (set_registry (<[task_id := set_completed now c s p]> (task_progress w)) w).

End Steps.

(** ** Vocabulary of the further statements, continued *)

Module Audit.
Import Py DiscountCalculator Main Spec Steps.

(** The discount that the code logs and previews for a quote: that of
    [calculate_discount_percentage] when the compare price is present, not
    zero and above the price, else 0. *)
Definition shown_discount (price : Q) (compare : option Q) : Q :=
  match effective_compare compare with
  | Some c => if fgt c price then (c - price) / c * 100 else 0
  | None => 0
  end.

(** The row that [update_single_variant_discount] hands to
    [log_price_change] for unit [u] and new prices [(np, nc)]. *)
Definition unit_row (session_id : string) (strategy : DiscountStrategy)
    (u : Product * Variant) (np : Q) (nc : option Q) : PriceChange :=
  let current_price := variant_price (snd u) in
  let current_compare_at_price := variant_compare_at_price (snd u) in
  let old_discount := shown_discount current_price current_compare_at_price in
  let new_discount := shown_discount np nc in
  {| pc_product_id := product_id (fst u);
     pc_variant_id := variant_id (snd u);
     pc_old_price := current_price;
     pc_new_price := np;
     pc_old_compare_at_price := current_compare_at_price;
     pc_new_compare_at_price := nc;
     pc_change_type := "DISCOUNT_UPDATE";
     pc_session_id := session_id;
     pc_notes :=
       "Стратегія: " +:+ strategy_value strategy
       +:+ ", Стара знижка: " +:+ format_2f old_discount
       +:+ "%, Нова знижка: " +:+ format_2f new_discount +:+ "%";
     pc_rollback_data :=
       {| rb_variant_id := variant_id (snd u);
          restore_price := current_price;
          restore_compare_at_price := current_compare_at_price;
          rb_old_discount_percentage := old_discount;
          rb_new_discount_percentage := new_discount |} |}.

(** The state with one more history row. *)
Definition add_row (row : PriceChange) (w : World) : World :=
  {| task_progress := task_progress w;
     registry_log := registry_log w;
     remote_calls := remote_calls w;
     price_changes := row :: price_changes w;
     rollback_sessions := rollback_sessions w;
     background_tasks := background_tasks w |}.

(** The requests that a job sends for a list of units, oldest first: one
    for each unit whose price computation returns. *)
Definition requests_of (strategy : DiscountStrategy) (value : Q)
    (target_discount : option Q) (us : list (Product * Variant))
    : list VariantPayload :=
  flat_map
    (fun u =>
       match unit_prices strategy value target_discount u with
       | Ok (np, nc) => [unit_request u np nc]
       | Raise _ => []
       end)
    us.

(** A history row written by a job for a unit of its catalog. *)
Definition row_of_job (session_id : string) (strategy : DiscountStrategy)
    (value : Q) (target_discount : option Q) (all : list (Product * Variant))
    (row : PriceChange) : Prop :=
  exists u np nc,
    In u all /\
    unit_prices strategy value target_discount u = Ok (np, nc) /\
    row = unit_row session_id strategy u np nc.

(** A logged registry value in which the entry of the job, when there,
    has its percentage between 0 and 100 and its current at most [N]. *)
Definition entry_in_bounds (task_id : string) (N : nat)
    (reg : gmap string Progress) : Prop :=
  forall p, reg !! task_id = Some p ->
            (0 <= percentage p <= 100)%Z /\ (current p <= N)%nat.

(** What holds of the state of a job that started in [w0], after [c] of
    the units [all], [s] of them with success. *)
Definition job_inv (task_id session_id : string) (strategy : DiscountStrategy)
    (value : Q) (target_discount : option Q) (all : list (Product * Variant))
    (w0 : World) (c s : nat) (w : World) : Prop :=
  (forall other, other <> task_id ->
                 task_progress w !! other = task_progress w0 !! other) /\
  (forall p, task_progress w !! task_id = Some p ->
             Main.session_id p = session_id /\
             Main.strategy p = strategy_value strategy /\
             total p = length all) /\
  (exists l, registry_log w = l ++ registry_log w0 /\
             Forall (entry_in_bounds task_id (length all)) l) /\
  rollback_sessions w = rollback_sessions w0 /\
  background_tasks w = background_tasks w0 /\
  remote_calls w
  = rev (requests_of strategy value target_discount (firstn c all))
    ++ remote_calls w0 /\
  (exists rows, price_changes w = rows ++ price_changes w0 /\
                length rows = s /\
                Forall (row_of_job session_id strategy value target_discount all) rows).

End Audit.

(** ** app/main.py: the preview endpoint *)

Module Endpoints.
Import Py DiscountCalculator Main.
Local Open Scope py_scope.

(** What [POST /preview-changes] returns: [{"error": ...}], or the dict of
    [preview_discount_change] with the keys [product_title],
    [variant_title] and [savings_amount] added. *)
Inductive PreviewResponse : Type :=
| PreviewError (error : string)
| PreviewResult (preview : DiscountCalculator.Preview)
    (product_title variant_title : string) (savings_amount : Q).

(** [POST /preview-changes]: the preview of the first variant of the first
    product that the filter gives. *)
Definition preview_changes (env : Env) (strategy : string) (value : Q)
    (target_discount : option Q) (filter_type : string)
    (filter_value : option string) : M PreviewResponse :=
  try_except
    (discount_strategy <- lift (strategy_of_string strategy) ;;
     products <- get_filtered_products env filter_type filter_value (Some 1%Z) ;;
     match products with
     | [] => ret (PreviewError "Не знайдено товарів за вказаними критеріями")
     | product :: _ =>
         match product_variants product with
         | [] => ret (PreviewError "У товару немає варіантів")
         | variant :: _ =>
             let current_price := variant_price variant in
             let current_compare_at_price := variant_compare_at_price variant in
             preview <- lift (preview_discount_change current_price
                                current_compare_at_price discount_strategy
                                value target_discount) ;;
             ret (PreviewResult preview
                    (Main.product_title product)
                    match Main.variant_title variant with
                    | Some t => t
                    | None => "За замовчуванням"
                    end
                    (if_opt (new_compare_at_price preview) (fun c => c) 0
                     - new_price preview))
         end
     end)
    (fun e => ret (PreviewError ("Помилка створення прикладу: " +:+ exn_str e))).

End Endpoints.

(** ** app/discount_strategies.py with rounded arithmetic

    The same two functions with the result of every float operation
    passed through a rounding operator [rnd].  With [rnd] the identity
    this is the exact arithmetic of [DiscountCalculator]; with [rnd53] it
    is binary64 wherever no result overflows or underflows.  Constants,
    [abs] and comparisons are exact in binary64 and are not rounded. *)

Module Rounded.
Import Py DiscountCalculator.

Section Ops.

Variable rnd : Q -> Q.

Definition fdiv (x y : Q) : result Q :=
  if Qeq_bool y 0 then Raise ZeroDivisionError else Ok (rnd (x / y)).

Definition calculate_new_prices
    (current_price : Q) (current_compare_at_price : option Q)
    (strategy : DiscountStrategy) (value : Q)
    (target_discount_percentage : option Q) : result (Q * option Q) :=
  match strategy with
  | INCREASE_COMPARE_ONLY =>
      let new_price := current_price in
      let new_compare_at_price :=
        if_opt current_compare_at_price
          (fun c => rnd (c * rnd (1 + rnd (value / 100))))
          (rnd (current_price * rnd (1 + rnd (value / 100)))) in
      Ok (new_price, Some new_compare_at_price)
  | DECREASE_PRICE_ONLY =>
      let new_price :=
        rnd (current_price * rnd (1 - rnd (Qabs value / 100))) in
      let new_compare_at_price :=
        if_opt current_compare_at_price (fun c => c) current_price in
      Ok (new_price, Some new_compare_at_price)
  | BOTH_DIRECTIONS =>
      let new_price := rnd (current_price * rnd (1 + rnd (value / 100))) in
      let new_compare_at_price :=
        if_opt current_compare_at_price
          (fun c =>
             let compare_multiplier :=
               rnd (1 + rnd (rnd (value * 1.5) / 100)) in
             rnd (c * compare_multiplier))
          (rnd (current_price
                * rnd (1 + rnd (Qabs (rnd (value * 2)) / 100)))) in
      Ok (new_price, Some new_compare_at_price)
  | SET_DISCOUNT_PERCENTAGE =>
      match target_discount_percentage with
      | None =>
          Raise (ValueError "target_discount_percentage обов'язковий для цієї стратегії")
      | Some target =>
          let new_price := current_price in
          bind (fdiv current_price (rnd (1 - rnd (target / 100))))
            (fun new_compare_at_price =>
               Ok (new_price, Some new_compare_at_price))
      end
  end.

Definition calculate_discount_percentage (price compare_at_price : Q) : result Q :=
  if fle compare_at_price price then Ok 0
  else bind (fdiv (rnd (compare_at_price - price)) compare_at_price)
         (fun ratio => Ok (rnd (ratio * 100))).

End Ops.

(** Half an ulp of a binary64 number in [[1, 2)]: the bound of the relative
    error of one rounded operation. *)
Definition u : Q := 1 # 9007199254740992.

(** The exponent of [x]: the largest [e] with [2 ^ e <= |x|], for [x]
    other than zero. *)
Definition exponent (x : Q) : Z :=
  let e := (Z.log2 (Z.abs (Qnum x)) - Z.log2 (Zpos (Qden x)))%Z in
  if Qle_bool (2 ^ e) (Qabs x) then e else (e - 1)%Z.

(** Rounding to the nearest number with 53 significant bits, ties to even,
    with no bound on the exponent. *)
Definition rnd53 (x : Q) : Q :=
  if Qeq_bool x 0 then 0
  else
    let ulp := 2 ^ (exponent x - 52) in
    inject_Z (round_half_even (x / ulp)) * ulp.

End Rounded.

(** ** app/discount_strategies.py on binary64

    The same two functions on the binary64 numbers of the machine, which
    are Python's [float]: every operation rounds as IEEE 754 does, with
    overflow to infinity, subnormal numbers and NaN. *)

Module Binary64.
Import Py DiscountCalculator PrimFloat.
Local Open Scope float_scope.

(** [if x:] for a float: false for [0.0] and [-0.0], true for NaN. *)
Definition truthy (x : float) : bool := negb (x =? 0).

Definition if_opt {A} (o : option float) (then_ : float -> A) (else_ : A) : A :=
  match o with
  | Some c => if truthy c then then_ c else else_
  | None => else_
  end.

(** [x / y]: [ZeroDivisionError] for a divisor of [0.0] or [-0.0]. *)
Definition fdiv (x y : float) : result float :=
  if y =? 0 then Raise ZeroDivisionError else Ok (x / y).

Definition calculate_new_prices
    (current_price : float) (current_compare_at_price : option float)
    (strategy : DiscountStrategy) (value : float)
    (target_discount_percentage : option float)
    : result (float * option float) :=
  match strategy with
  | INCREASE_COMPARE_ONLY =>
      let new_price := current_price in
      let new_compare_at_price :=
        if_opt current_compare_at_price
          (fun c => c * (1 + value / 100))
          (current_price * (1 + value / 100)) in
      Ok (new_price, Some new_compare_at_price)
  | DECREASE_PRICE_ONLY =>
      let new_price := current_price * (1 - abs value / 100) in
      let new_compare_at_price :=
        if_opt current_compare_at_price (fun c => c) current_price in
      Ok (new_price, Some new_compare_at_price)
  | BOTH_DIRECTIONS =>
      let new_price := current_price * (1 + value / 100) in
      let new_compare_at_price :=
        if_opt current_compare_at_price
          (fun c =>
             let compare_multiplier := 1 + (value * 1.5) / 100 in
             c * compare_multiplier)
          (current_price * (1 + abs (value * 2) / 100)) in
      Ok (new_price, Some new_compare_at_price)
  | SET_DISCOUNT_PERCENTAGE =>
      match target_discount_percentage with
      | None =>
          Raise (ValueError "target_discount_percentage обов'язковий для цієї стратегії")
      | Some target =>
          let new_price := current_price in
          bind (fdiv current_price (1 - target / 100))
            (fun new_compare_at_price =>
               Ok (new_price, Some new_compare_at_price))
      end
  end.

Definition calculate_discount_percentage (price compare_at_price : float)
    : result float :=
  if compare_at_price <=? price then Ok 0
  else bind (fdiv (compare_at_price - price) compare_at_price)
         (fun q => Ok (q * 100)).

(** The rational that a finite binary64 number is; [None] for an infinity
    and for NaN. *)
Definition to_Q (x : float) : option Q :=
  match FloatOps.Prim2SF x with
  | SpecFloat.S754_zero _ => Some 0%Q
  | SpecFloat.S754_finite s m e =>
      Some ((if s then - (1) else 1) * inject_Z (Zpos m) * 2 ^ e)%Q
  | _ => None
  end.

(** A quote on binary64 and a quote on rationals with the same numbers. *)
Definition same_quote (r : result (float * option float))
    (q : result (Q * option Q)) : bool :=
  match r, q with
  | Ok (a, Some b), Ok (x, Some y) =>
      match to_Q a, to_Q b with
      | Some a', Some b' => Qeq_bool a' x && Qeq_bool b' y
      | _, _ => false
      end
  | _, _ => false
  end.

End Binary64.

(** ** app/main.py: process_discount_update as a coroutine

    [process_discount_update] is an [async def] run by the event loop:
    the code between two [await]s runs without interruption, and at an
    [await] that suspends other coroutines run.  It suspends in
    [get_filtered_products] (line 280), in [update_single_variant_discount]
    (line 297) and in [asyncio.sleep] (line 320).  The requests made inside
    [update_single_variant_discount] are taken at once, when the call is
    resumed; they do not touch the registry. *)

Module Coroutine.
Import Py DiscountCalculator Main Spec.
Local Open Scope py_scope.

(** Where a call is suspended, with the locals [total_variants] and
    [(current, successful_updates)] and the units still to visit (the
    nested loops visit [units products] in order). *)
Inductive Point : Type :=
| NotStarted
| AwaitListing
| AwaitUpdate (total_variants : nat) (locals : nat * nat)
    (u : Product * Variant) (rest : list (Product * Variant))
| AwaitSleep (total_variants : nat) (locals : nat * nat)
    (rest : list (Product * Variant))
| Returned (r : result unit).

(** The filter types for which [get_filtered_products] makes a request,
    and so suspends; for any other it returns at once. *)
Definition listing_suspends (filter_type : string) : bool :=
  String.eqb filter_type "all" || String.eqb filter_type "collection"
  || String.eqb filter_type "product_type" || String.eqb filter_type "vendor".

Section Body.

Variable env : Env.
Variable t : Task.

(** The turn of the loop on [u] from the return of
    [update_single_variant_discount] on: the counters, the progress update
    and the sleep.  A turn that ends in the [except] of the loop does not
    sleep and goes on with [continue]. *)
Definition turn (total_variants : nat) (u : Product * Variant)
    (rest : list (Product * Variant)) (locals : nat * nat)
    (continue : nat * nat -> M Point) : M Point :=
  fun w =>
    let '(current0, successful0) := locals in
    match update_single_variant_discount env (fst u) (snd u) (t_strategy t)
            (t_value t) (t_target_discount t) (t_session_id t) w with
    | (Raise e, w1) =>
        (record_unit_error (t_task_id t) (fst u) (snd u) e ;;;
         continue (current0, successful0)) w1
    | (Ok success, w1) =>
        let successful1 := if success then S successful0 else successful0 in
        let current1 := S current0 in
        match publish_unit_progress (t_task_id t) total_variants (fst u) (snd u)
                current1 successful1 w1 with
        | (Raise e, w2) =>
            (record_unit_error (t_task_id t) (fst u) (snd u) e ;;;
             continue (current1, successful1)) w2
        | (Ok _, w2) =>
            (Ok (AwaitSleep total_variants (current1, successful1) rest), w2)
        end
    end.

(** The loop from the head of an iteration to the next suspension.  A
    unit whose price computation raises makes no request:
    [update_single_variant_discount] returns without suspending. *)
Fixpoint loop (total_variants : nat) (rest : list (Product * Variant))
    (locals : nat * nat) : M Point :=
  match rest with
  | [] =>
      let '(current', successful_updates) := locals in
      registry_modify (t_task_id t)
        (set_completed (isoformat_now env) current' successful_updates) ;;;
      ret (Returned (Ok tt))
  | u :: rest' =>
      match unit_prices (t_strategy t) (t_value t) (t_target_discount t) u with
      | Ok _ => ret (AwaitUpdate total_variants locals u rest')
      | Raise _ =>
          turn total_variants u rest' locals (loop total_variants rest')
      end
  end.

(** From the return of [get_filtered_products] to the next suspension. *)
Definition after_listing : M Point :=
  products <- get_filtered_products env (t_filter_type t) (t_filter_value t)
                (t_limit_products t) ;;
  let total_variants := count_variants products in
  registry_modify (t_task_id t) (set_processing total_variants) ;;;
  loop total_variants (units products) (0%nat, 0%nat).

(** The code run when the call is resumed at a point. *)
Definition body (p : Point) : M Point :=
  match p with
  | NotStarted =>
      registry_assign (t_task_id t)
        (initial_progress (t_session_id t) (t_strategy t)) ;;;
      if listing_suspends (t_filter_type t) then ret AwaitListing
      else after_listing
  | AwaitListing => after_listing
  | AwaitUpdate total_variants locals u rest =>
      turn total_variants u rest locals (loop total_variants rest)
  | AwaitSleep total_variants locals rest => loop total_variants rest locals
  | Returned r => ret (Returned r)
  end.

(** A piece of the body under the [try] of the whole function: an
    exception runs the handler and the call returns; an exception of the
    handler leaves the call. *)
Definition settle (piece : M Point) (w : World) : Point * World :=
  match try_except piece
          (fun e =>
             registry_modify (t_task_id t) (set_failed e) ;;;
             ret (Returned (Ok tt))) w with
  | (Ok p', w') => (p', w')
  | (Raise e, w') => (Returned (Raise e), w')
  end.

(** One resumption. *)
Definition resume (p : Point) (w : World) : Point * World :=
  match p with
  | Returned _ => (p, w)
  | _ => settle (body p) w
  end.

End Body.

(** A call run alone: resumed [n] times in a row. *)
Fixpoint resume_n (env : Env) (t : Task) (n : nat) (p : Point) (w : World)
    : Point * World :=
  match n with
  | O => (p, w)
  | S n' => let '(p', w') := resume env t p w in resume_n env t n' p' w'
  end.

(** What is left of [process_discount_update] at the head of the loop, as
    one uninterrupted computation. *)
Definition rest_of_job (env : Env) (t : Task) (total_variants : nat)
    (rest : list (Product * Variant)) (locals : nat * nat) : M unit :=
  try_except
    (ls <- for_each rest
             (fun u =>
                process_unit env (t_task_id t) (t_session_id t) (t_strategy t)
                  (t_value t) (t_target_discount t) total_variants
                  (fst u) (snd u)) locals ;;
     let '(current', successful_updates) := ls in
     registry_modify (t_task_id t)
       (set_completed (isoformat_now env) current' successful_updates))
    (fun e => registry_modify (t_task_id t) (set_failed e)).

(** A piece of the body, then resumptions in a row until the call returns
    [r] in the state [w']. *)
Definition settles (env : Env) (t : Task) (piece : M Point) (w : World)
    (r : result unit) (w' : World) : Prop :=
  exists n,
    (let '(p1, w1) := settle t piece w in resume_n env t n p1 w1)
    = (Returned r, w').

(** The event loop: the calls in flight, and the order in which they are
    resumed (a position outside the list resumes nothing). *)
Fixpoint run (env : Env) (schedule : list nat) (calls : list (Task * Point))
    (w : World) : list (Task * Point) * World :=
  match schedule with
  | [] => (calls, w)
  | i :: schedule' =>
      match calls !! i with
      | Some (t, p) =>
          let '(p', w') := resume env t p w in
          run env schedule' (<[i := (t, p')]> calls) w'
      | None => run env schedule' calls w
      end
  end.

End Coroutine.

(** ** Two jobs started in the same second *)

Module SameSecond.
Import Py DiscountCalculator Main.

(** The tasks that two calls of [POST /update-prices] in the second
    1700000000 schedule. *)
Definition same_second_first : Task :=
  {| t_task_id := "discount_update_1700000000";
     t_session_id := "session-0";
     t_strategy := INCREASE_COMPARE_ONLY;
     t_value := 15;
     t_target_discount := None;
     t_filter_type := "all";
     t_filter_value := None;
     t_limit_products := None |}.

Definition same_second_second : Task :=
  {| t_task_id := "discount_update_1700000000";
     t_session_id := "session-1";
     t_strategy := DECREASE_PRICE_ONLY;
     t_value := 10;
     t_target_discount := None;
     t_filter_type := "all";
     t_filter_value := None;
     t_limit_products := None |}.

(** The task of a call one second later. *)
Definition next_second : Task :=
  {| t_task_id := "discount_update_1700000001";
     t_session_id := "session-1";
     t_strategy := DECREASE_PRICE_ONLY;
     t_value := 10;
     t_target_discount := None;
     t_filter_type := "all";
     t_filter_value := None;
     t_limit_products := None |}.

End SameSecond.

(** ** Vocabulary of the statements on interleaved jobs *)

Module Lifetime.
Import Py DiscountCalculator Main Spec Coroutine.

(** From [w] to [w'] the entry under [id] is left as it is: the registry
    values logged in between all hold the entry that [w] has. *)
Definition keeps_entry (id : string) (w w' : World) : Prop :=
  task_progress w' !! id = task_progress w !! id /\
  exists added,
    registry_log w' = added ++ registry_log w /\
    Forall (fun reg : gmap string Progress => reg !! id = task_progress w !! id)
      added.

(** A computation that leaves the entry under [id] as it is. *)
Definition foreign {A} (id : string) (c : M A) : Prop :=
  forall w, keeps_entry id w (snd (c w)).

(** What the entry of a job holds while its call is suspended at a point:
    nothing above the counters that the call has in its locals. *)
Definition entry_at (p : Point) (entry : Progress) : Prop :=
  match p with
  | NotStarted => False
  | AwaitListing =>
      current entry = 0%nat /\ (percentage entry <= 0)%Z /\
      successful entry = None
  | AwaitUpdate T (c, s) _ _ | AwaitSleep T (c, s) _ =>
      (0 < T)%nat /\ (current entry <= c)%nat /\
      (percentage entry <= pct T c)%Z /\ opt_le (successful entry) (Some s)
  | Returned _ => True
  end.

(** The entry of a running job: it is in the registry, it is the newest
    of the entries logged in [since], the registry values logged since
    the first write of the job, and in these the entry is always there
    and never below an earlier one. *)
Definition live (id : string) (w : World)
    (since : list (gmap string Progress)) (entry : Progress) : Prop :=
  task_progress w !! id = Some entry /\
  (exists tl, entry_log id since = entry :: tl) /\
  Forall (fun reg : gmap string Progress => is_Some (reg !! id)) since /\
  Sorted not_below (entry_log id since).

(** The state of a job whose call is at [p]; [e0] is what the registry
    had under the task id before the job wrote. *)
Definition job_state (id : string) (p : Point) (w : World)
    (since : list (gmap string Progress)) (e0 : option Progress) : Prop :=
  match p with
  | NotStarted => since = [] /\ task_progress w !! id = e0
  | _ => exists entry, live id w since entry /\ entry_at p entry
  end.

(** A piece of the body of a job that returns a point, with the registry
    values it logs and the state of the job after it. *)
Definition steps (id : string) (piece : M Point) (w : World)
    (since : list (gmap string Progress)) : Prop :=
  exists added p' w' entry',
    piece w = (Ok p', w') /\
    registry_log w' = added ++ registry_log w /\
    live id w' (added ++ since) entry' /\
    entry_at p' entry'.

(** The calls other than the one at position [i] run under task ids
    other than [id]. *)
Definition alone_under_id (id : string) (i : nat)
    (calls : list (Task * Point)) : Prop :=
  forall j tj pj,
    j <> i -> calls !! j = Some (tj, pj) -> t_task_id tj <> id.

End Lifetime.

(** ** Properties of the price arithmetic *)

Import Py DiscountCalculator Main Spec Examples.

Lemma truthy_true (x : Q) : truthy x = true <-> ~ x == 0.
Proof.
  unfold truthy. rewrite negb_true_iff. split.
  - intros H. now apply Qeq_bool_neq.
  - intros H. destruct (Qeq_bool x 0) eqn:E; [|reflexivity].
    apply Qeq_bool_iff in E. contradiction.
Qed.

Lemma truthy_false (x : Q) : truthy x = false <-> x == 0.
Proof.
  unfold truthy. rewrite negb_false_iff. apply Qeq_bool_iff.
Qed.

Lemma fle_true (x y : Q) : fle x y = true <-> x <= y.
Proof. apply Qle_bool_iff. Qed.

Lemma fle_false (x y : Q) : fle x y = false <-> y < x.
Proof.
  unfold fle. split.
  - intros H. apply Qnot_le_lt. intros L. apply Qle_bool_iff in L. congruence.
  - intros H. destruct (Qle_bool x y) eqn:E; [|reflexivity].
    apply Qle_bool_iff in E. lra.
Qed.

Lemma fgt_true (x y : Q) : fgt x y = true <-> y < x.
Proof. unfold fgt. rewrite negb_true_iff. apply fle_false. Qed.

Lemma fdiv_ok (x y : Q) : ~ y == 0 -> fdiv x y = Ok (x / y).
Proof.
  intros H. unfold fdiv. destruct (Qeq_bool y 0) eqn:E; [|reflexivity].
  apply Qeq_bool_iff in E. contradiction.
Qed.

Lemma fdiv_zero (x y : Q) : y == 0 -> fdiv x y = Raise ZeroDivisionError.
Proof.
  intros H. unfold fdiv. apply Qeq_bool_iff in H. now rewrite H.
Qed.

(** *** Rounding *)

Lemma round_half_even_near (q : Q) :
  Qabs (inject_Z (round_half_even q) - q) <= 1 # 2.
Proof.
  destruct q as [n d]. apply Qabs_Qle_condition.
  unfold round_half_even; cbn [Qnum Qden].
  pose proof (Z.div_mod n (Zpos d) ltac:(lia)) as Hdm.
  pose proof (Z.mod_pos_bound n (Zpos d) ltac:(lia)) as Hr.
  set (fl := (n / Zpos d)%Z) in *. set (r := (n mod Zpos d)%Z) in *.
  assert (Hcases : forall z : Z,
             (2 * Z.abs (z * Zpos d - n) <= Zpos d)%Z ->
             - (1 # 2) <= inject_Z z - (n # d) <= 1 # 2).
  { intros z Hz. unfold Qle, Qminus, Qplus, Qopp, inject_Z; cbn.
    split; lia. }
  apply Hcases.
  destruct (2 * r <? Zpos d)%Z eqn:E1; [apply Z.ltb_lt in E1; lia|].
  apply Z.ltb_ge in E1.
  destruct (Zpos d <? 2 * r)%Z eqn:E2; [apply Z.ltb_lt in E2; lia|].
  apply Z.ltb_ge in E2.
  destruct (Z.even fl); lia.
Qed.

Lemma round2_rounded (x : Q) : rounded_to_2 x (round2 x).
Proof.
  split.
  - exists (round_half_even (x * 100)). reflexivity.
  - pose proof (round_half_even_near (x * 100)) as H.
    apply Qabs_Qle_condition in H. apply Qabs_Qle_condition.
    unfold round2. rewrite (Qmake_Qdiv (round_half_even (x * 100)) 100).
    set (z := inject_Z (round_half_even (x * 100))) in *.
    change (inject_Z (Z.pos 100)) with 100.
    assert (E : z / 100 - x == (z - x * 100) / 100) by field.
    rewrite E. split.
    + apply Qle_shift_div_l; lra.
    + apply Qle_shift_div_r; lra.
Qed.

(** *** calculate_new_prices *)

Lemma if_opt_effective {A} (compare : option Q) (f : Q -> A) (a : A) :
  if_opt compare f a =
  match effective_compare compare with Some c => f c | None => a end.
Proof.
  unfold effective_compare, if_opt.
  destruct compare as [c|]; [destruct (truthy c)|]; reflexivity.
Qed.

Lemma Qabs_double (v : Q) : Qabs (v * 2) == 2 * Qabs v.
Proof. rewrite Qabs_Qmult. change (Qabs 2) with 2. ring. Qed.

(** C1 (as amended): for every currentPrice > 0, value and optional compare
    price, [calculate_new_prices] returns the pair of the per-strategy
    table for IncreaseCompareOnly, DecreasePriceOnly and BothDirections,
    where the existing compare price is the one that is present and not
    zero; a compare price of zero is treated as absent. *)
Theorem calculate_new_prices_table
    (currentPrice : Q) (compare : option Q) (strategy : DiscountStrategy)
    (value : Q) (target : option Q) (p c : Q) :
  0 < currentPrice ->
  table_row strategy currentPrice (effective_compare compare) value = Some (p, c) ->
  returns_quote (calculate_new_prices currentPrice compare strategy value target) p c.
Proof.
  intros _ Hrow. unfold returns_quote.
  destruct strategy; cbn [table_row] in Hrow; try discriminate;
    injection Hrow as <- <-; cbn [calculate_new_prices];
    rewrite if_opt_effective; do 2 eexists; (split; [reflexivity|]).
  - split; [reflexivity|]. destruct (effective_compare compare); reflexivity.
  - split; [reflexivity|]. destruct (effective_compare compare); reflexivity.
  - split; [reflexivity|].
    destruct (effective_compare compare) as [x|].
    + field.
    + rewrite Qabs_double. field.
Qed.

(** The table on a price of 100 with a compare price of 120. *)
Lemma calculate_new_prices_table_witness :
  0 < 100 /\
  returns_quote
    (calculate_new_prices 100 (Some 120) BOTH_DIRECTIONS 10 None)
    (100 * (1 + 10 / 100)) (120 * (1 + 1.5 * 10 / 100)).
Proof.
  split; [reflexivity|].
  apply (calculate_new_prices_table 100 (Some 120) BOTH_DIRECTIONS 10 None);
    reflexivity.
Defined.

(** C1 as written fails when the compare price is present and zero: the
    table gives 0 * 1.15 as new compare price, the code 100 * 1.15. *)
Lemma table_fails_on_zero_compare :
  0 < 100 /\
  table_row INCREASE_COMPARE_ONLY 100 (Some 0) 15 =
    Some (100, 0 * (1 + 15 / 100)) /\
  calculate_new_prices 100 (Some 0) INCREASE_COMPARE_ONLY 15 None =
    Ok (100, Some (100 * (1 + 15 / 100))) /\
  ~ returns_quote
      (calculate_new_prices 100 (Some 0) INCREASE_COMPARE_ONLY 15 None)
      100 (0 * (1 + 15 / 100)).
Proof.
  repeat split; try reflexivity.
  intros (p' & c' & H & _ & Hc). injection H as _ <-.
  revert Hc. vm_compute. discriminate.
Qed.

(** *** calculate_discount_percentage *)

(** C3 (as amended): for every price >= 0 and every comparePrice,
    [calculate_discount_percentage] returns a percentage that is >= 0,
    is 0 whenever comparePrice <= price, and is
    (comparePrice - price) / comparePrice * 100 otherwise. *)
Theorem discount_percentage_nonneg (price comparePrice : Q) :
  0 <= price ->
  exists d,
    calculate_discount_percentage price comparePrice = Ok d /\
    0 <= d /\
    (comparePrice <= price -> d == 0) /\
    (price < comparePrice -> d == (comparePrice - price) / comparePrice * 100).
Proof.
  intros Hp. unfold calculate_discount_percentage.
  destruct (fle comparePrice price) eqn:E.
  - apply fle_true in E. exists 0. repeat split; try lra.
  - apply fle_false in E.
    rewrite fdiv_ok by lra. cbn [bind].
    eexists; split; [reflexivity|]. split; [|split; [lra|reflexivity]].
    apply Qmult_le_0_compat; [|lra].
    apply Qle_shift_div_l; lra.
Qed.

(** A price of 100 under a compare price of 120. *)
Lemma discount_percentage_nonneg_witness :
  0 <= 100 /\
  exists d,
    calculate_discount_percentage 100 120 = Ok d /\
    0 <= d /\
    (120 <= 100 -> d == 0) /\
    (100 < 120 -> d == (120 - 100) / 120 * 100).
Proof.
  split; [discriminate|].
  apply (discount_percentage_nonneg 100 120). discriminate.
Defined.

(** C3 as written fails below zero: for price -2 and compare price -1 the
    result is -100. *)
Lemma discount_percentage_negative :
  calculate_discount_percentage (-2) (-1) = Ok (-100) /\
  ~ (exists d, calculate_discount_percentage (-2) (-1) = Ok d /\ 0 <= d).
Proof.
  split; [reflexivity|].
  intros (d & H & Hd). vm_compute in H. injection H as <-.
  revert Hd. vm_compute. intros Hd. now apply Hd.
Qed.

(** In exact arithmetic the round trip loses nothing: for every
    currentPrice > 0 and 0 <= D < 100, the discount percentage of the quote
    that SetDiscountPercentage returns for the target D is D. *)
Theorem set_discount_round_trip
    (currentPrice : Q) (compare : option Q) (value D : Q) :
  0 < currentPrice -> 0 <= D -> D < 100 ->
  exists newPrice newComparePrice recovered,
    calculate_new_prices currentPrice compare SET_DISCOUNT_PERCENTAGE value (Some D)
      = Ok (newPrice, Some newComparePrice) /\
    calculate_discount_percentage newPrice newComparePrice = Ok recovered /\
    Qabs (recovered - D) <= 1 # 1000000.
Proof.
  intros Hp HD0 HD100.
  assert (Hden : 0 < 1 - D / 100).
  { assert (D / 100 < 1) by (apply Qlt_shift_div_r; lra). lra. }
  cbn [calculate_new_prices]. rewrite fdiv_ok by lra. cbn [bind].
  set (nc := currentPrice / (1 - D / 100)).
  assert (Hnc : nc * (1 - D / 100) == currentPrice) by (unfold nc; field; lra).
  exists currentPrice, nc.
  unfold calculate_discount_percentage.
  destruct (fle nc currentPrice) eqn:E.
  - apply fle_true in E. exists 0. split; [reflexivity|]. split; [reflexivity|].
    assert (HD : D == 0).
    { destruct (Qlt_le_dec 0 D) as [HDpos|]; [|lra].
      exfalso.
      assert (0 < nc) by (unfold nc; apply Qlt_shift_div_l; lra).
      assert (0 < nc * (D / 100)).
      { apply Qmult_lt_0_compat; [assumption|]. apply Qlt_shift_div_l; lra. }
      lra. }
    apply Qabs_Qle_condition. split; lra.
  - apply fle_false in E. rewrite fdiv_ok by lra. cbn [bind].
    eexists. split; [reflexivity|]. split; [reflexivity|].
    assert (Heq : (nc - currentPrice) / nc * 100 - D == 0).
    { unfold nc. field. split; lra. }
    rewrite Heq. discriminate.
Qed.

(** The round trip for a target of 30 percent on a price of 100. *)
Lemma set_discount_round_trip_witness :
  0 < 100 /\ 0 <= 30 /\ 30 < 100 /\
  exists newPrice newComparePrice recovered,
    calculate_new_prices 100 (Some 120) SET_DISCOUNT_PERCENTAGE 0 (Some 30)
      = Ok (newPrice, Some newComparePrice) /\
    calculate_discount_percentage newPrice newComparePrice = Ok recovered /\
    Qabs (recovered - 30) <= 1 # 1000000.
Proof.
  split; [reflexivity|]. split; [discriminate|]. split; [reflexivity|].
  apply (set_discount_round_trip 100 (Some 120) 0 30);
    [reflexivity | discriminate | reflexivity].
Defined.

(** *** preview_discount_change *)

Lemma guarded_discount_total (price : Q) (compare : option Q) :
  exists d, guarded_discount price compare = Ok d.
Proof.
  unfold guarded_discount, if_opt.
  destruct compare as [c|]; [|now exists 0].
  destruct (truthy c) eqn:Ht; [|now exists 0].
  destruct (fgt c price) eqn:Hg; [|now exists 0].
  apply truthy_true in Ht. apply fgt_true in Hg.
  unfold calculate_discount_percentage.
  replace (fle c price) with false by (symmetry; now apply fle_false).
  rewrite fdiv_ok by assumption. cbn [bind]. eauto.
Qed.

(** C8 (as amended): when the price computation does not raise,
    [preview_discount_change] returns the new price, the new compare price,
    both discount percentages and the discount change rounded to two
    decimal places (a new compare price of zero is reported as absent),
    echoes the current price and the current compare price as they were
    given, not rounded, and attaches the fixed description of the
    strategy. *)
Theorem preview_rounds_computed_values
    (price : Q) (compare : option Q) (strategy : DiscountStrategy)
    (value : Q) (target : option Q) (np nc : Q) :
  calculate_new_prices price compare strategy value target = Ok (np, Some nc) ->
  exists r current_discount new_discount,
    preview_discount_change price compare strategy value target = Ok r /\
    guarded_discount price compare = Ok current_discount /\
    guarded_discount np (Some nc) = Ok new_discount /\
    current_price r = price /\
    current_compare_at_price r = compare /\
    rounded_to_2 current_discount (current_discount_percentage r) /\
    rounded_to_2 np (new_price r) /\
    (if truthy nc then opt_rounded_to_2 nc (new_compare_at_price r)
     else new_compare_at_price r = None) /\
    rounded_to_2 new_discount (new_discount_percentage r) /\
    rounded_to_2 (new_discount - current_discount) (discount_change r) /\
    strategy_description r = get_strategy_description strategy.
Proof.
  intros Hcalc.
  destruct (guarded_discount_total price compare) as [d0 Hd0].
  destruct (guarded_discount_total np (Some nc)) as [d1 Hd1].
  unfold preview_discount_change.
  rewrite Hd0, Hcalc. cbn [bind]. rewrite Hd1. cbn [bind].
  eexists. exists d0, d1. split; [reflexivity|].
  cbn [current_price current_compare_at_price current_discount_percentage
       new_price new_compare_at_price new_discount_percentage discount_change
       strategy_description].
  repeat (split; [first [reflexivity | apply round2_rounded]|]).
  split.
  - cbn [if_opt]. destruct (truthy nc); [apply round2_rounded | reflexivity].
  - repeat (split; [first [reflexivity | apply round2_rounded]|]). reflexivity.
Qed.

(** The preview of the first scenario of the specification. *)
Lemma preview_rounds_computed_values_witness :
  exists r current_discount new_discount,
    preview_discount_change 100 (Some 120) INCREASE_COMPARE_ONLY 15 None = Ok r /\
    guarded_discount 100 (Some 120) = Ok current_discount /\
    guarded_discount 100 (Some (120 * (1 + 15 / 100))) = Ok new_discount /\
    current_price r = 100 /\
    current_compare_at_price r = Some 120 /\
    rounded_to_2 current_discount (current_discount_percentage r) /\
    rounded_to_2 100 (new_price r) /\
    (if truthy (120 * (1 + 15 / 100))
     then opt_rounded_to_2 (120 * (1 + 15 / 100)) (new_compare_at_price r)
     else new_compare_at_price r = None) /\
    rounded_to_2 new_discount (new_discount_percentage r) /\
    rounded_to_2 (new_discount - current_discount) (discount_change r) /\
    strategy_description r = get_strategy_description INCREASE_COMPARE_ONLY.
Proof.
  apply (preview_rounds_computed_values 100 (Some 120) INCREASE_COMPARE_ONLY 15 None).
  reflexivity.
Defined.

(** The three scenarios of the specification, as [example_usage] prints
    them. *)
Example preview_increase_compare_only :
  exists r,
    preview_discount_change 100 (Some 120) INCREASE_COMPARE_ONLY 15 None = Ok r /\
    format_2f (new_price r) = "100.00" /\
    option_map format_2f (new_compare_at_price r) = Some "138.00" /\
    format_2f (current_discount_percentage r) = "16.67" /\
    format_2f (new_discount_percentage r) = "27.54".
Proof. eexists. split; [reflexivity|]. repeat split. Qed.

Example preview_decrease_price_only :
  exists r,
    preview_discount_change 100 (Some 120) DECREASE_PRICE_ONLY 10 None = Ok r /\
    format_2f (new_price r) = "90.00" /\
    option_map format_2f (new_compare_at_price r) = Some "120.00" /\
    format_2f (current_discount_percentage r) = "16.67" /\
    format_2f (new_discount_percentage r) = "25.00".
Proof. eexists. split; [reflexivity|]. repeat split. Qed.

Example preview_set_discount_percentage :
  exists r,
    preview_discount_change 100 (Some 120) SET_DISCOUNT_PERCENTAGE 0 (Some 30) = Ok r /\
    format_2f (new_price r) = "100.00" /\
    option_map format_2f (new_compare_at_price r) = Some "142.86" /\
    format_2f (new_discount_percentage r) = "30.00".
Proof. eexists. split; [reflexivity|]. repeat split. Qed.

(** C8 as written fails on the echoed current price: given 100.123 the
    preview returns 100.123, which has three decimal places. *)
Lemma preview_echoes_current_price_unrounded :
  exists r,
    preview_discount_change 100.123 (Some 120) INCREASE_COMPARE_ONLY 15 None = Ok r /\
    current_price r = 100.123 /\
    ~ two_decimals (current_price r).
Proof.
  eexists. split; [reflexivity|]. split; [reflexivity|].
  cbn [current_price]. intros [z Hz]. unfold Qeq in Hz. cbn in Hz. lia.
Qed.

(** ** Properties of the batch job *)

Local Open Scope py_scope.

Lemma opt_le_refl (a : option nat) : opt_le a a.
Proof. destruct a; simpl; auto. Qed.

Lemma counters_le_refl (p : Progress) : counters_le p p.
Proof. repeat split; try lia. apply opt_le_refl. Qed.

Lemma counters_le_trans (p q r : Progress) :
  counters_le p q -> counters_le q r -> counters_le p r.
Proof.
  intros (H1 & H2 & H3) (K1 & K2 & K3). repeat split; try lia.
  destruct (successful p), (successful q), (successful r); simpl in *;
    try lia; contradiction.
Qed.

Lemma pct_mono (T c c' : nat) :
  (0 < T)%nat -> (c <= c')%nat -> (pct T c <= pct T c')%Z.
Proof.
  intros HT Hc. unfold pct, int_of_float.
  assert (HTq : 0 < inject_Z (Z.of_nat T)).
  { change 0 with (inject_Z 0). rewrite <- Zlt_Qlt. lia. }
  assert (Hpos : forall n : nat,
             0 <= inject_Z (Z.of_nat n) / inject_Z (Z.of_nat T) * 100).
  { intros n. apply Qmult_le_0_compat; [|discriminate].
    apply Qle_shift_div_l; [assumption|].
    rewrite Qmult_0_l. change 0 with (inject_Z 0). rewrite <- Zle_Qle. lia. }
  assert (Hnum : forall x : Q, 0 <= x -> (Qnum x <? 0)%Z = false).
  { intros x Hx. apply Z.ltb_ge. unfold Qle in Hx. cbn in Hx. lia. }
  rewrite !Hnum by apply Hpos.
  apply Qfloor_resp_le.
  apply Qmult_le_compat_r; [|discriminate].
  apply Qmult_le_compat_r; [|apply Qlt_le_weak, Qinv_lt_0_compat, HTq].
  rewrite <- Zle_Qle. lia.
Qed.

Lemma pct_zero (T : nat) : pct T 0 = 0%Z.
Proof.
  unfold pct, int_of_float, Qdiv.
  destruct (/ inject_Z (Z.of_nat T)) as [a b]. reflexivity.
Qed.

Section Job.

Variable env : Env.
Variables task_id session_id : string.
Variable strategy : DiscountStrategy.
Variable value : Q.
Variable target_discount : option Q.

(** *** State and exception plumbing *)

Lemma quiet_ret {A} (a : A) : quiet (ret a).
Proof. intros w. cbn. auto. Qed.

Lemma quiet_lift {A} (r : result A) : quiet (lift r).
Proof. intros w. cbn. auto. Qed.

Lemma quiet_mbind {A B} (c : M A) (k : A -> M B) :
  quiet c -> (forall a, quiet (k a)) -> quiet (mbind c k).
Proof.
  intros Hc Hk w. unfold mbind.
  destruct (Hc w) as (H1 & H2 & H3 & H4).
  destruct (c w) as [[a|e] w1]; cbn in *; [|auto].
  destruct (Hk a w1) as (K1 & K2 & K3 & K4).
  repeat split; congruence.
Qed.

Lemma quiet_try_except {A} (body : M A) (handler : exn -> M A) :
  quiet body -> (forall e, quiet (handler e)) -> quiet (try_except body handler).
Proof.
  intros Hc Hk w. unfold try_except.
  destruct (Hc w) as (H1 & H2 & H3 & H4).
  destruct (body w) as [[a|e] w1]; cbn in *; [auto|].
  destruct (Hk e w1) as (K1 & K2 & K3 & K4).
  repeat split; congruence.
Qed.

Lemma quiet_update_variant_price (vid : Z) (price : string) (c : option string) :
  quiet (update_variant_price env vid price c).
Proof.
  intros w. unfold update_variant_price.
  destruct (shop_put_variant _ _ _); cbn; auto.
Qed.

Lemma quiet_log_price_change (row : PriceChange) :
  quiet (log_price_change env row).
Proof.
  intros w. unfold log_price_change.
  destruct (db_insert_price_change _ _ _); cbn; auto.
Qed.

Lemma try_except_default {A} (body : M A) (a0 : A) (w : World) :
  exists a,
    try_except body (fun _ => ret a0) w = (Ok a, snd (body w)) /\
    (forall a', fst (body w) = Ok a' -> a = a') /\
    (forall e, fst (body w) = Raise e -> a = a0).
Proof.
  unfold try_except. destruct (body w) as [[a|e] w1]; cbn.
  - exists a. repeat split; congruence.
  - exists a0. repeat split; congruence.
Qed.

(** *** One unit *)

Lemma quiet_update_unit (u : Product * Variant) :
  quiet (update_unit env strategy value target_discount session_id u).
Proof.
  unfold update_unit, update_single_variant_discount.
  apply quiet_try_except; [|intros; apply quiet_ret].
  apply quiet_mbind; [apply quiet_lift|]. intros [np nc].
  apply quiet_mbind; [apply quiet_update_variant_price|]. intros _.
  apply quiet_mbind; [apply quiet_lift|]. intros d0.
  apply quiet_mbind; [apply quiet_lift|]. intros d1.
  apply quiet_mbind; [apply quiet_log_price_change|]. intros _.
  apply quiet_ret.
Qed.

(** [update_single_variant_discount] returns a boolean whatever happens
    inside it. *)
Lemma update_unit_total (u : Product * Variant) (w : World) :
  exists b w1,
    update_unit env strategy value target_discount session_id u w = (Ok b, w1).
Proof.
  unfold update_unit, update_single_variant_discount.
  match goal with
  | |- context [try_except ?body _] =>
      destruct (try_except_default body false w) as (b & Hb & _)
  end.
  eauto.
Qed.

Lemma update_unit_price_error (u : Product * Variant) (w : World) (e : exn) :
  unit_prices strategy value target_discount u = Raise e ->
  update_unit env strategy value target_discount session_id u w = (Ok false, w).
Proof.
  unfold unit_prices. intros H.
  unfold update_unit, update_single_variant_discount, try_except, mbind, lift, ret.
  rewrite H. reflexivity.
Qed.

Lemma update_unit_sends (u : Product * Variant) (w : World) (np : Q) (nc : option Q) :
  unit_prices strategy value target_discount u = Ok (np, nc) ->
  remote_calls (snd (update_unit env strategy value target_discount session_id u w))
  = unit_request u np nc :: remote_calls w.
Proof.
  unfold unit_prices, unit_request. intros H.
  destruct (guarded_discount_total (variant_price (snd u))
              (variant_compare_at_price (snd u))) as [d0 Hd0].
  destruct (guarded_discount_total np nc) as [d1 Hd1].
  unfold update_unit, update_single_variant_discount, try_except, mbind, lift, ret,
    update_variant_price, log_price_change.
  rewrite H, Hd0, Hd1.
  destruct (shop_put_variant _ _ _); [reflexivity|].
  destruct (db_insert_price_change _ _ _); reflexivity.
Qed.

Lemma update_unit_remote_failure
    (u : Product * Variant) (w : World) (np : Q) (nc : option Q) (e : exn) :
  unit_prices strategy value target_discount u = Ok (np, nc) ->
  shop_put_variant env (remote_calls w) (unit_request u np nc) = Some e ->
  fst (update_unit env strategy value target_discount session_id u w) = Ok false.
Proof.
  unfold unit_prices, unit_request. intros H Hput.
  unfold update_unit, update_single_variant_discount, try_except, mbind, lift, ret,
    update_variant_price.
  rewrite H, Hput. reflexivity.
Qed.

Lemma update_unit_history_failure
    (u : Product * Variant) (w : World) (np : Q) (nc : option Q) :
  unit_prices strategy value target_discount u = Ok (np, nc) ->
  (forall rows row, exists e, db_insert_price_change env rows row = Some e) ->
  fst (update_unit env strategy value target_discount session_id u w) = Ok false.
Proof.
  unfold unit_prices. intros H Hdb.
  destruct (guarded_discount_total (variant_price (snd u))
              (variant_compare_at_price (snd u))) as [d0 Hd0].
  destruct (guarded_discount_total np nc) as [d1 Hd1].
  unfold update_unit, update_single_variant_discount, try_except, mbind, lift, ret,
    update_variant_price, log_price_change.
  rewrite H, Hd0, Hd1.
  destruct (shop_put_variant _ _ _); [reflexivity|].
  match goal with
  | |- context [db_insert_price_change env ?rows ?row] =>
      destruct (Hdb rows row) as [e ->]
  end.
  reflexivity.
Qed.

Lemma update_unit_success (u : Product * Variant) (w : World) (np : Q) (nc : option Q) :
  unit_prices strategy value target_discount u = Ok (np, nc) ->
  shop_put_variant env (remote_calls w) (unit_request u np nc) = None ->
  (forall rows row, db_insert_price_change env rows row = None) ->
  fst (update_unit env strategy value target_discount session_id u w) = Ok true.
Proof.
  unfold unit_prices, unit_request. intros H Hput Hdb.
  destruct (guarded_discount_total (variant_price (snd u))
              (variant_compare_at_price (snd u))) as [d0 Hd0].
  destruct (guarded_discount_total np nc) as [d1 Hd1].
  unfold update_unit, update_single_variant_discount, try_except, mbind, lift, ret,
    update_variant_price, log_price_change.
  rewrite H, Hput, Hd0, Hd1, Hdb. reflexivity.
Qed.

(** *** One turn of the loop *)

Lemma entry_log_cons (reg : gmap string Progress) (p : Progress)
    (log : list (gmap string Progress)) :
  reg !! task_id = Some p ->
  entry_log task_id (reg :: log) = p :: entry_log task_id log.
Proof. intros H. unfold entry_log. cbn. rewrite H. reflexivity. Qed.

Lemma process_unit_step (T : nat) (log0 : list (gmap string Progress))
    (c s : nat) (w : World) (u : Product * Variant) :
  (0 < T)%nat ->
  loop_inv task_id T log0 c s w ->
  exists b w1 reg,
    update_unit env strategy value target_discount session_id u w = (Ok b, w1) /\
    unit_turn env task_id session_id strategy value target_discount T u (c, s) w
    = (Ok (S c, (s + if b then 1 else 0)%nat), snd (set_registry reg w1)) /\
    loop_inv task_id T log0 (S c) (s + if b then 1 else 0) (snd (set_registry reg w1)).
Proof.
  intros HT (p & rest & Hp & Hlog & Hlen & Hall & Hsorted & Hst & Htot & Herrs
             & Herr & Hcur & Hpct & Hsucc & Hle).
  destruct (update_unit_total u w) as (b & w1 & Hu).
  pose proof (quiet_update_unit u w) as (Q1 & Q2 & _ & _).
  rewrite Hu in Q1, Q2. cbn [snd] in Q1, Q2.
  set (s' := (s + if b then 1 else 0)%nat).
  set (p' := set_unit_progress (S c) s' (pct T (S c)) (item_label (fst u) (snd u)) p).
  exists b, w1, (<[task_id := p']> (task_progress w1)).
  split; [exact Hu|].
  assert (HTq : ~ inject_Z (Z.of_nat T) == 0).
  { change 0 with (inject_Z 0). rewrite inject_Z_injective. lia. }
  assert (Hs' : (if b then S s else s) = s') by (unfold s'; destruct b; lia).
  split.
  - unfold unit_turn, process_unit. unfold update_unit in Hu. rewrite Hu.
    rewrite Hs'.
    unfold publish_unit_progress, mbind, lift, registry_modify.
    rewrite (fdiv_ok _ _ HTq). rewrite Q1, Hp. reflexivity.
  - exists p', (task_progress w :: rest).
    cbn [set_registry snd task_progress registry_log]. rewrite Q1, Q2.
    split; [apply lookup_insert_eq|].
    split; [rewrite Hlog; reflexivity|].
    split; [cbn [length]; rewrite Hlen; reflexivity|].
    split.
    { constructor; [|exact Hall]. rewrite lookup_insert_eq. eauto. }
    split.
    { rewrite (entry_log_cons _ p') by apply lookup_insert_eq.
      constructor; [exact Hsorted|].
      rewrite (entry_log_cons _ p) by exact Hp.
      constructor. unfold not_below, counters_le. cbn.
      rewrite Hcur, Hpct, Hsucc. split; [lia|]. split.
      - apply pct_mono; [exact HT | lia].
      - destruct (Nat.eqb c 0); cbn; [exact I | unfold s'; lia]. }
    cbn. repeat (split; [assumption || reflexivity|]).
    unfold s'; destruct b; lia.
Qed.

(** *** The loop *)

Lemma for_each_app {A St} (xs ys : list A) (body : A -> St -> M St) (s : St) (w : World) :
  for_each (xs ++ ys) body s w
  = match for_each xs body s w with
    | (Ok s', w') => for_each ys body s' w'
    | (Raise e, w') => (Raise e, w')
    end.
Proof.
  revert s w. induction xs as [|x xs IH]; intros s w; cbn [for_each app].
  - reflexivity.
  - unfold mbind. destruct (body x s w) as [[s1|e] w1]; [apply IH|reflexivity].
Qed.

Lemma for_each_map {A B St} (f : A -> B) (xs : list A) (body : B -> St -> M St)
    (s : St) (w : World) :
  for_each (map f xs) body s w = for_each xs (fun x => body (f x)) s w.
Proof.
  revert s w. induction xs as [|x xs IH]; intros s w; cbn [for_each map].
  - reflexivity.
  - unfold mbind. destruct (body (f x) s w) as [[s1|e] w1]; [apply IH|reflexivity].
Qed.

(** The nested loops visit [units products] in order. *)
Lemma for_each_units {St} (products : list Product)
    (body : Product -> Variant -> St -> M St) (s : St) (w : World) :
  for_each products (fun p => for_each (product_variants p) (body p)) s w
  = for_each (units products) (fun u => body (fst u) (snd u)) s w.
Proof.
  revert s w. induction products as [|p ps IH]; intros s w.
  - reflexivity.
  - cbn [for_each units flat_map]. rewrite for_each_app. unfold mbind.
    rewrite for_each_map. cbn [fst snd].
    destruct (for_each (product_variants p) _ s w) as [[s1|e] w1];
      [apply IH|reflexivity].
Qed.

Lemma length_units (products : list Product) :
  length (units products) = count_variants products.
Proof.
  unfold units, count_variants.
  induction products as [|p ps IH]; cbn; [reflexivity|].
  rewrite length_app, length_map, IH. reflexivity.
Qed.

(** The loop on a list of units.  [ok] is what is known of each unit's
    outcome and [P n] what is known of the state around the registry after
    [n] units. *)
Lemma units_loop (T : nat) (log0 : list (gmap string Progress))
    (ok : Product * Variant -> bool -> Prop) (P : nat -> World -> Prop)
    (us : list (Product * Variant)) :
  (length us <= T)%nat ->
  (forall u w b w1 n,
      In u us -> P n w ->
      update_unit env strategy value target_discount session_id u w = (Ok b, w1) ->
      ok u b /\ P (S n) w1) ->
  (forall reg w n, P n w -> P n (snd (set_registry reg w))) ->
  forall c s w,
    P c w -> loop_inv task_id T log0 c s w ->
    exists bs w',
      Forall2 ok us bs /\
      for_each us
        (unit_turn env task_id session_id strategy value target_discount T)
        (c, s) w
      = (Ok ((c + length us)%nat, (s + count_true bs)%nat), w') /\
      P (c + length us)%nat w' /\
      loop_inv task_id T log0 (c + length us) (s + count_true bs) w'.
Proof.
  intros HT Hok Hstable.
  induction us as [|u us IH]; intros c s w HP Hinv.
  - exists [], w. cbn. rewrite !Nat.add_0_r. repeat split; auto.
  - cbn [length] in HT.
    destruct (process_unit_step T log0 c s w u ltac:(lia) Hinv)
      as (b & w1 & reg & Hu & Hturn & Hinv1).
    destruct (Hok u w b w1 c (or_introl eq_refl) HP Hu) as [Hb HP1].
    destruct (IH ltac:(lia)
                (fun u' w' b' w1' n Hin => Hok u' w' b' w1' n (or_intror Hin))
                (S c) (s + if b then 1 else 0)%nat _
                (Hstable reg w1 (S c) HP1) Hinv1)
      as (bs & w' & Hbs & Hrun & HP' & Hinv').
    exists (b :: bs), w'.
    cbn [for_each length count_true]. unfold mbind. rewrite Hturn.
    replace (c + S (length us))%nat with (S c + length us)%nat by lia.
    replace (s + ((if b then 1 else 0) + count_true bs))%nat
      with (s + (if b then 1 else 0) + count_true bs)%nat by lia.
    repeat split; auto.
Qed.


Lemma count_true_none (A : Type) (us : list A) (bs : list bool) :
  Forall2 (fun _ b => b = false) us bs -> count_true bs = 0%nat.
Proof. induction 1; cbn; [reflexivity|]. subst. lia. Qed.

(** *** The whole job *)

Lemma get_filtered_products_run (filter_type : string)
    (filter_value : option string) (limit : option Z) (w : World) :
  get_filtered_products env filter_type filter_value limit w
  = (Ok (enumerated env filter_type filter_value limit), w).
Proof.
  unfold get_filtered_products, try_except, lift, enumerated, ret.
  destruct (catalog_request env filter_type filter_value limit); reflexivity.
Qed.

(** A run of [process_discount_update]: it returns normally with the entry
    of the job completed, [current] at the number of units, the error list
    empty, and a registry history in which the entry is always there and no
    counter ever goes down. *)
Lemma job_run (filter_type : string) (filter_value : option string)
    (limit_products : option Z)
    (ok : Product * Variant -> bool -> Prop) (P : nat -> World -> Prop)
    (w : World) :
  let products := enumerated env filter_type filter_value limit_products in
  (forall u w b w1 n,
      In u (units products) -> P n w ->
      update_unit env strategy value target_discount session_id u w = (Ok b, w1) ->
      ok u b /\ P (S n) w1) ->
  (forall reg w n, P n w -> P n (snd (set_registry reg w))) ->
  P 0%nat w ->
  exists bs w' pf new,
    Forall2 ok (units products) bs /\
    process_discount_update env task_id session_id strategy value
      target_discount filter_type filter_value limit_products w = (Ok tt, w') /\
    P (count_variants products) w' /\
    task_progress w' !! task_id = Some pf /\
    completed_with (count_variants products) (count_true bs) pf /\
    registry_log w' = new ++ registry_log w /\
    length new = (count_variants products + 3)%nat /\
    Forall (fun reg : gmap string Progress => is_Some (reg !! task_id)) new /\
    Sorted not_below (entry_log task_id new).
Proof.
  intros products Hok Hstable HP.
  set (N := count_variants products).
  set (p_a := initial_progress session_id strategy).
  set (reg_a := <[task_id := p_a]> (task_progress w)).
  set (w_a := snd (set_registry reg_a w)).
  set (p_b := set_processing N p_a).
  set (reg_b := <[task_id := p_b]> reg_a).
  set (w_b := snd (set_registry reg_b w_a)).
  assert (Ha : reg_a !! task_id = Some p_a) by apply lookup_insert_eq.
  assert (Hb : reg_b !! task_id = Some p_b) by apply lookup_insert_eq.
  assert (Hinv : loop_inv task_id N (registry_log w) 0 0 w_b).
  { exists p_b, [reg_a]. cbn [w_b set_registry snd task_progress registry_log w_a].
    split; [exact Hb|]. split; [reflexivity|]. split; [reflexivity|].
    split; [repeat constructor; eauto|].
    split.
    { rewrite (entry_log_cons _ p_b) by exact Hb.
      rewrite (entry_log_cons _ p_a) by exact Ha.
      repeat constructor; cbn; lia. }
    cbn. rewrite pct_zero. repeat split; auto. }
  assert (HPb : P 0%nat w_b) by (apply Hstable, Hstable, HP).
  destruct (units_loop N (registry_log w) ok P (units products)
              ltac:(rewrite length_units; reflexivity) Hok Hstable
              0%nat 0%nat w_b HPb Hinv)
    as (bs & w_c & Hbs & Hrun & HPc & Hinvc).
  rewrite length_units in Hrun, HPc, Hinvc. cbn [Nat.add] in Hrun, HPc, Hinvc.
  fold N in Hrun, HPc, Hinvc.
  destruct Hinvc as (p_c & rest & Hp & Hlog & Hlen & Hall & Hsorted & Hst & Htot
                     & Herrs & Herr & Hcur & Hpct & Hsucc & Hle).
  set (pf := set_completed (isoformat_now env) N (count_true bs) p_c).
  set (reg_f := <[task_id := pf]> (task_progress w_c)).
  assert (Hf : reg_f !! task_id = Some pf) by apply lookup_insert_eq.
  exists bs, (snd (set_registry reg_f w_c)), pf, (reg_f :: task_progress w_c :: rest).
  split; [exact Hbs|].
  split.
  { unfold process_discount_update, try_except, mbind.
    unfold registry_assign at 1. fold p_a reg_a.
    change (set_registry reg_a w) with (Ok tt, w_a). cbv beta iota.
    rewrite get_filtered_products_run. fold products N. cbv beta iota.
    unfold registry_modify at 1.
    change (task_progress w_a) with reg_a. rewrite Ha. fold p_b reg_b.
    change (set_registry reg_b w_a) with (Ok tt, w_b). cbv beta iota.
    rewrite for_each_units.
    change (fun u : Product * Variant =>
              process_unit env task_id session_id strategy value target_discount
                N (fst u) (snd u))
      with (unit_turn env task_id session_id strategy value target_discount N).
    rewrite Hrun. cbv beta iota.
    unfold registry_modify. rewrite Hp. reflexivity. }
  split; [apply Hstable, HPc|].
  split; [exact Hf|].
  split.
  { unfold completed_with, pf. cbn. rewrite Herrs.
    repeat (split; [assumption || reflexivity|]). reflexivity. }
  split.
  { cbn [set_registry snd registry_log]. rewrite Hlog. reflexivity. }
  split; [cbn [length]; rewrite Hlen; fold N; lia|].
  split.
  { constructor; [rewrite Hf; eauto | exact Hall]. }
  rewrite (entry_log_cons _ pf) by exact Hf.
  constructor; [exact Hsorted|].
  rewrite (entry_log_cons _ p_c) by exact Hp.
  constructor. unfold not_below, counters_le, pf. cbn.
  repeat split; try lia. apply opt_le_refl.
Qed.

(** Whatever the shop and the database answer, the job ends completed
    with every unit counted and an empty error list. *)
Lemma job_always_completes (filter_type : string) (filter_value : option string)
    (limit_products : option Z) (w : World) :
  exists succ w' pf,
    process_discount_update env task_id session_id strategy value
      target_discount filter_type filter_value limit_products w = (Ok tt, w') /\
    task_progress w' !! task_id = Some pf /\
    completed_with
      (count_variants (enumerated env filter_type filter_value limit_products))
      succ pf.
Proof.
  destruct (job_run filter_type filter_value limit_products
              (fun _ _ => True) (fun _ _ => True) w)
    as (bs & w' & pf & new & _ & Hrun & _ & Hpf & Hdone & _); auto.
  exists (count_true bs), w', pf. auto.
Qed.


Lemma count_true_without (k : Z) (us : list (Product * Variant)) (bs : list bool) :
  Forall2 (fun u b => b = negb (unit_id u =? k)%Z) us bs ->
  ~ In k (map unit_id us) ->
  count_true bs = length us.
Proof.
  induction 1 as [|u b us bs Hb _ IH]; cbn; intros Hnot; [reflexivity|].
  rewrite IH by tauto. subst b.
  destruct (Z.eqb_spec (unit_id u) k) as [Hk|Hk]; [tauto|reflexivity].
Qed.

Lemma count_true_but_one (k : Z) (us : list (Product * Variant)) (bs : list bool) :
  Forall2 (fun u b => b = negb (unit_id u =? k)%Z) us bs ->
  List.NoDup (map unit_id us) ->
  In k (map unit_id us) ->
  S (count_true bs) = length us.
Proof.
  induction 1 as [|u b us bs Hb Hrest IH]; cbn; intros Hnodup Hin; [contradiction|].
  apply NoDup_cons_iff in Hnodup as [Hfresh Hnodup].
  destruct (Z.eqb_spec (unit_id u) k) as [Hk|Hk]; subst b; cbn.
  - rewrite (count_true_without k us bs Hrest) by (rewrite <- Hk; exact Hfresh).
    reflexivity.
  - rewrite <- IH; [reflexivity | assumption | tauto].
Qed.

(** C2 on the code: for a batch of N priced units with distinct
    identifiers in which the remote update call of unit k fails and every
    other call succeeds, all N updates are sent, and the job ends with
    current == N, status completed and N - 1 successes, but with an empty
    errors sequence: the failed unit is not recorded in it. *)
Theorem partial_failure_leaves_errors_empty (filter_type : string)
    (filter_value : option string) (limit_products : option Z)
    (k : Z) (e : exn) (w : World) :
  (forall sent payload,
      shop_put_variant env sent payload
      = if (payload_id payload =? k)%Z then Some e else None) ->
  (forall rows row, db_insert_price_change env rows row = None) ->
  (forall u,
      In u (units (enumerated env filter_type filter_value limit_products)) ->
      exists q, unit_prices strategy value target_discount u = Ok q) ->
  List.NoDup
    (map unit_id (units (enumerated env filter_type filter_value limit_products))) ->
  In k (map unit_id (units (enumerated env filter_type filter_value limit_products))) ->
  exists N w' pf,
    N = count_variants (enumerated env filter_type filter_value limit_products) /\
    process_discount_update env task_id session_id strategy value
      target_discount filter_type filter_value limit_products w = (Ok tt, w') /\
    length (remote_calls w') = (length (remote_calls w) + N)%nat /\
    task_progress w' !! task_id = Some pf /\
    status pf = "completed" /\
    current pf = N /\
    successful pf = Some (N - 1)%nat /\
    errors pf = [] /\
    final_stats pf = Some {| total_processed := N;
                             successful_updates := (N - 1)%nat;
                             errors_count := 0 |}.
Proof.
  intros Hput Hdb Hprices Hnodup Hin.
  set (products := enumerated env filter_type filter_value limit_products) in *.
  set (N := count_variants products).
  destruct (job_run filter_type filter_value limit_products
              (fun u b => b = negb (unit_id u =? k)%Z)
              (fun n w0 => length (remote_calls w0) = (length (remote_calls w) + n)%nat)
              w)
    as (bs & w' & pf & new & Hbs & Hrun & Hcalls & Hpf & Hdone & _).
  - intros u w0 b w1 n Hu HP Hrun. fold products in Hu.
    destruct (Hprices u Hu) as [[np nc] Hq].
    pose proof (update_unit_sends u w0 np nc Hq) as Hsent.
    rewrite Hrun in Hsent. cbn [snd] in Hsent.
    split; [|rewrite Hsent; cbn [length]; lia].
    pose proof (Hput (remote_calls w0) (unit_request u np nc)) as Hcall.
    change (payload_id (unit_request u np nc)) with (unit_id u) in Hcall.
    destruct (unit_id u =? k)%Z; cbn [negb].
    + pose proof (update_unit_remote_failure u w0 np nc e Hq Hcall) as Hb.
      rewrite Hrun in Hb. cbn in Hb. congruence.
    + pose proof (update_unit_success u w0 np nc Hq Hcall Hdb) as Hb.
      rewrite Hrun in Hb. cbn in Hb. congruence.
  - intros reg w0 n HP. exact HP.
  - cbn. lia.
  - fold products in Hbs, Hdone, Hcalls.
    pose proof (count_true_but_one k _ bs Hbs Hnodup Hin) as Hcount.
    rewrite length_units in Hcount. fold N in Hcount, Hdone, Hcalls.
    replace (count_true bs) with (N - 1)%nat in Hdone by lia.
    destruct Hdone as (H1 & H2 & H3 & H4 & H5 & H6 & H7 & H8).
    replace (Nat.eqb N 0) with false in H7 by (symmetry; apply Nat.eqb_neq; lia).
    exists N, w', pf. repeat split; assumption.
Qed.

(** A job that runs alone under its task id: across the registry values
    it writes from its start to its end (the initial dict, the switch to
    processing, one update for each unit and the final update), the entry
    of the job is always there and none of current, percentage and
    successful is ever below its value in an earlier state. *)
Theorem progress_counters_never_decrease (filter_type : string)
    (filter_value : option string) (limit_products : option Z) (w : World) :
  exists w' new,
    process_discount_update env task_id session_id strategy value
      target_discount filter_type filter_value limit_products w = (Ok tt, w') /\
    registry_log w' = new ++ registry_log w /\
    length new
    = (count_variants (enumerated env filter_type filter_value limit_products) + 3)%nat /\
    Forall (fun reg : gmap string Progress => is_Some (reg !! task_id)) new /\
    StronglySorted not_below (entry_log task_id new).
Proof.
  destruct (job_run filter_type filter_value limit_products
              (fun _ _ => True) (fun _ _ => True) w)
    as (bs & w' & pf & new & _ & Hrun & _ & _ & _ & Hlog & Hlen & Hall & Hsorted);
    auto.
  exists w', new. repeat split; try assumption.
  apply Sorted_StronglySorted; [|assumption].
  intros a b c Hab Hbc. unfold not_below in *.
  eapply counters_le_trans; eassumption.
Qed.

(** C5 on the code: when the request that lists the candidates raises,
    [get_filtered_products] catches the exception and returns an empty
    list, so the handler of [process_discount_update] that marks the job
    failed never sees it: the job ends with status completed, total 0,
    current 0, no error recorded, and no update sent. *)
Theorem enumeration_failure_completes_empty (filter_type : string)
    (filter_value : option string) (limit_products : option Z)
    (e : exn) (w : World) :
  catalog_request env filter_type filter_value limit_products = Raise e ->
  exists w' pf,
    process_discount_update env task_id session_id strategy value
      target_discount filter_type filter_value limit_products w = (Ok tt, w') /\
    task_progress w' !! task_id = Some pf /\
    status pf = "completed" /\
    total pf = 0%nat /\
    current pf = 0%nat /\
    errors pf = [] /\
    error pf = None /\
    remote_calls w' = remote_calls w.
Proof.
  intros Hraise.
  assert (Hnone : enumerated env filter_type filter_value limit_products = []).
  { unfold enumerated. rewrite Hraise. reflexivity. }
  destruct (job_run filter_type filter_value limit_products
              (fun _ _ => True) (fun _ w0 => remote_calls w0 = remote_calls w) w)
    as (bs & w' & pf & new & _ & Hrun & Hcalls & Hpf & Hdone & _); auto.
  { rewrite Hnone. intros u w0 b w1 n []. }
  rewrite Hnone in Hdone.
  destruct Hdone as (H1 & H2 & H3 & H4 & H5 & H6 & H7 & H8).
  exists w', pf. repeat split; assumption.
Qed.

(** *** The compare price in the update request *)

Lemma format_2f_not_empty (x : Q) : String.eqb (format_2f x) "" = false.
Proof.
  apply String.eqb_neq. unfold format_2f.
  destruct (Qnum x <? 0)%Z; [discriminate|].
  cbn [String.append].
  destruct (digits _); discriminate.
Qed.

Lemma calculate_new_prices_compare_present
    (price : Q) (compare : option Q) (s : DiscountStrategy) (v : Q)
    (target : option Q) (np : Q) (nc : option Q) :
  calculate_new_prices price compare s v target = Ok (np, nc) ->
  exists c, nc = Some c.
Proof.
  destruct s; cbn [calculate_new_prices]; intros H.
  1-3: injection H as _ <-; eauto.
  destruct target as [t|]; [|discriminate].
  destruct (fdiv price (1 - t / 100)); cbn [bind] in H; [|discriminate].
  injection H as _ <-; eauto.
Qed.

(** C10: whenever [calculate_new_prices] returns, for any strategy and
    input, the new compare price is present; hence the request that
    [update_single_variant_discount] sends leaves the compare-price field
    out exactly when the computed compare price is zero. *)
Theorem compare_price_omitted_only_when_zero
    (product : Product) (variant : Variant) (w : World)
    (np : Q) (nc : option Q) :
  calculate_new_prices (variant_price variant) (variant_compare_at_price variant)
    strategy value target_discount = Ok (np, nc) ->
  exists c payload,
    nc = Some c /\
    remote_calls
      (snd (update_single_variant_discount env product variant strategy value
              target_discount session_id w))
    = payload :: remote_calls w /\
    (payload_compare_at_price payload = None <-> c == 0).
Proof.
  intros H.
  destruct (calculate_new_prices_compare_present _ _ _ _ _ _ _ H) as [c ->].
  pose proof (update_unit_sends (product, variant) w np (Some c) H) as Hsent.
  exists c, (unit_request (product, variant) np (Some c)).
  split; [reflexivity|]. split; [exact Hsent|].
  unfold unit_request, variant_payload, if_opt. cbn [payload_compare_at_price].
  destruct (truthy c) eqn:Ht.
  - rewrite format_2f_not_empty. apply truthy_true in Ht.
    split; [discriminate | contradiction].
  - apply truthy_false in Ht. split; auto.
Qed.

End Job.

(** *** The statements above on the sample shop *)



(** The shop rejects variant 1001 of the two variants of the sample
    product. *)
Lemma partial_failure_leaves_errors_empty_witness :
  exists N w' pf,
    N = count_variants (enumerated env_rejects_1001 "all" None None) /\
    process_discount_update env_rejects_1001 "discount_update_1700000000"
      "session-0" INCREASE_COMPARE_ONLY 15 None "all" None None world0
    = (Ok tt, w') /\
    length (remote_calls w') = (length (remote_calls world0) + N)%nat /\
    task_progress w' !! "discount_update_1700000000" = Some pf /\
    status pf = "completed" /\
    current pf = N /\
    successful pf = Some (N - 1)%nat /\
    errors pf = [] /\
    final_stats pf = Some {| total_processed := N;
                             successful_updates := (N - 1)%nat;
                             errors_count := 0 |}.
Proof.
  apply (partial_failure_leaves_errors_empty env_rejects_1001
           "discount_update_1700000000" "session-0" INCREASE_COMPARE_ONLY 15
           None "all" None None 1001%Z
           (HTTPError "422 Client Error: Unprocessable Entity") world0).
  - intros sent payload. reflexivity.
  - intros rows row. reflexivity.
  - intros u _. eexists. reflexivity.
  - repeat constructor; cbn; intuition discriminate.
  - cbn. auto.
Defined.

(** The same run evaluated: both updates are sent, the job ends completed
    with current == 2 and one success, and the errors sequence is empty. *)
Example failed_unit_missing_from_errors :
  shop_put_variant env_rejects_1001 []
    (unit_request (shirt, variant_s) 100 (Some (120 * (1 + 15 / 100))))
  = Some (HTTPError "422 Client Error: Unprocessable Entity") /\
  map payload_id (remote_calls run_rejects_1001) = [1002%Z; 1001%Z] /\
  exists pf,
    task_progress run_rejects_1001 !! "discount_update_1700000000" = Some pf /\
    status pf = "completed" /\
    current pf = 2%nat /\
    successful pf = Some 1%nat /\
    errors pf = [].
Proof.
  split; [reflexivity|]. split; [reflexivity|].
  eexists. split; [vm_compute; reflexivity|]. cbn. repeat split.
Qed.

(** A shop that refuses the listing with a 401. *)
Lemma enumeration_failure_completes_empty_witness :
  exists w' pf,
    process_discount_update env_catalog_down "discount_update_1700000000"
      "session-0" INCREASE_COMPARE_ONLY 15 None "all" None None world0
    = (Ok tt, w') /\
    task_progress w' !! "discount_update_1700000000" = Some pf /\
    status pf = "completed" /\
    total pf = 0%nat /\
    current pf = 0%nat /\
    errors pf = [] /\
    error pf = None /\
    remote_calls w' = remote_calls world0.
Proof.
  apply (enumeration_failure_completes_empty env_catalog_down
           "discount_update_1700000000" "session-0" INCREASE_COMPARE_ONLY 15
           None "all" None None
           (HTTPError "401 Client Error: Unauthorized") world0).
  reflexivity.
Defined.

(** The same run evaluated: the listing raises a 401, and the job ends
    completed, not failed, with no error recorded. *)
Lemma enumeration_failure_not_failed :
  shop_get_products env_catalog_down (AllProducts 250)
  = Raise (HTTPError "401 Client Error: Unauthorized") /\
  exists pf,
    task_progress run_catalog_down !! "discount_update_1700000000" = Some pf /\
    status pf = "completed" /\
    status pf <> "failed" /\
    error pf = None.
Proof.
  split; [reflexivity|].
  eexists. split; [vm_compute; reflexivity|]. cbn. repeat split. discriminate.
Qed.

(** The request for the first variant of the sample product. *)
Lemma compare_price_omitted_only_when_zero_witness :
  exists c payload,
    Some (120 * (1 + 15 / 100)) = Some c /\
    remote_calls
      (snd (update_single_variant_discount (env_up [shirt]) shirt variant_s
              INCREASE_COMPARE_ONLY 15 None "session-0" world0))
    = payload :: remote_calls world0 /\
    (payload_compare_at_price payload = None <-> c == 0).
Proof.
  apply (compare_price_omitted_only_when_zero (env_up [shirt]) "session-0"
           INCREASE_COMPARE_ONLY 15 None shirt variant_s world0 100
           (Some (120 * (1 + 15 / 100)))).
  reflexivity.
Defined.

(** *** Starting a job *)

Lemma set_discount_without_target_raises (u : Product * Variant) (v : Q) :
  unit_prices SET_DISCOUNT_PERCENTAGE v None u
  = Raise (ValueError "target_discount_percentage обов'язковий для цієї стратегії").
Proof. reflexivity. Qed.

(** C4 on the code: [update_prices] given SetDiscountPercentage and no
    target percentage does not raise.  It creates a rollback session,
    schedules the job and answers "started"; the job then goes through
    every unit, each failing in its price computation before any update
    is sent, and ends completed with no success and no error recorded. *)
Theorem start_without_target_is_accepted (env : Env) (v : Q)
    (filter_type : string) (filter_value : option string)
    (limit_products : option Z) (w : World) :
  exists resp w1 t,
    update_prices env "set_discount_percentage" v None filter_type
      filter_value limit_products w = (Ok resp, w1) /\
    resp_status resp = "started" /\
    length (rollback_sessions w1) = S (length (rollback_sessions w)) /\
    background_tasks w1 = background_tasks w ++ [t] /\
    t_strategy t = SET_DISCOUNT_PERCENTAGE /\
    t_target_discount t = None /\
    exists w2 pf,
      run_task env t w1 = (Ok tt, w2) /\
      task_progress w2 !! t_task_id t = Some pf /\
      status pf = "completed" /\
      current pf = count_variants (enumerated env filter_type filter_value limit_products) /\
      final_stats pf =
        Some {| total_processed :=
                  count_variants (enumerated env filter_type filter_value limit_products);
                successful_updates := 0;
                errors_count := 0 |} /\
      errors pf = [] /\
      error pf = None /\
      remote_calls w2 = remote_calls w.
Proof.
  unfold update_prices. cbn [strategy_of_string String.eqb Ascii.eqb Bool.eqb].
  unfold mbind, create_rollback_session, add_task, ret.
  do 3 eexists. split; [reflexivity|].
  cbn [resp_status rollback_sessions background_tasks length t_strategy
       t_target_discount].
  repeat (split; [reflexivity|]).
  unfold run_task.
  cbn [t_task_id t_session_id t_strategy t_value t_target_discount
       t_filter_type t_filter_value t_limit_products].
  match goal with
  | |- context [process_discount_update env ?tid ?sid _ _ _ _ _ _ ?w1] =>
      destruct (job_run env tid sid SET_DISCOUNT_PERCENTAGE v None
                  filter_type filter_value limit_products
                  (fun _ b => b = false)
                  (fun _ w0 => remote_calls w0 = remote_calls w) w1)
        as (bs & w2 & pf & new & Hbs & Hrun & Hcalls & Hpf & Hdone & _)
  end.
  - intros u w0 b w3 n _ HP Hu.
    rewrite (update_unit_price_error env _ SET_DISCOUNT_PERCENTAGE v None
               u w0 _ (set_discount_without_target_raises u v)) in Hu.
    injection Hu as <- <-. auto.
  - auto.
  - reflexivity.
  - apply count_true_none in Hbs. rewrite Hbs in Hdone.
    destruct Hdone as (H1 & H2 & H3 & H4 & H5 & H6 & H7 & H8).
    exists w2, pf. repeat split; assumption.
Qed.

(** * Further properties of the code *)

Import Steps Audit Endpoints.

(** ** Further properties of the price arithmetic *)

Lemma effective_compare_nonzero (compare : option Q) (c : Q) :
  effective_compare compare = Some c -> compare = Some c /\ ~ c == 0.
Proof.
  unfold effective_compare, if_opt. destruct compare as [x|]; [|discriminate].
  destruct (truthy x) eqn:E; [|discriminate].
  intros H. injection H as <-. split; [reflexivity|]. now apply truthy_true.
Qed.

(** X1: IncreaseCompareOnly returns the price it was given, and for a
    positive price and a compare price that is not negative the new
    compare price moves the way of value from the compare price it starts
    from (the existing one when present and not zero, else the price): it
    is not below it for value >= 0 and not above it for value <= 0. *)
Theorem increase_compare_only_follows_value
    (price : Q) (compare : option Q) (value : Q) (target : option Q) :
  0 < price ->
  (forall c, compare = Some c -> 0 <= c) ->
  exists nc,
    calculate_new_prices price compare INCREASE_COMPARE_ONLY value target
    = Ok (price, Some nc) /\
    (0 <= value ->
     match effective_compare compare with Some c => c | None => price end <= nc) /\
    (value <= 0 ->
     nc <= match effective_compare compare with Some c => c | None => price end).
Proof.
  intros Hp Hc. cbn [calculate_new_prices]. rewrite if_opt_effective.
  eexists. split; [reflexivity|].
  assert (Hd : value / 100 == value * (1 # 100)) by (unfold Qdiv; reflexivity).
  assert (Hstart : forall c, effective_compare compare = Some c -> 0 < c).
  { intros c E. apply effective_compare_nonzero in E as [-> Hnz].
    specialize (Hc c eq_refl).
    destruct (Qlt_le_dec 0 c); [assumption|exfalso; apply Hnz; lra]. }
  assert (Hmove : forall x, 0 < x ->
            (0 <= value -> x <= x * (1 + value / 100)) /\
            (value <= 0 -> x * (1 + value / 100) <= x)).
  { intros x Hx. rewrite Hd. split; intros Hv.
    - assert (0 <= x * (value * (1 # 100))) by (apply Qmult_le_0_compat; lra).
      lra.
    - assert (0 <= x * (- value * (1 # 100))) by (apply Qmult_le_0_compat; lra).
      lra. }
  destruct (effective_compare compare) as [c|] eqn:E.
  - apply Hmove. now apply Hstart.
  - apply Hmove. assumption.
Qed.

Lemma increase_compare_only_follows_value_witness :
  exists nc,
    calculate_new_prices 100 (Some 120) INCREASE_COMPARE_ONLY (-15) None
    = Ok (100, Some nc) /\
    (0 <= -15 ->
     match effective_compare (Some 120) with Some c => c | None => 100 end <= nc) /\
    (-15 <= 0 ->
     nc <= match effective_compare (Some 120) with Some c => c | None => 100 end).
Proof.
  apply (increase_compare_only_follows_value 100 (Some 120) (-15) None).
  - reflexivity.
  - intros c H. injection H as <-. discriminate.
Defined.

(** X2: DecreasePriceOnly on a positive price never raises the price and
    gives the same price for value and -value; nothing keeps the result
    above zero: it is not negative for |value| <= 100 and not positive for
    |value| >= 100. *)
Theorem decrease_price_only_never_raises_price
    (price : Q) (compare : option Q) (value : Q) (target : option Q) :
  0 < price ->
  exists np np' nc,
    calculate_new_prices price compare DECREASE_PRICE_ONLY value target
    = Ok (np, Some nc) /\
    calculate_new_prices price compare DECREASE_PRICE_ONLY (- value) target
    = Ok (np', Some nc) /\
    np' == np /\
    np <= price /\
    (Qabs value <= 100 -> 0 <= np) /\
    (100 <= Qabs value -> np <= 0).
Proof.
  intros Hp. cbn [calculate_new_prices].
  do 3 eexists. split; [reflexivity|]. split; [reflexivity|].
  split; [rewrite Qabs_opp; reflexivity|].
  pose proof (Qabs_nonneg value) as Ha.
  set (a := Qabs value) in *.
  assert (Hdiv : a / 100 == a * (1 # 100)) by (unfold Qdiv; reflexivity).
  rewrite Hdiv.
  assert (Hmul : 0 <= price * a) by (apply Qmult_le_0_compat; lra).
  split; [lra|]. split; intros H.
  - apply Qmult_le_0_compat; lra.
  - assert (0 <= price * (a * (1 # 100) - 1)) by (apply Qmult_le_0_compat; lra).
    lra.
Qed.

Lemma decrease_price_only_never_raises_price_witness :
  exists np np' nc,
    calculate_new_prices 100 (Some 120) DECREASE_PRICE_ONLY 150 None
    = Ok (np, Some nc) /\
    calculate_new_prices 100 (Some 120) DECREASE_PRICE_ONLY (- 150) None
    = Ok (np', Some nc) /\
    np' == np /\
    np <= 100 /\
    (Qabs 150 <= 100 -> 0 <= np) /\
    (100 <= Qabs 150 -> np <= 0).
Proof.
  apply (decrease_price_only_never_raises_price 100 (Some 120) 150 None).
  reflexivity.
Defined.

(** X4: under BothDirections without a usable compare price (absent or
    zero) and with a positive price, the compare price that is created is
    never below the new price nor below the current price, whatever the
    sign of value. *)
Theorem both_directions_created_compare_not_below
    (price : Q) (compare : option Q) (value : Q) (target : option Q) :
  0 < price ->
  effective_compare compare = None ->
  exists np nc,
    calculate_new_prices price compare BOTH_DIRECTIONS value target
    = Ok (np, Some nc) /\
    np <= nc /\ price <= nc.
Proof.
  intros Hp He. cbn [calculate_new_prices]. rewrite if_opt_effective, He.
  do 2 eexists. split; [reflexivity|].
  rewrite Qabs_double.
  pose proof (Qabs_nonneg value) as H0.
  pose proof (Qle_Qabs value) as H1.
  set (a := Qabs value) in *.
  assert (Hd : forall x, x / 100 == x * (1 # 100)) by (intros; unfold Qdiv; reflexivity).
  rewrite !Hd.
  assert (0 <= price * a) by (apply Qmult_le_0_compat; lra).
  assert (0 <= price * (a - value)) by (apply Qmult_le_0_compat; lra).
  split; lra.
Qed.

Lemma both_directions_created_compare_not_below_witness :
  exists np nc,
    calculate_new_prices 50 (Some 0) BOTH_DIRECTIONS (-10) None
    = Ok (np, Some nc) /\
    np <= nc /\ 50 <= nc.
Proof.
  apply (both_directions_created_compare_not_below 50 (Some 0) (-10) None);
    reflexivity.
Defined.

(** X6: [calculate_new_prices] raises in two cases only, both under
    SetDiscountPercentage: a [ValueError] when no target is given, and a
    [ZeroDivisionError] when the target is 100. *)
Theorem calculate_new_prices_raises_iff
    (price : Q) (compare : option Q) (s : DiscountStrategy) (value : Q)
    (target : option Q) (e : exn) :
  calculate_new_prices price compare s value target = Raise e <->
  s = SET_DISCOUNT_PERCENTAGE /\
  ((target = None /\
    e = ValueError "target_discount_percentage обов'язковий для цієї стратегії")
   \/ (exists D, target = Some D /\ D == 100 /\ e = ZeroDivisionError)).
Proof.
  split.
  - destruct s; cbn [calculate_new_prices]; try discriminate.
    destruct target as [D|].
    + unfold fdiv. destruct (Qeq_bool (1 - D / 100) 0) eqn:E; cbn [bind];
        [|discriminate].
      intros H. injection H as <-. split; [reflexivity|]. right.
      exists D. repeat split. apply Qeq_bool_iff in E.
      assert (Hd : D / 100 == D * (1 # 100)) by (unfold Qdiv; reflexivity).
      rewrite Hd in E. lra.
    + intros H. injection H as <-. split; [reflexivity|]. left. split; reflexivity.
  - intros [-> [[-> ->] | (D & -> & HD & ->)]]; cbn [calculate_new_prices];
      [reflexivity|].
    rewrite fdiv_zero; [reflexivity|].
    assert (Hd : D / 100 == D * (1 # 100)) by (unfold Qdiv; reflexivity).
    rewrite Hd. lra.
Qed.

(** X7: for a price that is not negative and a compare price above it, the
    discount percentage is above 0 and at most 100, and it is 100 for a
    price of zero. *)
Theorem discount_percentage_within_0_100 (price comparePrice : Q) :
  0 <= price ->
  price < comparePrice ->
  exists d,
    calculate_discount_percentage price comparePrice = Ok d /\
    0 < d /\ d <= 100 /\ (price == 0 -> d == 100).
Proof.
  intros Hp Hc. unfold calculate_discount_percentage.
  replace (fle comparePrice price) with false by (symmetry; now apply fle_false).
  rewrite fdiv_ok by lra. cbn [bind]. eexists. split; [reflexivity|].
  assert (Hform : (comparePrice - price) / comparePrice * 100
                  == 100 - 100 * (price / comparePrice)) by (field; lra).
  rewrite Hform.
  assert (Hq0 : 0 <= price / comparePrice) by (apply Qle_shift_div_l; lra).
  assert (Hq1 : price / comparePrice < 1) by (apply Qlt_shift_div_r; lra).
  split; [lra|]. split; [lra|].
  intros H.
  assert (Hz : price / comparePrice == 0) by (rewrite H; field; lra).
  lra.
Qed.

Lemma discount_percentage_within_0_100_witness :
  exists d,
    calculate_discount_percentage 0 120 = Ok d /\
    0 < d /\ d <= 100 /\ (0 == 0 -> d == 100).
Proof.
  apply (discount_percentage_within_0_100 0 120); [discriminate | reflexivity].
Defined.

(** X5: SetDiscountPercentage on a positive price, for a target other
    than 100, keeps the price and accepts any target: the compare price it
    returns is not below the price for a target from 0 up to 100, not
    above the price and not negative for a target <= 0, and not positive
    for a target above 100. *)
Theorem set_discount_compare_by_target_range
    (price : Q) (compare : option Q) (value D : Q) :
  0 < price ->
  ~ D == 100 ->
  exists nc,
    calculate_new_prices price compare SET_DISCOUNT_PERCENTAGE value (Some D)
    = Ok (price, Some nc) /\
    (0 <= D -> D < 100 -> price <= nc) /\
    (D <= 0 -> 0 <= nc /\ nc <= price) /\
    (100 < D -> nc <= 0).
Proof.
  intros Hp HD.
  assert (Hd : D / 100 == D * (1 # 100)) by (unfold Qdiv; reflexivity).
  set (k := 1 - D / 100).
  assert (Hk : ~ k == 0) by (unfold k; rewrite Hd; lra).
  cbn [calculate_new_prices]. fold k. rewrite fdiv_ok by exact Hk. cbn [bind].
  eexists. split; [reflexivity|].
  assert (Hnc : price / k * k == price) by (field; exact Hk).
  assert (Hkd : k == 1 - D * (1 # 100)) by (unfold k; rewrite Hd; reflexivity).
  split; [|split].
  - intros H0 H100.
    assert (Hkpos : 0 < k) by lra.
    assert (0 < price / k) by (apply Qlt_shift_div_l; lra).
    assert (0 <= price / k * (1 - k)) by (apply Qmult_le_0_compat; lra).
    lra.
  - intros H0.
    assert (Hkpos : 0 < k) by lra.
    assert (0 < price / k) by (apply Qlt_shift_div_l; lra).
    assert (0 <= price / k * (k - 1)) by (apply Qmult_le_0_compat; lra).
    lra.
  - intros H100.
    assert (Hkneg : k < 0) by lra.
    destruct (Qlt_le_dec 0 (price / k)) as [Hpos|]; [exfalso|assumption].
    assert (0 < price / k * (- k)) by (apply Qmult_lt_0_compat; lra).
    lra.
Qed.

Lemma set_discount_compare_by_target_range_witness :
  exists nc,
    calculate_new_prices 100 (Some 120) SET_DISCOUNT_PERCENTAGE 0 (Some 150)
    = Ok (100, Some nc) /\
    (0 <= 150 -> 150 < 100 -> 100 <= nc) /\
    (150 <= 0 -> 0 <= nc /\ nc <= 100) /\
    (100 < 150 -> nc <= 0).
Proof.
  apply (set_discount_compare_by_target_range 100 (Some 120) 0 150);
    [reflexivity | discriminate].
Defined.

(** *** The discount of the preview *)

Lemma guarded_discount_value (price : Q) (compare : option Q) :
  guarded_discount price compare
  = Ok match effective_compare compare with
       | Some c => if fgt c price then (c - price) / c * 100 else 0
       | None => 0
       end.
Proof.
  unfold guarded_discount. rewrite if_opt_effective.
  destruct (effective_compare compare) as [c|] eqn:E; [|reflexivity].
  apply effective_compare_nonzero in E as [_ Hnz].
  destruct (fgt c price) eqn:Hg; [|reflexivity].
  apply fgt_true in Hg. unfold calculate_discount_percentage.
  replace (fle c price) with false by (symmetry; now apply fle_false).
  rewrite fdiv_ok by assumption. reflexivity.
Qed.

(** [DiscountStrategy(name)] and [strategy.value]. *)
Lemma strategy_of_string_spec (name : string) (s : DiscountStrategy) :
  strategy_of_string name = Ok s <-> name = strategy_value s.
Proof.
  split.
  - unfold strategy_of_string.
    repeat match goal with
           | |- context [String.eqb name ?x] =>
               destruct (String.eqb_spec name x) as [->|]
           end;
      intros H; try discriminate; injection H as <-; reflexivity.
  - intros ->. destruct s; reflexivity.
Qed.

Lemma preview_raise_spec
    (price : Q) (compare : option Q) (s : DiscountStrategy) (value : Q)
    (target : option Q) (e : exn) :
  calculate_new_prices price compare s value target = Raise e ->
  preview_discount_change price compare s value target = Raise e.
Proof.
  intros H. unfold preview_discount_change.
  rewrite guarded_discount_value, H. reflexivity.
Qed.

(** X10: [preview_discount_change] raises exactly when the price
    computation raises, and with the same exception; the two discount
    computations of the preview never raise. *)
Theorem preview_raises_iff
    (price : Q) (compare : option Q) (s : DiscountStrategy) (value : Q)
    (target : option Q) (e : exn) :
  preview_discount_change price compare s value target = Raise e <->
  calculate_new_prices price compare s value target = Raise e.
Proof.
  unfold preview_discount_change.
  rewrite guarded_discount_value. cbn [bind].
  destruct (calculate_new_prices price compare s value target) as [[np nc]|e'];
    cbn [bind].
  - rewrite guarded_discount_value. cbn [bind]. split; discriminate.
  - split; intros H; injection H as <-; reflexivity.
Qed.

(** ** One unit, exactly *)

Lemma guarded_discount_shown (price : Q) (compare : option Q) :
  guarded_discount price compare = Ok (shown_discount price compare).
Proof. apply guarded_discount_value. Qed.

Section UnitAudit.

Variable env : Env.
Variable session_id : string.
Variable strategy : DiscountStrategy.
Variable value : Q.
Variable target_discount : option Q.

(** The four ways through [update_single_variant_discount]. *)
Lemma update_unit_cases (u : Product * Variant) (w : World) :
  match unit_prices strategy value target_discount u with
  | Raise _ =>
      update_unit env strategy value target_discount session_id u w = (Ok false, w)
  | Ok (np, nc) =>
      let request := unit_request u np nc in
      let row := unit_row session_id strategy u np nc in
      match shop_put_variant env (remote_calls w) request with
      | Some _ =>
          update_unit env strategy value target_discount session_id u w
          = (Ok false, log_remote_call request w)
      | None =>
          match db_insert_price_change env (price_changes w) row with
          | Some _ =>
              update_unit env strategy value target_discount session_id u w
              = (Ok false, log_remote_call request w)
          | None =>
              update_unit env strategy value target_discount session_id u w
              = (Ok true, add_row row (log_remote_call request w))
          end
      end
  end.
Proof.
  unfold unit_prices, unit_request, unit_row.
  unfold update_unit, update_single_variant_discount, try_except, mbind, lift, ret,
    update_variant_price, log_price_change.
  destruct (calculate_new_prices _ _ _ _ _) as [[np nc]|e]; [|reflexivity].
  cbv zeta.
  destruct (shop_put_variant _ _ _); [reflexivity|].
  rewrite !guarded_discount_shown.
  cbn [price_changes log_remote_call].
  destruct (db_insert_price_change _ _ _); reflexivity.
Qed.

End UnitAudit.

(** ** One unit and its history row *)

Section UnitFacts.

Variable env : Env.
Variable session_id : string.
Variable strategy : DiscountStrategy.
Variable value : Q.
Variable target_discount : option Q.

(** X11: [update_single_variant_discount] returns True exactly when it
    has written a history row.  Then the shop has accepted the request for
    the computed prices, and the row carries the session and rollback data
    that restore the variant's price and compare price; when it returns
    False no row is written and at most one request was sent. *)
Theorem update_single_true_iff_row (product : Product) (variant : Variant)
    (w : World) :
  exists b w1,
    update_single_variant_discount env product variant strategy value
      target_discount session_id w = (Ok b, w1) /\
    ((b = true /\
      exists np nc row,
        calculate_new_prices (variant_price variant)
          (variant_compare_at_price variant) strategy value target_discount
        = Ok (np, nc) /\
        shop_put_variant env (remote_calls w)
          (unit_request (product, variant) np nc) = None /\
        remote_calls w1 = unit_request (product, variant) np nc :: remote_calls w /\
        price_changes w1 = row :: price_changes w /\
        pc_session_id row = session_id /\
        pc_variant_id row = variant_id variant /\
        pc_old_price row = variant_price variant /\
        pc_new_price row = np /\
        pc_new_compare_at_price row = nc /\
        restore_price (pc_rollback_data row) = variant_price variant /\
        restore_compare_at_price (pc_rollback_data row)
        = variant_compare_at_price variant)
     \/
     (b = false /\
      price_changes w1 = price_changes w /\
      (length (remote_calls w1) <= S (length (remote_calls w)))%nat)).
Proof.
  pose proof (update_unit_cases env session_id strategy value target_discount
                (product, variant) w) as Hcases.
  unfold update_unit, unit_prices in Hcases. cbn [fst snd] in Hcases.
  destruct (calculate_new_prices _ _ _ _ _) as [[np nc]|e] eqn:Hq.
  - cbv zeta in Hcases.
    destruct (shop_put_variant _ _ _) eqn:Hput.
    + do 2 eexists. split; [exact Hcases|]. right. cbn. auto.
    + destruct (db_insert_price_change _ _ _).
      * do 2 eexists. split; [exact Hcases|]. right. cbn. auto.
      * do 2 eexists. split; [exact Hcases|]. left. split; [reflexivity|].
        exists np, nc. eexists. split; [reflexivity|]. split; [exact Hput|].
        cbn. repeat split.
  - do 2 eexists. split; [exact Hcases|]. right. cbn. auto.
Qed.

(** X12: when the shop accepts the update and the insert of the history
    row then fails, [update_single_variant_discount] returns False with
    the request sent and no row written: the price is changed in the shop
    and there is no rollback data for it. *)
Theorem update_accepted_but_not_logged (product : Product) (variant : Variant)
    (w : World) (np : Q) (nc : option Q) (e : exn) :
  calculate_new_prices (variant_price variant) (variant_compare_at_price variant)
    strategy value target_discount = Ok (np, nc) ->
  shop_put_variant env (remote_calls w) (unit_request (product, variant) np nc)
  = None ->
  db_insert_price_change env (price_changes w)
    (unit_row session_id strategy (product, variant) np nc) = Some e ->
  exists w1,
    update_single_variant_discount env product variant strategy value
      target_discount session_id w = (Ok false, w1) /\
    remote_calls w1 = unit_request (product, variant) np nc :: remote_calls w /\
    price_changes w1 = price_changes w.
Proof.
  intros Hq Hput Hdb.
  pose proof (update_unit_cases env session_id strategy value target_discount
                (product, variant) w) as Hcases.
  unfold update_unit, unit_prices in Hcases. cbn [fst snd] in Hcases.
  rewrite Hq in Hcases. cbv zeta in Hcases. rewrite Hput, Hdb in Hcases.
  eexists. split; [exact Hcases|]. cbn. auto.
Qed.

End UnitFacts.

Lemma update_accepted_but_not_logged_witness :
  exists w1,
    update_single_variant_discount env_history_locked cap variant_s
      INCREASE_COMPARE_ONLY 15 None "session-0" world0 = (Ok false, w1) /\
    remote_calls w1
    = unit_request (cap, variant_s) 100 (Some (120 * (1 + 15 / 100)))
      :: remote_calls world0 /\
    price_changes w1 = price_changes world0.
Proof.
  apply (update_accepted_but_not_logged env_history_locked "session-0"
           INCREASE_COMPARE_ONLY 15 None cap variant_s world0 100
           (Some (120 * (1 + 15 / 100)))
           (DatabaseError "database is locked"));
    reflexivity.
Defined.

(** X13: when the compare price computed for a unit is zero, the request
    sent for the unit carries no compare price, while the history row
    written for it records a new compare price of zero; the call returns
    True. *)
Theorem zero_compare_left_out_but_logged (env : Env) (session_id : string)
    (strategy : DiscountStrategy) (value : Q) (target_discount : option Q)
    (product : Product) (variant : Variant) (w : World) (np c : Q) :
  calculate_new_prices (variant_price variant) (variant_compare_at_price variant)
    strategy value target_discount = Ok (np, Some c) ->
  c == 0 ->
  (forall sent payload, shop_put_variant env sent payload = None) ->
  (forall rows row, db_insert_price_change env rows row = None) ->
  exists w1 request row,
    update_single_variant_discount env product variant strategy value
      target_discount session_id w = (Ok true, w1) /\
    remote_calls w1 = request :: remote_calls w /\
    payload_id request = variant_id variant /\
    payload_compare_at_price request = None /\
    price_changes w1 = row :: price_changes w /\
    pc_variant_id row = variant_id variant /\
    pc_new_compare_at_price row = Some c.
Proof.
  intros Hq Hc Hput Hdb.
  pose proof (update_unit_cases env session_id strategy value target_discount
                (product, variant) w) as Hcases.
  unfold update_unit, unit_prices in Hcases. cbn [fst snd] in Hcases.
  rewrite Hq in Hcases. cbv zeta in Hcases. rewrite Hput, Hdb in Hcases.
  do 3 eexists. split; [exact Hcases|].
  split; [reflexivity|]. split; [reflexivity|].
  split; [|repeat split].
  unfold unit_request, variant_payload, if_opt. cbn [payload_compare_at_price].
  replace (truthy c) with false by (symmetry; now apply truthy_false).
  reflexivity.
Qed.

Lemma zero_compare_left_out_but_logged_witness :
  exists w1 request row,
    update_single_variant_discount (env_up [shirt]) shirt variant_s
      INCREASE_COMPARE_ONLY (-100) None "session-0" world0 = (Ok true, w1) /\
    remote_calls w1 = request :: remote_calls world0 /\
    payload_id request = variant_id variant_s /\
    payload_compare_at_price request = None /\
    price_changes w1 = row :: price_changes world0 /\
    pc_variant_id row = variant_id variant_s /\
    pc_new_compare_at_price row = Some (120 * (1 + -100 / 100)).
Proof.
  apply (zero_compare_left_out_but_logged (env_up [shirt]) "session-0"
           INCREASE_COMPARE_ONLY (-100) None shirt variant_s world0 100
           (120 * (1 + -100 / 100))).
  - reflexivity.
  - reflexivity.
  - intros sent payload. reflexivity.
  - intros rows row. reflexivity.
Defined.

(** ** The batch job, step by step *)

Section JobSteps.

Variable env : Env.
Variables task_id session_id : string.
Variable strategy : DiscountStrategy.
Variable value : Q.
Variable target_discount : option Q.

(** One turn of the loop, exactly. *)
Lemma unit_turn_exact (T c s : nat) (w : World) (u : Product * Variant)
    (p : Progress) (b : bool) (w1 : World) :
  (0 < T)%nat ->
  task_progress w !! task_id = Some p ->
  update_unit env strategy value target_discount session_id u w = (Ok b, w1) ->
  unit_turn env task_id session_id strategy value target_discount T u (c, s) w
  = (Ok (S c, (s + if b then 1 else 0)%nat), turn_world task_id T c s u b p w1).
Proof.
  intros HT Hp Hu.
  pose proof (quiet_update_unit env session_id strategy value target_discount u w)
    as (Q1 & _).
  rewrite Hu in Q1. cbn [snd] in Q1.
  assert (HTq : ~ inject_Z (Z.of_nat T) == 0).
  { change 0 with (inject_Z 0). rewrite inject_Z_injective. lia. }
  unfold unit_turn, process_unit. unfold update_unit in Hu. rewrite Hu.
  replace (if b then S s else s) with (s + if b then 1 else 0)%nat
    by (destruct b; lia).
  unfold publish_unit_progress, mbind, lift, registry_modify.
  rewrite (fdiv_ok _ _ HTq). rewrite Q1, Hp. unfold turn_world. rewrite Q1.
  reflexivity.
Qed.

(** The loop under an invariant [I] of the counters and the state; the
    turn on the unit at position [c] of [all] starts with the counter [c]. *)
Lemma units_loop_inv (T : nat) (log0 : list (gmap string Progress))
    (I : nat -> nat -> World -> Prop) (all : list (Product * Variant)) :
  (length all <= T)%nat ->
  (forall u w c s b w1 p,
      nth_error all c = Some u -> I c s w ->
      task_progress w !! task_id = Some p ->
      update_unit env strategy value target_discount session_id u w = (Ok b, w1) ->
      I (S c) (s + if b then 1 else 0)%nat (turn_world task_id T c s u b p w1)) ->
  forall us done s w,
    all = done ++ us ->
    I (length done) s w -> loop_inv task_id T log0 (length done) s w ->
    exists s' w',
      for_each us
        (unit_turn env task_id session_id strategy value target_discount T)
        (length done, s) w
      = (Ok (length all, s'), w') /\
      I (length all) s' w' /\
      loop_inv task_id T log0 (length all) s' w'.
Proof.
  intros HT Hstep.
  induction us as [|u us IH]; intros done s w Hall HI Hinv.
  - rewrite app_nil_r in Hall. subst done. exists s, w. cbn. auto.
  - assert (Hnth : nth_error all (length done) = Some u).
    { rewrite Hall, nth_error_app2 by lia. rewrite Nat.sub_diag. reflexivity. }
    assert (Hlen : (length done < T)%nat).
    { rewrite Hall, length_app in HT. cbn [length] in HT. lia. }
    destruct (process_unit_step env task_id session_id strategy value
                target_discount T log0 (length done) s w u ltac:(lia) Hinv)
      as (b & w1 & reg & Hu & Hturn & Hinv1).
    destruct Hinv as (p & rest & Hp & _).
    pose proof (unit_turn_exact T (length done) s w u p b w1 ltac:(lia) Hp Hu)
      as Hexact.
    assert (Hw : turn_world task_id T (length done) s u b p w1
                 = snd (set_registry reg w1)) by congruence.
    rewrite <- Hw in Hinv1. clear Hturn Hw.
    pose proof (Hstep u w (length done) s b w1 p Hnth HI Hp Hu) as HI1.
    replace (S (length done)) with (length (done ++ [u])) in HI1, Hinv1
      by (rewrite length_app; cbn; lia).
    destruct (IH (done ++ [u]) (s + if b then 1 else 0)%nat _
                ltac:(rewrite <- app_assoc; exact Hall) HI1 Hinv1)
      as (s' & w' & Hrun & HI' & Hinv').
    exists s', w'. cbn [for_each]. unfold mbind. rewrite Hexact.
    replace (S (length done)) with (length (done ++ [u]))
      by (rewrite length_app; cbn; lia).
    auto.
Qed.

(** The whole job under an invariant of the loop: it returns normally, in
    the state of the final update made on a state that satisfies the
    invariant for N units. *)
Lemma job_exact (filter_type : string) (filter_value : option string)
    (limit_products : option Z)
    (I : nat -> nat -> World -> Prop) (w : World) :
  let products := enumerated env filter_type filter_value limit_products in
  let N := count_variants products in
  (forall u w c s b w1 p,
      nth_error (units products) c = Some u -> I c s w ->
      task_progress w !! task_id = Some p ->
      update_unit env strategy value target_discount session_id u w = (Ok b, w1) ->
      I (S c) (s + if b then 1 else 0)%nat (turn_world task_id N c s u b p w1)) ->
  I 0%nat 0%nat (started_world task_id session_id strategy N w) ->
  exists s w_c p_c,
    I N s w_c /\
    task_progress w_c !! task_id = Some p_c /\
    current p_c = N /\
    (s <= N)%nat /\
    process_discount_update env task_id session_id strategy value
      target_discount filter_type filter_value limit_products w
    = (Ok tt, finished_world task_id (isoformat_now env) N s p_c w_c).
Proof.
  intros products N Hstep Hstart.
  set (p_a := initial_progress session_id strategy).
  set (reg_a := <[task_id := p_a]> (task_progress w)).
  set (w_a := snd (set_registry reg_a w)).
  set (p_b := set_processing N p_a).
  set (reg_b := <[task_id := p_b]> reg_a).
  set (w_b := started_world task_id session_id strategy N w) in *.
  assert (Ha : reg_a !! task_id = Some p_a) by apply lookup_insert_eq.
  assert (Hb : reg_b !! task_id = Some p_b) by apply lookup_insert_eq.
  assert (Hinv : loop_inv task_id N (registry_log w) 0 0 w_b).
  { exists p_b, [reg_a].
    unfold w_b, started_world. fold p_a reg_a p_b reg_b.
    cbn [set_registry snd task_progress registry_log].
    split; [exact Hb|]. split; [reflexivity|]. split; [reflexivity|].
    split; [repeat constructor; eauto|].
    split.
    { rewrite (entry_log_cons _ _ p_b) by exact Hb.
      rewrite (entry_log_cons _ _ p_a) by exact Ha.
      repeat constructor; cbn; lia. }
    cbn. rewrite pct_zero. repeat split; auto. }
  destruct (units_loop_inv N (registry_log w) I (units products)
              ltac:(rewrite length_units; reflexivity) Hstep
              (units products) [] 0%nat w_b eq_refl Hstart Hinv)
    as (s & w_c & Hrun & HI & Hinvc).
  cbn [length] in Hrun.
  rewrite length_units in Hrun, HI, Hinvc. cbn [Nat.add] in Hrun, HI, Hinvc.
  fold N in Hrun, HI, Hinvc.
  destruct Hinvc as (p_c & rest & Hp & Hlog & Hlen & Hall & Hsorted & Hst & Htot
                     & Herrs & Herr & Hcur & Hpct & Hsucc & Hle).
  exists s, w_c, p_c. repeat (split; [assumption|]).
  unfold process_discount_update, try_except, mbind.
  unfold registry_assign at 1. fold p_a reg_a.
  change (set_registry reg_a w) with (Ok tt, w_a). cbv beta iota.
  rewrite get_filtered_products_run. fold products N. cbv beta iota.
  unfold registry_modify at 1.
  change (task_progress w_a) with reg_a. rewrite Ha. fold p_b reg_b.
  change (set_registry reg_b w_a) with (Ok tt, w_b). cbv beta iota.
  rewrite for_each_units.
  change (fun u : Product * Variant =>
            process_unit env task_id session_id strategy value target_discount
              N (fst u) (snd u))
    with (unit_turn env task_id session_id strategy value target_discount N).
  rewrite Hrun. cbv beta iota.
  unfold registry_modify. rewrite Hp. reflexivity.
Qed.

End JobSteps.

(** ** The batch job: what it writes and what it leaves alone *)

Lemma firstn_snoc {A} (l : list A) (n : nat) (x : A) :
  nth_error l n = Some x -> firstn (S n) l = firstn n l ++ [x].
Proof.
  revert n. induction l as [|y l IH]; intros [|n] H; cbn in *; try discriminate.
  - injection H as ->. reflexivity.
  - rewrite (IH n H). reflexivity.
Qed.

Lemma requests_of_snoc (strategy : DiscountStrategy) (value : Q)
    (target_discount : option Q) (us : list (Product * Variant))
    (u : Product * Variant) :
  requests_of strategy value target_discount (us ++ [u])
  = requests_of strategy value target_discount us
    ++ requests_of strategy value target_discount [u].
Proof. unfold requests_of. apply flat_map_app. Qed.

Lemma pct_full (T : nat) : (0 < T)%nat -> pct T T = 100%Z.
Proof.
  intros HT. unfold pct, int_of_float.
  assert (HTq : ~ inject_Z (Z.of_nat T) == 0).
  { change 0 with (inject_Z 0). rewrite inject_Z_injective. lia. }
  assert (Hx : inject_Z (Z.of_nat T) / inject_Z (Z.of_nat T) * 100 == 100)
    by (field; exact HTq).
  remember (inject_Z (Z.of_nat T) / inject_Z (Z.of_nat T) * 100) as x eqn:Ex.
  assert (Hnum : (Qnum x <? 0)%Z = false).
  { apply Z.ltb_ge.
    assert (H0 : 0 <= x) by (rewrite Hx; discriminate).
    unfold Qle in H0. cbn in H0. lia. }
  rewrite Hnum, Hx. reflexivity.
Qed.

Lemma pct_bounds (T c : nat) :
  (0 < T)%nat -> (c <= T)%nat -> (0 <= pct T c <= 100)%Z.
Proof.
  intros HT Hc. rewrite <- (pct_zero T) at 1. rewrite <- (pct_full T HT).
  split; apply pct_mono; lia.
Qed.

Section JobTrace.

Variable env : Env.
Variables task_id session_id : string.
Variable strategy : DiscountStrategy.
Variable value : Q.
Variable target_discount : option Q.

Lemma job_inv_start (all : list (Product * Variant)) (w : World) :
  job_inv task_id session_id strategy value target_discount all w 0 0
    (started_world task_id session_id strategy (length all) w).
Proof.
  unfold job_inv, started_world.
  cbn [set_registry snd task_progress registry_log rollback_sessions
       background_tasks remote_calls price_changes firstn].
  split.
  { intros other Hne. rewrite !lookup_insert_ne by congruence. reflexivity. }
  split.
  { intros p. rewrite lookup_insert_eq. intros H. injection H as <-.
    cbn. auto. }
  split.
  { eexists [_; _]. split; [reflexivity|].
    constructor; [|constructor; [|constructor]];
      intros p; rewrite lookup_insert_eq; intros H;
      injection H as <-; cbn; lia. }
  repeat (split; [reflexivity|]).
  exists []. repeat split. constructor.
Qed.

Lemma job_inv_step (all : list (Product * Variant)) (w0 : World)
    (u : Product * Variant) (w : World) (c s : nat) (b : bool) (w1 : World)
    (p : Progress) :
  nth_error all c = Some u ->
  job_inv task_id session_id strategy value target_discount all w0 c s w ->
  task_progress w !! task_id = Some p ->
  update_unit env strategy value target_discount session_id u w = (Ok b, w1) ->
  job_inv task_id session_id strategy value target_discount all w0 (S c)
    (s + if b then 1 else 0)
    (turn_world task_id (length all) c s u b p w1).
Proof.
  intros Hnth (Hothers & Hentry & (l & Hlog & Hbounds) & Hsess & Htasks & Hcalls
               & (rows & Hrows & Hcount & Hshape)) Hp Hu.
  assert (Hc : (c < length all)%nat) by (apply nth_error_Some; congruence).
  assert (Hin : In u all) by (eapply nth_error_In; eassumption).
  pose proof (quiet_update_unit env session_id strategy value target_discount u w)
    as (Q1 & Q2 & Q3 & Q4).
  rewrite Hu in Q1, Q2, Q3, Q4. cbn [snd] in Q1, Q2, Q3, Q4.
  destruct (Hentry p Hp) as (Hsid & Hstrat & Htotal).
  unfold job_inv, turn_world.
  cbn [set_registry snd task_progress registry_log rollback_sessions
       background_tasks remote_calls price_changes].
  rewrite Q1, Q2, Q3, Q4.
  split.
  { intros other Hne. rewrite lookup_insert_ne by congruence. auto. }
  split.
  { intros p'. rewrite lookup_insert_eq. intros H. injection H as <-.
    cbn. auto. }
  split.
  { eexists (_ :: l). split; [rewrite Hlog; reflexivity|].
    constructor; [|exact Hbounds].
    intros p'. rewrite lookup_insert_eq. intros H. injection H as <-.
    cbn. split; [apply pct_bounds; lia | lia]. }
  split; [assumption|]. split; [assumption|].
  rewrite (firstn_snoc all c u Hnth), requests_of_snoc, rev_app_distr.
  pose proof (update_unit_cases env session_id strategy value target_discount u w)
    as Hcases.
  unfold requests_of at 1. cbn [flat_map]. rewrite app_nil_r.
  destruct (unit_prices strategy value target_discount u) as [[np nc]|e] eqn:Hq.
  - cbv zeta in Hcases. cbn [rev app].
    destruct (shop_put_variant _ _ _).
    + rewrite Hu in Hcases. injection Hcases as -> ->.
      cbn [remote_calls price_changes log_remote_call].
      split; [rewrite Hcalls; reflexivity|].
      exists rows. rewrite Nat.add_0_r. auto.
    + destruct (db_insert_price_change _ _ _).
      * rewrite Hu in Hcases. injection Hcases as -> ->.
        cbn [remote_calls price_changes log_remote_call].
        split; [rewrite Hcalls; reflexivity|].
        exists rows. rewrite Nat.add_0_r. auto.
      * rewrite Hu in Hcases. injection Hcases as -> ->.
        cbn [remote_calls price_changes log_remote_call add_row].
        split; [rewrite Hcalls; reflexivity|].
        exists (unit_row session_id strategy u np nc :: rows).
        split; [rewrite Hrows; reflexivity|].
        split; [cbn [length]; lia|].
        constructor; [|exact Hshape].
        exists u, np, nc. auto.
  - rewrite Hu in Hcases. injection Hcases as -> ->.
    cbn [rev app]. split; [exact Hcalls|].
    exists rows. rewrite Nat.add_0_r. auto.
Qed.

(** A run of the job, with all that it wrote. *)
Lemma job_trace (filter_type : string) (filter_value : option string)
    (limit_products : option Z) (w : World) :
  exists s w_c p_c,
    job_inv task_id session_id strategy value target_discount
      (units (enumerated env filter_type filter_value limit_products)) w
      (count_variants (enumerated env filter_type filter_value limit_products))
      s w_c /\
    task_progress w_c !! task_id = Some p_c /\
    current p_c
    = count_variants (enumerated env filter_type filter_value limit_products) /\
    process_discount_update env task_id session_id strategy value
      target_discount filter_type filter_value limit_products w
    = (Ok tt,
       finished_world task_id (isoformat_now env)
         (count_variants (enumerated env filter_type filter_value limit_products))
         s p_c w_c).
Proof.
  set (products := enumerated env filter_type filter_value limit_products).
  pose proof (length_units products) as Hlen.
  destruct (job_exact env task_id session_id strategy value target_discount
              filter_type filter_value limit_products
              (job_inv task_id session_id strategy value target_discount
                 (units products) w) w)
    as (s & w_c & p_c & HI & Hp & Hcur & _ & Hrun).
  - fold products. rewrite <- Hlen. intros u w1 c s b w2 p. apply job_inv_step.
  - fold products. rewrite <- Hlen. apply job_inv_start.
  - exists s, w_c, p_c. auto.
Qed.

End JobTrace.

Section JobFacts.

Variable env : Env.
Variables task_id session_id : string.
Variable strategy : DiscountStrategy.
Variable value : Q.
Variable target_discount : option Q.
Variable filter_type : string.
Variable filter_value : option string.
Variable limit_products : option Z.

(** The final entry of a run, from both descriptions of it. *)
Lemma job_final (w : World) :
  exists s w_c p_c pf,
    job_inv task_id session_id strategy value target_discount
      (units (enumerated env filter_type filter_value limit_products)) w
      (count_variants (enumerated env filter_type filter_value limit_products))
      s w_c /\
    task_progress w_c !! task_id = Some p_c /\
    pf = set_completed (isoformat_now env)
           (count_variants (enumerated env filter_type filter_value limit_products))
           s p_c /\
    completed_with
      (count_variants (enumerated env filter_type filter_value limit_products))
      s pf /\
    process_discount_update env task_id session_id strategy value
      target_discount filter_type filter_value limit_products w
    = (Ok tt,
       finished_world task_id (isoformat_now env)
         (count_variants (enumerated env filter_type filter_value limit_products))
         s p_c w_c).
Proof.
  destruct (job_trace env task_id session_id strategy value target_discount
              filter_type filter_value limit_products w)
    as (s & w_c & p_c & HI & Hp & Hcur & Hrun).
  destruct (job_always_completes env task_id session_id strategy value
              target_discount filter_type filter_value limit_products w)
    as (succ & w' & pf & Hrun' & Hpf & Hdone).
  rewrite Hrun in Hrun'. injection Hrun' as <-.
  unfold finished_world in Hpf. cbn [set_registry snd task_progress] in Hpf.
  rewrite lookup_insert_eq in Hpf. injection Hpf as <-.
  exists s, w_c, p_c. eexists. repeat (split; [eassumption || reflexivity|]).
  split; [|exact Hrun].
  destruct Hdone as (H1 & H2 & H3 & H4 & H5 & H6 & H7 & H8).
  cbn [final_stats set_completed] in H8. injection H8 as Hs He.
  repeat split; try assumption.
  - rewrite H7. rewrite Hs. reflexivity.
  - cbn [final_stats set_completed]. rewrite He. reflexivity.
Qed.


(** X15: a job writes under its own task id only: every other entry of the
    registry, the rollback sessions and the scheduled tasks are after the
    run what they were before it. *)
Theorem job_touches_only_its_entry (w : World) :
  exists w',
    process_discount_update env task_id session_id strategy value
      target_discount filter_type filter_value limit_products w = (Ok tt, w') /\
    (forall other, other <> task_id ->
                   task_progress w' !! other = task_progress w !! other) /\
    rollback_sessions w' = rollback_sessions w /\
    background_tasks w' = background_tasks w.
Proof.
  destruct (job_final w)
    as (s & w_c & p_c & pf & HI & Hp & Hpf & Hdone & Hrun).
  destruct HI as (Hothers & _ & _ & Hsess & Htasks & _).
  eexists. split; [exact Hrun|].
  unfold finished_world.
  cbn [set_registry snd task_progress rollback_sessions background_tasks].
  split; [|auto].
  intros other Hne. rewrite lookup_insert_ne by congruence. auto.
Qed.

(** X16: the update requests of a job are those of the units of the
    catalog whose price computation returns, one for each, sent in the
    order of the catalog; what the shop or the database answers to one
    request changes nothing to the requests that follow. *)
Theorem job_sends_requests_in_catalog_order (w : World) :
  exists w',
    process_discount_update env task_id session_id strategy value
      target_discount filter_type filter_value limit_products w = (Ok tt, w') /\
    remote_calls w'
    = rev (requests_of strategy value target_discount
             (units (enumerated env filter_type filter_value limit_products)))
      ++ remote_calls w.
Proof.
  destruct (job_final w)
    as (s & w_c & p_c & pf & HI & Hp & Hpf & Hdone & Hrun).
  destruct HI as (_ & _ & _ & _ & _ & Hcalls & _).
  eexists. split; [exact Hrun|].
  unfold finished_world. cbn [set_registry snd remote_calls].
  rewrite Hcalls, <- length_units, firstn_all. reflexivity.
Qed.

(** X17: the history rows that a job writes are as many as the successful
    updates of its final statistics; each is the row of a unit of the
    catalog, under the session of the job, with the prices that the
    strategy computes for the unit and with rollback data that restore
    the price and the compare price the unit had. *)
Theorem job_rows_match_successful_updates (w : World) :
  exists w' pf rows,
    process_discount_update env task_id session_id strategy value
      target_discount filter_type filter_value limit_products w = (Ok tt, w') /\
    task_progress w' !! task_id = Some pf /\
    price_changes w' = rows ++ price_changes w /\
    final_stats pf
    = Some {| total_processed :=
                count_variants (enumerated env filter_type filter_value limit_products);
              successful_updates := length rows;
              errors_count := 0 |} /\
    Forall
      (fun row =>
         pc_session_id row = session_id /\
         pc_change_type row = "DISCOUNT_UPDATE" /\
         exists u,
           In u (units (enumerated env filter_type filter_value limit_products)) /\
           pc_variant_id row = unit_id u /\
           unit_prices strategy value target_discount u
           = Ok (pc_new_price row, pc_new_compare_at_price row) /\
           rb_variant_id (pc_rollback_data row) = unit_id u /\
           restore_price (pc_rollback_data row) = variant_price (snd u) /\
           restore_compare_at_price (pc_rollback_data row)
           = variant_compare_at_price (snd u))
      rows.
Proof.
  destruct (job_final w)
    as (s & w_c & p_c & pf & HI & Hp & Hpf & Hdone & Hrun).
  destruct HI as (_ & _ & _ & _ & _ & _ & (rows & Hrows & Hcount & Hshape)).
  destruct Hdone as (_ & _ & _ & _ & _ & _ & _ & Hstats).
  exists (finished_world task_id (isoformat_now env)
            (count_variants (enumerated env filter_type filter_value limit_products))
            s p_c w_c), pf, rows.
  split; [exact Hrun|].
  unfold finished_world. cbn [set_registry snd task_progress price_changes].
  split; [rewrite lookup_insert_eq, Hpf; reflexivity|].
  split; [exact Hrows|].
  split; [rewrite Hcount; exact Hstats|].
  eapply Forall_impl; [exact Hshape|].
  intros row (u & np & nc & Hin & Hq & ->). cbn.
  repeat split. exists u. rewrite Hq. repeat split; auto.
Qed.


End JobFacts.

(** ** The endpoints *)

(** X20: [POST /preview-changes] always answers with a payload, an error
    message or a preview, and never raises; it leaves the state as it was:
    no update is sent, no history row or session is written and the
    registry is not touched. *)
Theorem preview_changes_reads_only (env : Env) (strategy : string) (value : Q)
    (target_discount : option Q) (filter_type : string)
    (filter_value : option string) (w : World) :
  exists response,
    preview_changes env strategy value target_discount filter_type
      filter_value w = (Ok response, w).
Proof.
  unfold preview_changes, try_except, mbind, lift, ret.
  destruct (strategy_of_string strategy) as [s|e]; [|eauto].
  rewrite get_filtered_products_run.
  destruct (enumerated env filter_type filter_value (Some 1%Z)) as [|p ps];
    [eauto|].
  destruct (product_variants p) as [|v vs]; [eauto|].
  destruct (preview_discount_change _ _ _ _ _); eauto.
Qed.

(** X21: when the filter gives a product with a variant, an exception of
    the price computation (no target for SetDiscountPercentage, or a
    target of 100) comes back from [POST /preview-changes] as an error
    payload that carries its message. *)
Theorem preview_changes_reports_price_error (env : Env) (value : Q)
    (s : DiscountStrategy) (target_discount : option Q) (filter_type : string)
    (filter_value : option string) (w : World)
    (product : Product) (rest : list Product) (variant : Variant)
    (others : list Variant) (e : exn) :
  enumerated env filter_type filter_value (Some 1%Z) = product :: rest ->
  product_variants product = variant :: others ->
  calculate_new_prices (variant_price variant) (variant_compare_at_price variant)
    s value target_discount = Raise e ->
  preview_changes env (strategy_value s) value target_discount filter_type
    filter_value w
  = (Ok (PreviewError ("Помилка створення прикладу: " +:+ exn_str e)), w).
Proof.
  intros Hps Hvs Hraise.
  apply preview_raise_spec in Hraise.
  unfold preview_changes, try_except, mbind, lift, ret.
  replace (strategy_of_string (strategy_value s)) with (Ok s)
    by (symmetry; now apply strategy_of_string_spec).
  rewrite get_filtered_products_run, Hps, Hvs, Hraise. reflexivity.
Qed.

Lemma preview_changes_reports_price_error_witness :
  preview_changes (env_up [shirt]) (strategy_value SET_DISCOUNT_PERCENTAGE) 0
    None "all" None world0
  = (Ok (PreviewError
           ("Помилка створення прикладу: "
            +:+ exn_str
                  (ValueError
                     "target_discount_percentage обов'язковий для цієї стратегії"))),
     world0).
Proof.
  apply (preview_changes_reports_price_error (env_up [shirt]) 0
           SET_DISCOUNT_PERCENTAGE None "all" None world0
           shirt [] variant_s [variant_default]); reflexivity.
Defined.

(** X22: [POST /update-prices] with a name that is not the value of a
    strategy raises HTTP 400 and leaves the state as it was: no rollback
    session, no scheduled task. *)
Theorem update_prices_rejects_unknown_strategy (env : Env) (strategy : string)
    (value : Q) (target_discount : option Q) (filter_type : string)
    (filter_value : option string) (limit_products : option Z) (w : World) :
  (forall s, strategy <> strategy_value s) ->
  update_prices env strategy value target_discount filter_type filter_value
    limit_products w
  = (Raise (HTTPException 400 "Невірна стратегія знижки"), w).
Proof.
  intros Hname. unfold update_prices.
  destruct (strategy_of_string strategy) as [s|e] eqn:E; [|reflexivity].
  apply strategy_of_string_spec in E. destruct (Hname s E).
Qed.

Lemma update_prices_rejects_unknown_strategy_witness :
  update_prices (env_up [shirt]) "half_price" 15 None "all" None None world0
  = (Raise (HTTPException 400 "Невірна стратегія знижки"), world0).
Proof.
  apply (update_prices_rejects_unknown_strategy (env_up [shirt]) "half_price"
           15 None "all" None None world0).
  intros s. destruct s; discriminate.
Defined.






(** X19: a filter type other than all, collection, product_type and vendor
    is no error: [get_filtered_products] returns the empty list, and a job
    started with it ends completed with total 0 and no update request
    sent. *)
Theorem unknown_filter_type_selects_nothing (env : Env)
    (task_id session_id : string) (s : DiscountStrategy) (value : Q)
    (target_discount : option Q) (filter_type : string)
    (filter_value : option string) (limit_products : option Z) (w : World) :
  filter_type <> "all" -> filter_type <> "collection" ->
  filter_type <> "product_type" -> filter_type <> "vendor" ->
  get_filtered_products env filter_type filter_value limit_products w = (Ok [], w) /\
  exists w' pf,
    process_discount_update env task_id session_id s value target_discount
      filter_type filter_value limit_products w = (Ok tt, w') /\
    task_progress w' !! task_id = Some pf /\
    status pf = "completed" /\
    total pf = 0%nat /\
    remote_calls w' = remote_calls w.
Proof.
  intros H1 H2 H3 H4.
  assert (Hreq : catalog_request env filter_type filter_value limit_products = Ok []).
  { unfold catalog_request.
    repeat match goal with
           | |- context [String.eqb filter_type ?x] =>
               destruct (String.eqb_spec filter_type x); [contradiction|]
           end.
    reflexivity. }
  assert (Hnone : enumerated env filter_type filter_value limit_products = []).
  { unfold enumerated. rewrite Hreq. reflexivity. }
  split.
  { rewrite get_filtered_products_run, Hnone. reflexivity. }
  destruct (job_final env task_id session_id s value target_discount
              filter_type filter_value limit_products w)
    as (succ & w_c & p_c & pf & HI & Hp & Hpf & Hdone & Hrun).
  destruct HI as (_ & _ & _ & _ & _ & Hcalls & _).
  rewrite Hnone in Hcalls, Hdone. cbn in Hcalls.
  destruct Hdone as (Hst & _ & Htot & _).
  eexists. exists pf. split; [exact Hrun|].
  unfold finished_world. cbn [set_registry snd task_progress remote_calls].
  rewrite lookup_insert_eq, <- Hpf. repeat split; assumption.
Qed.

Lemma unknown_filter_type_selects_nothing_witness :
  get_filtered_products (env_up [shirt]) "tag" (Some "sale") None world0
  = (Ok [], world0) /\
  exists w' pf,
    process_discount_update (env_up [shirt]) "discount_update_1700000000"
      "session-0" INCREASE_COMPARE_ONLY 15 None "tag" (Some "sale") None world0
    = (Ok tt, w') /\
    task_progress w' !! "discount_update_1700000000" = Some pf /\
    status pf = "completed" /\
    total pf = 0%nat /\
    remote_calls w' = remote_calls world0.
Proof.
  apply (unknown_filter_type_selects_nothing (env_up [shirt])
           "discount_update_1700000000" "session-0" INCREASE_COMPARE_ONLY 15
           None "tag" (Some "sale") None world0); discriminate.
Defined.

(** * Rounded arithmetic and interleaved jobs *)

Import Coroutine SameSecond Lifetime.

(** *** The rounding operator of binary64 *)

Lemma exponent_le (x : Q) : ~ x == 0 -> 2 ^ Rounded.exponent x <= Qabs x.
Proof.
  intros Hx. unfold Rounded.exponent.
  set (n := Z.abs (Qnum x)). set (d := Zpos (Qden x)).
  destruct (Qle_bool _ (Qabs x)) eqn:E; [now apply Qle_bool_iff|].
  assert (Hn : (0 < n)%Z).
  { unfold n. destruct x as [[|p|p] q]; cbn; try lia. exfalso. now apply Hx. }
  assert (Hd : (0 < d)%Z) by (unfold d; lia).
  pose proof (Z.log2_spec n Hn) as [Hn1 _].
  pose proof (Z.log2_spec d Hd) as [_ Hd2].
  pose proof (Z.log2_nonneg n) as Hln.
  pose proof (Z.log2_nonneg d) as Hld.
  assert (Hsplit : 2 ^ (Z.log2 n - Z.log2 d - 1)
                   == 2 ^ Z.log2 n / 2 ^ (Z.log2 d + 1)).
  { replace (Z.log2 n - Z.log2 d - 1)%Z with (Z.log2 n - (Z.log2 d + 1))%Z by lia.
    apply Qpower_minus. discriminate. }
  assert (Habs : Qabs x == inject_Z n / inject_Z d).
  { unfold n, d. destruct x as [a b]. cbn [Qabs Qnum Qden]. apply Qmake_Qdiv. }
  assert (HA : 2 ^ Z.log2 n <= inject_Z n).
  { change 2 with (inject_Z 2). rewrite <- Zpower_Qpower by assumption.
    rewrite <- Zle_Qle. exact Hn1. }
  assert (HB : inject_Z d <= 2 ^ (Z.log2 d + 1)).
  { change 2 with (inject_Z 2). rewrite <- Zpower_Qpower by lia.
    rewrite <- Zle_Qle. unfold Z.succ in Hd2. lia. }
  assert (HdQ : 0 < inject_Z d) by (change 0 with (inject_Z 0); now rewrite <- Zlt_Qlt).
  assert (HBpos : 0 < 2 ^ (Z.log2 d + 1)) by (apply Qpower_0_lt; reflexivity).
  assert (HApos : 0 < 2 ^ Z.log2 n) by (apply Qpower_0_lt; reflexivity).
  rewrite Hsplit, Habs.
  apply Qle_shift_div_l; [assumption|].
  assert (Hx1 : 2 ^ Z.log2 n / 2 ^ (Z.log2 d + 1) * inject_Z d
                == 2 ^ Z.log2 n * (inject_Z d / 2 ^ (Z.log2 d + 1))).
  { field. intros H0. rewrite H0 in HBpos. discriminate. }
  rewrite Hx1.
  assert (Hr : inject_Z d / 2 ^ (Z.log2 d + 1) <= 1).
  { apply Qle_shift_div_r; [assumption|]. lra. }
  assert (Hr0 : 0 <= 1 - inject_Z d / 2 ^ (Z.log2 d + 1)) by lra.
  assert (0 <= 2 ^ Z.log2 n * (1 - inject_Z d / 2 ^ (Z.log2 d + 1)))
    by (apply Qmult_le_0_compat; lra).
  lra.
Qed.

(** One rounding moves a number by at most [u] times its magnitude. *)
Lemma rnd53_error (x : Q) :
  Qabs (Rounded.rnd53 x - x) <= Rounded.u * Qabs x.
Proof.
  unfold Rounded.rnd53.
  destruct (Qeq_bool x 0) eqn:E.
  - apply Qeq_bool_iff in E. rewrite E. discriminate.
  - assert (Hx : ~ x == 0) by (now apply Qeq_bool_neq).
    pose proof (exponent_le x Hx) as He.
    set (e := Rounded.exponent x) in *.
    set (ulp := 2 ^ (e - 52)).
    assert (Hulp : 0 < ulp) by (apply Qpower_0_lt; reflexivity).
    assert (Hsplit : ulp == 2 ^ e * (1 # 4503599627370496)).
    { unfold ulp. rewrite Qpower_minus by discriminate.
      assert (H52 : 2 ^ 52 == 4503599627370496) by reflexivity.
      rewrite H52. field. }
    pose proof (round_half_even_near (x / ulp)) as Hnear.
    set (z := inject_Z (round_half_even (x / ulp))) in *.
    assert (Hdiff : z * ulp - x == (z - x / ulp) * ulp).
    { field. intros H0. rewrite H0 in Hulp. discriminate. }
    rewrite Hdiff, Qabs_Qmult, (Qabs_pos ulp) by lra.
    assert (Hhalf : Qabs (z - x / ulp) * ulp <= (1 # 2) * ulp).
    { apply Qmult_le_compat_r; lra. }
    unfold Rounded.u. lra.
Qed.

(** *** The round trip of SetDiscountPercentage with rounded arithmetic *)

(** With nothing rounded, [Rounded] is the exact arithmetic of
    [DiscountCalculator]. *)
Lemma rounded_with_identity (price : Q) (compare : option Q)
    (s : DiscountStrategy) (value : Q) (target : option Q) :
  Rounded.calculate_new_prices (fun x => x) price compare s value target
  = calculate_new_prices price compare s value target.
Proof. destruct s; reflexivity. Qed.

Lemma rounded_discount_with_identity (price compare : Q) :
  Rounded.calculate_discount_percentage (fun x => x) price compare
  = calculate_discount_percentage price compare.
Proof. reflexivity. Qed.

Section RoundTrip.

Variable rnd : Q -> Q.
Hypothesis rnd_error : forall x, Qabs (rnd x - x) <= Rounded.u * Qabs x.

Lemma rnd_bounds (x : Q) :
  0 <= x -> x * (1 - Rounded.u) <= rnd x /\ rnd x <= x * (1 + Rounded.u).
Proof.
  intros Hx. pose proof (rnd_error x) as H.
  rewrite (Qabs_pos x) in H by assumption.
  apply Qabs_Qle_condition in H. lra.
Qed.

Lemma rnd_pos (x : Q) : 0 < x -> 0 < rnd x.
Proof.
  intros Hx. destruct (rnd_bounds x) as [H _]; [lra|].
  assert (0 < x * (1 - Rounded.u)).
  { apply Qmult_lt_0_compat; [assumption|reflexivity]. }
  lra.
Qed.

Lemma fdiv_rounded_ok (x y : Q) :
  ~ y == 0 -> Rounded.fdiv rnd x y = Ok (rnd (x / y)).
Proof.
  intros H. unfold Rounded.fdiv. destruct (Qeq_bool y 0) eqn:E; [|reflexivity].
  apply Qeq_bool_iff in E. contradiction.
Qed.

(** The quotient of two numbers known up to a factor. *)
Lemma quotient_bounds (p n q k lo hi : Q) :
  0 < n -> 0 < q -> 0 < p ->
  q * k == p -> q * lo <= n -> n <= q * hi ->
  p / n * lo <= k /\ k <= p / n * hi.
Proof.
  intros Hn Hq Hp Hqk Hlo Hhi.
  set (r := p / n).
  assert (Hr : r * n == p) by (unfold r; field; lra).
  assert (Hrpos : 0 < r) by (unfold r; apply Qlt_shift_div_l; lra).
  split; apply (Qmult_le_l _ _ q Hq).
  - assert (E : q * (r * lo) == r * (q * lo)) by ring.
    rewrite E, Hqk, <- Hr. apply Qmult_le_l; assumption.
  - assert (E : q * (r * hi) == r * (q * hi)) by ring.
    rewrite E, Hqk, <- Hr. apply Qmult_le_l; assumption.
Qed.

(** C6 (as amended): for every currentPrice > 0 and every target D from 0
    up to the largest binary64 number below 100, when each operation of
    the two functions is rounded with a relative error of at most 2^-53,
    as binary64 does where no result overflows or underflows,
    SetDiscountPercentage returns a quote and the discount percentage of
    that quote is D within 1e-6. *)
Theorem set_discount_round_trip_rounded
    (currentPrice : Q) (compare : option Q) (value D : Q) :
  0 < currentPrice -> 0 <= D -> D <= 100 - (1 # 70368744177664) ->
  exists newComparePrice recovered,
    Rounded.calculate_new_prices rnd currentPrice compare
      SET_DISCOUNT_PERCENTAGE value (Some D)
    = Ok (currentPrice, Some newComparePrice) /\
    Rounded.calculate_discount_percentage rnd currentPrice newComparePrice
    = Ok recovered /\
    Qabs (recovered - D) <= 1 # 1000000.
Proof.
  intros Hp HD0 HD1.
  cbn [Rounded.calculate_new_prices].
  assert (Ha : D / 100 == D * (1 # 100)) by (unfold Qdiv; reflexivity).
  destruct (rnd_bounds (D / 100)) as [Ht1 Ht2]; [lra|].
  set (t := rnd (D / 100)) in *.
  unfold Rounded.u in Ht1, Ht2. rewrite Ha in Ht1, Ht2.
  assert (Ht : t < 1) by lra.
  destruct (rnd_bounds (1 - t)) as [Hk1 Hk2]; [lra|].
  pose proof (rnd_pos (1 - t)) as Hk.
  set (k := rnd (1 - t)) in *.
  unfold Rounded.u in Hk1, Hk2.
  assert (Hkpos : 0 < k) by (apply Hk; lra). clear Hk.
  rewrite fdiv_rounded_ok by lra. cbn [bind].
  set (q := currentPrice / k).
  assert (Hqk : q * k == currentPrice) by (unfold q; field; lra).
  assert (Hq : 0 < q) by (unfold q; apply Qlt_shift_div_l; lra).
  destruct (rnd_bounds q) as [Hn1 Hn2]; [lra|].
  pose proof (rnd_pos q Hq) as Hn.
  set (nc := rnd q) in *.
  unfold Rounded.u in Hn1, Hn2.
  exists nc.
  destruct (quotient_bounds currentPrice nc q k
              (1 - (1 # 9007199254740992)) (1 + (1 # 9007199254740992)))
    as [Hr1 Hr2]; try assumption.
  set (r := currentPrice / nc) in *.
  assert (Hrn : r * nc == currentPrice) by (unfold r; field; lra).
  unfold Rounded.calculate_discount_percentage.
  destruct (fle nc currentPrice) eqn:E.
  - apply fle_true in E. exists 0. split; [reflexivity|]. split; [reflexivity|].
    assert (Hr : 1 <= r).
    { unfold r. apply Qle_shift_div_l; lra. }
    apply Qabs_Qle_condition. split; lra.
  - apply fle_false in E. rewrite fdiv_rounded_ok by lra. cbn [bind].
    eexists. split; [reflexivity|]. split; [reflexivity|].
    assert (Hr : r < 1) by (unfold r; apply Qlt_shift_div_r; lra).
    assert (Hr0 : 0 < r) by (unfold r; apply Qlt_shift_div_l; lra).
    destruct (rnd_bounds (nc - currentPrice)) as [Hs1 Hs2]; [lra|].
    set (s := rnd (nc - currentPrice)) in *.
    unfold Rounded.u in Hs1, Hs2.
    set (y := s / nc).
    assert (Hyn : y * nc == s) by (unfold y; field; lra).
    assert (Hdiff : nc - currentPrice == nc * (1 - r)) by (rewrite <- Hrn; ring).
    rewrite Hdiff in Hs1, Hs2.
    assert (Hy1 : (1 - r) * (1 - (1 # 9007199254740992)) <= y).
    { apply (Qmult_le_l _ _ nc Hn).
      assert (E1 : nc * y == s) by (rewrite <- Hyn; ring).
      rewrite E1. lra. }
    assert (Hy2 : y <= (1 - r) * (1 + (1 # 9007199254740992))).
    { apply (Qmult_le_l _ _ nc Hn).
      assert (E1 : nc * y == s) by (rewrite <- Hyn; ring).
      rewrite E1. lra. }
    destruct (rnd_bounds y) as [Hb1 Hb2]; [lra|].
    set (b := rnd y) in *.
    unfold Rounded.u in Hb1, Hb2.
    destruct (rnd_bounds (b * 100)) as [Hd1 Hd2]; [lra|].
    set (d := rnd (b * 100)) in *.
    unfold Rounded.u in Hd1, Hd2.
    apply Qabs_Qle_condition. split; lra.
Qed.

End RoundTrip.

Lemma set_discount_round_trip_rounded_witness :
  exists newComparePrice recovered,
    Rounded.calculate_new_prices Rounded.rnd53 100 (Some 120)
      SET_DISCOUNT_PERCENTAGE 0 (Some 30)
    = Ok (100, Some newComparePrice) /\
    Rounded.calculate_discount_percentage Rounded.rnd53 100 newComparePrice
    = Ok recovered /\
    Qabs (recovered - 30) <= 1 # 1000000.
Proof.
  apply (set_discount_round_trip_rounded Rounded.rnd53 rnd53_error
           100 (Some 120) 0 30); [reflexivity | discriminate | discriminate].
Defined.

(** *** The round trip on binary64 *)

Section OnBinary64.

Import PrimFloat.

(** C6 as written fails on the smallest positive price: 5e-324 divided by
    0.7 rounds back to 5e-324, the compare price is not above the price,
    and the discount recovered for the target 30 is 0. *)
Lemma set_discount_round_trip_fails_subnormal :
  PrimFloat.ltb 0 0x1p-1074 = true /\
  PrimFloat.leb 0 30 = true /\
  PrimFloat.ltb 30 100 = true /\
  Binary64.calculate_new_prices 0x1p-1074 None SET_DISCOUNT_PERCENTAGE 0 (Some 30%float)
  = Ok (0x1p-1074%float, Some 0x1p-1074%float) /\
  Binary64.calculate_discount_percentage 0x1p-1074 0x1p-1074 = Ok 0%float /\
  PrimFloat.leb (PrimFloat.abs (PrimFloat.sub 0 30)) 0x1.0c6f7a0b5ed8dp-20 = false.
Proof. vm_compute. repeat split. Qed.

(** It fails on large prices too: for the price 0x1p+1020 (about 1.1e307)
    and the target 99 the compare price overflows to infinity and the
    discount recovered is NaN, which is within no tolerance of 99. *)
Lemma set_discount_round_trip_fails_overflow :
  Binary64.calculate_new_prices 0x1p+1020 None SET_DISCOUNT_PERCENTAGE 0 (Some 99%float)
  = Ok (0x1p+1020%float, Some PrimFloat.infinity) /\
  Binary64.calculate_discount_percentage 0x1p+1020 PrimFloat.infinity
  = Ok PrimFloat.nan /\
  PrimFloat.leb (PrimFloat.abs (PrimFloat.sub PrimFloat.nan 99)) 0x1.0c6f7a0b5ed8dp-20
  = false.
Proof. vm_compute. repeat split. Qed.

(** Away from overflow and underflow the two models compute the same
    numbers, rounding included: BothDirections by 10 percent on (100, 120)
    gives 110.00000000000001 and 138 in both, and so on for the quotes of
    the other strategies on the binary64 numbers nearest to 19.2 and 14.4. *)
Example rounded_agrees_with_binary64_on_samples :
  Binary64.same_quote
    (Binary64.calculate_new_prices 100 (Some 120%float) BOTH_DIRECTIONS 10 None)
    (Rounded.calculate_new_prices Rounded.rnd53 100 (Some 120) BOTH_DIRECTIONS 10 None)
  = true /\
  Binary64.to_Q 0x1.b800000000001p+6 = Some (7740561859543041 # 70368744177664) /\
  Binary64.same_quote
    (Binary64.calculate_new_prices 0x1.3333333333333p+4 (Some 24%float)
       INCREASE_COMPARE_ONLY 0x1.ccccccccccccdp+3 None)
    (Rounded.calculate_new_prices Rounded.rnd53
       (5404319552844595 # 281474976710656) (Some 24)
       INCREASE_COMPARE_ONLY (8106479329266893 # 562949953421312) None)
  = true /\
  Binary64.same_quote
    (Binary64.calculate_new_prices 0x1.3333333333333p+4 (Some 24%float)
       DECREASE_PRICE_ONLY 0x1.ccccccccccccdp+3 None)
    (Rounded.calculate_new_prices Rounded.rnd53
       (5404319552844595 # 281474976710656) (Some 24)
       DECREASE_PRICE_ONLY (8106479329266893 # 562949953421312) None)
  = true /\
  Binary64.same_quote
    (Binary64.calculate_new_prices 0x1.3333333333333p+4 None
       SET_DISCOUNT_PERCENTAGE 0 (Some 0x1.ccccccccccccdp+3%float))
    (Rounded.calculate_new_prices Rounded.rnd53
       (5404319552844595 # 281474976710656) None
       SET_DISCOUNT_PERCENTAGE 0 (Some (8106479329266893 # 562949953421312)))
  = true.
Proof. vm_compute. repeat split. Qed.

(** Why the orderings of X1, X2, X5 and X7 are not strict: on binary64 a value
    of 1e-15 percent is absorbed by the rounding, and a price of 0.01
    against a compare price of 1e18 gives a discount of exactly 100. *)
Example small_values_are_absorbed :
  Binary64.calculate_new_prices 100 (Some 120%float) INCREASE_COMPARE_ONLY
    0x1.203af9ee75616p-50 None
  = Ok (100%float, Some 120%float) /\
  Binary64.calculate_new_prices 100 (Some 120%float) DECREASE_PRICE_ONLY
    0x1.203af9ee75616p-50 None
  = Ok (100%float, Some 120%float) /\
  Binary64.calculate_new_prices 100 None SET_DISCOUNT_PERCENTAGE 0
    (Some 0x1.203af9ee75616p-50%float)
  = Ok (100%float, Some 100%float) /\
  Binary64.calculate_discount_percentage 0x1.47ae147ae147bp-7 0x1.bc16d674ec8p+59
  = Ok 100%float.
Proof. vm_compute. repeat split. Qed.

End OnBinary64.

(** ** The coroutine run alone *)

Section Alone.

Variable env : Env.
Variable t : Task.

Lemma settles_suspended (p : Point) (w : World) (r : result unit) (w' : World) :
  match p with Returned _ => False | _ => True end ->
  settles env t (body env t p) w r w' -> settles env t (ret p) w r w'.
Proof.
  intros Hp [n Hn]. exists (S n). unfold settle at 1, try_except, ret.
  cbn [resume_n]. unfold resume. destruct p; try contradiction; exact Hn.
Qed.

(** A step that returns, then the rest. *)
Lemma settles_bind {A} (a : M A) (k : A -> M Point) (w w1 : World) (x : A)
    (r : result unit) (w' : World) :
  a w = (Ok x, w1) -> settles env t (k x) w1 r w' ->
  settles env t (mbind a k) w r w'.
Proof.
  intros Ha [n Hn]. exists n. unfold settle, try_except, mbind in *.
  rewrite Ha. exact Hn.
Qed.

(** A step that raises: the handler ends the call. *)
Lemma settles_raise {A} (a : M A) (k : A -> M Point) (w w1 : World) (e : exn) :
  a w = (Raise e, w1) ->
  settles env t (mbind a k) w
    (fst (registry_modify (t_task_id t) (set_failed e) w1))
    (snd (registry_modify (t_task_id t) (set_failed e) w1)).
Proof.
  intros Ha. exists 0%nat. unfold settle, try_except, mbind, ret.
  rewrite Ha.
  destruct (registry_modify (t_task_id t) (set_failed e) w1) as [[[]|e'] w2];
    reflexivity.
Qed.

(** The same two steps in what is left of the job. *)
Lemma rest_of_job_nil (T : nat) (c s : nat) (w : World) :
  rest_of_job env t T [] (c, s) w
  = match registry_modify (t_task_id t)
            (set_completed (isoformat_now env) c s) w with
    | (Ok x, w1) => (Ok x, w1)
    | (Raise e, w1) => registry_modify (t_task_id t) (set_failed e) w1
    end.
Proof. reflexivity. Qed.

Lemma rest_of_job_cons (T : nat) (u : Product * Variant)
    (rest : list (Product * Variant)) (locals : nat * nat) (w : World) :
  rest_of_job env t T (u :: rest) locals w
  = match process_unit env (t_task_id t) (t_session_id t) (t_strategy t)
            (t_value t) (t_target_discount t) T (fst u) (snd u) locals w with
    | (Ok locals', w1) => rest_of_job env t T rest locals' w1
    | (Raise e, w1) => registry_modify (t_task_id t) (set_failed e) w1
    end.
Proof.
  unfold rest_of_job, try_except. cbn [for_each]. unfold mbind.
  destruct (process_unit _ _ _ _ _ _ _ _ _ _ w) as [[locals'|e] w1]; reflexivity.
Qed.

Lemma turn_alone (T : nat) (u : Product * Variant)
    (rest : list (Product * Variant)) (locals : nat * nat) (w : World) :
  (forall locals w,
      settles env t (loop env t T rest locals) w
        (fst (rest_of_job env t T rest locals w))
        (snd (rest_of_job env t T rest locals w))) ->
  settles env t (turn env t T u rest locals (loop env t T rest)) w
    (fst (rest_of_job env t T (u :: rest) locals w))
    (snd (rest_of_job env t T (u :: rest) locals w)).
Proof.
  intros IH. rewrite rest_of_job_cons. destruct locals as [c s].
  unfold process_unit.
  destruct (update_single_variant_discount env (fst u) (snd u) (t_strategy t)
              (t_value t) (t_target_discount t) (t_session_id t) w)
    as [[b|e] w1] eqn:Eu.
  - destruct (publish_unit_progress (t_task_id t) T (fst u) (snd u) (S c)
                (if b then S s else s) w1) as [[[]|e] w2] eqn:Ep.
    + destruct (IH (S c, if b then S s else s) w2) as [n Hn].
      exists (S n). unfold settle, try_except, turn. rewrite Eu, Ep.
      cbn [resume_n]. exact Hn.
    + destruct (record_unit_error (t_task_id t) (fst u) (snd u) e w2)
        as [[[]|e'] w3] eqn:Er; unfold mbind, ret; rewrite Er.
      * destruct (IH (S c, if b then S s else s) w3) as [n Hn].
        exists n. unfold settle, try_except, turn, mbind in Hn |- *.
        rewrite Eu, Ep, Er. exact Hn.
      * exists 0%nat. unfold settle, try_except, turn, mbind, ret.
        rewrite Eu, Ep, Er.
        destruct (registry_modify (t_task_id t) (set_failed e') w3)
          as [[[]|e2] w4]; reflexivity.
  - destruct (record_unit_error (t_task_id t) (fst u) (snd u) e w1)
      as [[[]|e'] w3] eqn:Er; unfold mbind, ret; rewrite Er.
    + destruct (IH (c, s) w3) as [n Hn].
      exists n. unfold settle, try_except, turn, mbind in Hn |- *.
      rewrite Eu, Er. exact Hn.
    + exists 0%nat. unfold settle, try_except, turn, mbind, ret.
      rewrite Eu, Er.
      destruct (registry_modify (t_task_id t) (set_failed e') w3)
        as [[[]|e2] w4]; reflexivity.
Qed.

Lemma loop_alone (T : nat) (rest : list (Product * Variant)) :
  forall locals w,
    settles env t (loop env t T rest locals) w
      (fst (rest_of_job env t T rest locals w))
      (snd (rest_of_job env t T rest locals w)).
Proof.
  induction rest as [|u rest IH]; intros locals w.
  - destruct locals as [c s]. exists 0%nat. rewrite rest_of_job_nil.
    unfold settle, try_except. cbn [loop]. unfold mbind, ret.
    destruct (registry_modify (t_task_id t) _ w) as [[[]|e] w1]; [reflexivity|].
    destruct (registry_modify (t_task_id t) (set_failed e) w1) as [[[]|e'] w2];
      reflexivity.
  - pose proof (turn_alone T u rest locals w IH) as Hturn.
    cbn [loop].
    destruct (unit_prices (t_strategy t) (t_value t) (t_target_discount t) u);
      [|exact Hturn].
    apply settles_suspended; [exact I|exact Hturn].
Qed.

(** Resumed in a row until it returns, the coroutine does what
    [process_discount_update] does as one computation: the same result in
    the same state. *)
Lemma coroutine_alone (w : World) :
  exists n,
    resume_n env t n NotStarted w
    = (Returned (fst (run_task env t w)), snd (run_task env t w)).
Proof.
  assert (Hbig :
    run_task env t w
    = let w1 := snd (registry_assign (t_task_id t)
                       (initial_progress (t_session_id t) (t_strategy t)) w) in
      let products := enumerated env (t_filter_type t) (t_filter_value t)
                        (t_limit_products t) in
      match registry_modify (t_task_id t)
              (set_processing (count_variants products)) w1 with
      | (Ok _, w2) =>
          rest_of_job env t (count_variants products) (units products)
            (0%nat, 0%nat) w2
      | (Raise e, w2) => registry_modify (t_task_id t) (set_failed e) w2
      end).
  { unfold run_task, process_discount_update, rest_of_job, try_except.
    unfold mbind at 1 2. unfold registry_assign at 1, set_registry at 1.
    cbv zeta. unfold mbind at 1. rewrite get_filtered_products_run.
    unfold mbind at 1.
    destruct (registry_modify (t_task_id t) _ _) as [[[]|e] w2]; [|reflexivity].
    unfold mbind. rewrite for_each_units. reflexivity. }
  set (products := enumerated env (t_filter_type t) (t_filter_value t)
                     (t_limit_products t)) in *.
  pose (big := fun w1 : World =>
          match registry_modify (t_task_id t)
                  (set_processing (count_variants products)) w1 with
          | (Ok _, w2) =>
              rest_of_job env t (count_variants products) (units products)
                (0%nat, 0%nat) w2
          | (Raise e, w2) => registry_modify (t_task_id t) (set_failed e) w2
          end).
  assert (Hafter : forall w1,
             settles env t (after_listing env t) w1 (fst (big w1)) (snd (big w1))).
  { intros w1. unfold after_listing, big.
    eapply settles_bind; [apply get_filtered_products_run|]. cbv zeta.
    fold products.
    destruct (registry_modify (t_task_id t) _ w1) as [[[]|e] w2] eqn:E.
    - eapply settles_bind; [exact E|apply loop_alone].
    - eapply settles_raise. exact E. }
  rewrite Hbig. cbv zeta.
  set (w1 := snd (registry_assign _ _ w)).
  fold (big w1).
  assert (Hstart :
            settles env t (body env t NotStarted) w (fst (big w1)) (snd (big w1))).
  { cbn [body].
    eapply (settles_bind _ _ w w1 tt); [reflexivity|].
    destruct (listing_suspends (t_filter_type t)); [|apply Hafter].
    apply settles_suspended; [exact I|apply Hafter]. }
  destruct Hstart as [n Hn]. exists (S n). cbn [resume_n]. exact Hn.
Qed.

End Alone.

(** ** Two jobs under one task id *)

Section Interleaved.

Variable env : Env.

(** A filter type that makes no request selects nothing. *)
Lemma listing_returns_at_once (filter_type : string)
    (filter_value : option string) (limit : option Z) :
  listing_suspends filter_type = false ->
  enumerated env filter_type filter_value limit = [].
Proof.
  unfold listing_suspends. rewrite !orb_false_iff.
  intros [[[H1 H2] H3] H4].
  unfold enumerated, catalog_request. rewrite H1, H2, H3, H4. reflexivity.
Qed.

(** The first resumption writes the initial entry and suspends in the
    listing. *)
Lemma resume_start (t : Task) (w : World) :
  listing_suspends (t_filter_type t) = true ->
  resume env t NotStarted w
  = (AwaitListing,
     snd (registry_assign (t_task_id t)
            (initial_progress (t_session_id t) (t_strategy t)) w)).
Proof.
  intros H. unfold resume, settle, try_except, body, mbind.
  cbn [registry_assign set_registry]. rewrite H. reflexivity.
Qed.

(** A turn on a unit with the entry of the job in the registry: the
    progress update is made and the call sleeps. *)
Lemma turn_sleeps (t : Task) (T c s : nat) (u : Product * Variant)
    (rest : list (Product * Variant)) (continue : nat * nat -> M Point)
    (w : World) (p : Progress) (b : bool) (w1 : World) :
  (0 < T)%nat ->
  task_progress w !! t_task_id t = Some p ->
  update_unit env (t_strategy t) (t_value t) (t_target_discount t)
    (t_session_id t) u w = (Ok b, w1) ->
  turn env t T u rest (c, s) continue w
  = (Ok (AwaitSleep T (S c, (s + if b then 1 else 0)%nat) rest),
     turn_world (t_task_id t) T c s u b p w1).
Proof.
  intros HT Hp Hu.
  pose proof (quiet_update_unit env (t_session_id t) (t_strategy t) (t_value t)
                (t_target_discount t) u w) as (Q1 & _).
  rewrite Hu in Q1. cbn [snd] in Q1.
  assert (HTq : ~ inject_Z (Z.of_nat T) == 0).
  { change 0 with (inject_Z 0). rewrite inject_Z_injective. lia. }
  unfold turn. unfold update_unit in Hu. rewrite Hu.
  replace (if b then S s else s) with (s + if b then 1 else 0)%nat
    by (destruct b; lia).
  unfold publish_unit_progress, mbind, lift, registry_modify.
  rewrite (fdiv_ok _ _ HTq). rewrite Q1, Hp. unfold turn_world. rewrite Q1.
  reflexivity.
Qed.

(** The first job from its start to its first sleep: one turn made, the
    entry at [current = 1]. *)
Lemma first_unit_published (t : Task) (w : World) (u : Product * Variant)
    (rest : list (Product * Variant)) :
  units (enumerated env (t_filter_type t) (t_filter_value t) (t_limit_products t))
  = u :: rest ->
  exists (n : nat) (b : bool) (p : Progress) (w1 : World),
    resume_n env t n NotStarted w
    = (AwaitSleep (S (length rest)) (1%nat, if b then 1%nat else 0%nat) rest,
       turn_world (t_task_id t) (S (length rest)) 0 0 u b p w1).
Proof.
  intros Hunits.
  assert (Hsusp : listing_suspends (t_filter_type t) = true).
  { destruct (listing_suspends (t_filter_type t)) eqn:E; [reflexivity|].
    rewrite (listing_returns_at_once (t_filter_type t) (t_filter_value t)
               (t_limit_products t) E)
      in Hunits. discriminate. }
  assert (HT : count_variants (enumerated env (t_filter_type t) (t_filter_value t)
                                 (t_limit_products t)) = S (length rest)).
  { rewrite <- length_units, Hunits. reflexivity. }
  set (w1 := snd (registry_assign (t_task_id t)
                    (initial_progress (t_session_id t) (t_strategy t)) w)).
  set (p2 := set_processing (S (length rest))
               (initial_progress (t_session_id t) (t_strategy t))).
  set (w2 := snd (set_registry (<[t_task_id t := p2]> (task_progress w1)) w1)).
  assert (Hlisted :
    after_listing env t w1
    = loop env t (S (length rest)) (u :: rest) (0%nat, 0%nat) w2).
  { unfold after_listing, mbind. rewrite get_filtered_products_run. cbv zeta.
    rewrite HT, Hunits. unfold registry_modify.
    unfold w1 at 1 2. cbn [registry_assign set_registry snd task_progress].
    rewrite lookup_insert_eq. reflexivity. }
  assert (Hp2 : task_progress w2 !! t_task_id t = Some p2).
  { unfold w2. cbn [set_registry snd task_progress]. apply lookup_insert_eq. }
  destruct (update_unit_total env (t_session_id t) (t_strategy t) (t_value t)
              (t_target_discount t) u w2) as (b & w3 & Hu).
  pose proof (turn_sleeps t (S (length rest)) 0 0 u rest
                (loop env t (S (length rest)) rest) w2 p2 b w3
                ltac:(lia) Hp2 Hu) as Hturn.
  cbn [Nat.add] in Hturn.
  destruct (unit_prices (t_strategy t) (t_value t) (t_target_discount t) u)
    as [q|e] eqn:Eq.
  - exists 3%nat, b, p2, w3. cbn [resume_n]. rewrite resume_start by exact Hsusp.
    fold w1. unfold resume at 1, settle, try_except, body. rewrite Hlisted.
    cbn [loop]. rewrite Eq. unfold ret at 1.
    unfold resume, settle, try_except, body. rewrite Hturn. reflexivity.
  - exists 2%nat, b, p2, w3. cbn [resume_n]. rewrite resume_start by exact Hsusp.
    fold w1. unfold resume at 1, settle, try_except, body. rewrite Hlisted.
    cbn [loop]. rewrite Eq, Hturn. reflexivity.
Qed.

(** Resuming the first call of the loop [n] times in a row. *)
Lemma run_first (n : nat) (schedule : list nat) (t : Task) (p : Point)
    (others : list (Task * Point)) (w : World) :
  run env (repeat 0%nat n ++ schedule) ((t, p) :: others) w
  = run env schedule ((t, fst (resume_n env t n p w)) :: others)
      (snd (resume_n env t n p w)).
Proof.
  revert p w. induction n as [|n IH]; intros p w; [reflexivity|].
  cbn [repeat app run lookup list_lookup resume_n].
  destruct (resume env t p w) as [p' w'].
  cbn [insert list_insert]. apply IH.
Qed.

(** C9 on the code: two jobs started in the same second run under one
    task id.  When the second starts while the first sleeps after its
    first unit, the entry polled for the first job goes from current 1 and
    a successful count back to current 0 and no successful count, before
    the first job has ended: the counters of a job are not monotone over
    its lifetime. *)
Theorem shared_task_id_lowers_counters (t1 t2 : Task) (w : World)
    (u : Product * Variant) (rest : list (Product * Variant)) :
  t_task_id t2 = t_task_id t1 ->
  listing_suspends (t_filter_type t2) = true ->
  units (enumerated env (t_filter_type t1) (t_filter_value t1)
           (t_limit_products t1)) = u :: rest ->
  exists schedule locals w' after before older p_before p_after,
    run env schedule [(t1, NotStarted); (t2, NotStarted)] w
    = ([(t1, AwaitSleep (S (length rest)) locals rest); (t2, AwaitListing)], w') /\
    registry_log w' = after :: before :: older /\
    before !! t_task_id t1 = Some p_before /\
    after !! t_task_id t1 = Some p_after /\
    current p_before = 1%nat /\
    current p_after = 0%nat /\
    is_Some (successful p_before) /\
    successful p_after = None /\
    ~ counters_le p_before p_after.
Proof.
  intros Hid Hsusp Hunits.
  destruct (first_unit_published t1 w u rest Hunits) as (n & b & p & w1 & Hn).
  exists (repeat 0%nat n ++ [1%nat]). do 2 eexists.
  exists (<[t_task_id t2 := initial_progress (t_session_id t2) (t_strategy t2)]>
            (<[t_task_id t1 :=
                 set_unit_progress 1 (if b then 1 else 0)
                   (pct (S (length rest)) 1) (item_label (fst u) (snd u)) p]>
               (task_progress w1))).
  exists (<[t_task_id t1 :=
              set_unit_progress 1 (if b then 1 else 0)
                (pct (S (length rest)) 1) (item_label (fst u) (snd u)) p]>
            (task_progress w1)).
  exists (registry_log w1).
  exists (set_unit_progress 1 (if b then 1 else 0)
            (pct (S (length rest)) 1) (item_label (fst u) (snd u)) p).
  exists (initial_progress (t_session_id t2) (t_strategy t2)).
  split.
  { rewrite run_first, Hn. cbn [fst snd run lookup list_lookup].
    rewrite resume_start by exact Hsusp. cbn [insert list_insert run].
    reflexivity. }
  unfold turn_world.
  cbn [registry_assign set_registry snd task_progress registry_log Nat.add].
  split; [reflexivity|].
  split; [apply lookup_insert_eq|].
  split; [rewrite Hid; apply lookup_insert_eq|].
  cbn. repeat split; eauto.
  intros (Hcur & _). cbn in Hcur. lia.
Qed.

End Interleaved.

(** Two starts in the same second on the sample shop: the second job
    starts while the first sleeps after its first variant. *)
Lemma shared_task_id_lowers_counters_witness :
  exists schedule locals w' after before older p_before p_after,
    run (env_up [shirt]) schedule
      [(same_second_first, NotStarted); (same_second_second, NotStarted)] world0
    = ([(same_second_first, AwaitSleep 2 locals [(shirt, variant_default)]);
        (same_second_second, AwaitListing)], w') /\
    registry_log w' = after :: before :: older /\
    before !! "discount_update_1700000000" = Some p_before /\
    after !! "discount_update_1700000000" = Some p_after /\
    current p_before = 1%nat /\
    current p_after = 0%nat /\
    is_Some (successful p_before) /\
    successful p_after = None /\
    ~ counters_le p_before p_after.
Proof.
  apply (shared_task_id_lowers_counters (env_up [shirt]) same_second_first
           same_second_second world0 (shirt, variant_s)
           [(shirt, variant_default)]); reflexivity.
Defined.

(** The same two jobs to their end, resumed in turn: the values of
    [current] that a poller of the task id can see, oldest first. *)
Lemma shared_task_id_currents :
  map current
    (rev (entry_log "discount_update_1700000000"
            (registry_log
               (snd (run (env_up [shirt]) [0; 0; 0; 1; 1; 0; 1; 0; 0; 1; 1; 1]%nat
                       [(same_second_first, NotStarted);
                        (same_second_second, NotStarted)] world0)))))
  = [0; 0; 1; 0; 0; 1; 2; 2; 2; 2]%nat.
Proof. vm_compute. reflexivity. Qed.

(** ** Jobs under distinct task ids *)

Section Foreign.

Variable id : string.

Lemma keeps_entry_refl (w : World) : keeps_entry id w w.
Proof. split; [reflexivity|]. exists []. split; [reflexivity|constructor]. Qed.

Lemma keeps_entry_trans (w1 w2 w3 : World) :
  keeps_entry id w1 w2 -> keeps_entry id w2 w3 -> keeps_entry id w1 w3.
Proof.
  intros (H1 & a1 & L1 & F1) (H2 & a2 & L2 & F2).
  split; [congruence|]. exists (a2 ++ a1). split.
  - rewrite L2, L1, app_assoc. reflexivity.
  - apply Forall_app. split; [|exact F1].
    eapply Forall_impl; [exact F2|]. cbn. intros reg Hreg. congruence.
Qed.

Lemma foreign_ret {A} (a : A) : foreign id (ret a).
Proof. intros w. apply keeps_entry_refl. Qed.

Lemma foreign_mbind {A B} (c : M A) (k : A -> M B) :
  foreign id c -> (forall a, foreign id (k a)) -> foreign id (mbind c k).
Proof.
  intros Hc Hk w. unfold mbind. specialize (Hc w).
  destruct (c w) as [[a|e] w1]; cbn [snd] in *; [|exact Hc].
  eapply keeps_entry_trans; [exact Hc|apply Hk].
Qed.

Lemma foreign_quiet {A} (c : M A) : quiet c -> foreign id c.
Proof.
  intros Hq w. destruct (Hq w) as (H1 & H2 & _).
  split; [rewrite H1; reflexivity|].
  exists []. split; [exact H2|constructor].
Qed.

Lemma foreign_set_registry (other : string) (f : gmap string Progress -> Progress)
    (w : World) :
  other <> id ->
  keeps_entry id w
    (snd (set_registry (<[other := f (task_progress w)]> (task_progress w)) w)).
Proof.
  intros Hne. cbn [set_registry snd]. split; cbn [task_progress registry_log].
  - apply lookup_insert_ne. exact Hne.
  - eexists [_]. split; [reflexivity|]. constructor; [|constructor].
    apply lookup_insert_ne. exact Hne.
Qed.

Lemma foreign_registry_assign (other : string) (p : Progress) :
  other <> id -> foreign id (registry_assign other p).
Proof.
  intros Hne w. unfold registry_assign.
  apply (foreign_set_registry other (fun _ => p) w Hne).
Qed.

Lemma foreign_registry_modify (other : string) (f : Progress -> Progress) :
  other <> id -> foreign id (registry_modify other f).
Proof.
  intros Hne w. unfold registry_modify.
  destruct (task_progress w !! other) as [p|] eqn:E; [|apply keeps_entry_refl].
  apply (foreign_set_registry other (fun _ => f p) w Hne).
Qed.

End Foreign.

Section OtherJob.

Variable env : Env.
Variable id : string.
Variable t : Task.
Hypothesis other_id : t_task_id t <> id.

Lemma foreign_publish (T : nat) (u : Product * Variant) (c s : nat) :
  foreign id (publish_unit_progress (t_task_id t) T (fst u) (snd u) c s).
Proof.
  unfold publish_unit_progress. apply foreign_mbind.
  - apply foreign_quiet, quiet_lift.
  - intros ratio. apply foreign_registry_modify, other_id.
Qed.

Lemma foreign_record (u : Product * Variant) (e : exn) {A} (k : M A) :
  foreign id k ->
  foreign id (record_unit_error (t_task_id t) (fst u) (snd u) e ;;; k).
Proof.
  intros Hk. apply foreign_mbind; [|intros _; exact Hk].
  apply foreign_registry_modify, other_id.
Qed.

Lemma foreign_turn (T : nat) (u : Product * Variant)
    (rest : list (Product * Variant)) (locals : nat * nat)
    (continue : nat * nat -> M Point) :
  (forall locals, foreign id (continue locals)) ->
  foreign id (turn env t T u rest locals continue).
Proof.
  intros Hk w. unfold turn. destruct locals as [c s].
  pose proof (foreign_quiet id _
                (quiet_update_unit env (t_session_id t) (t_strategy t)
                   (t_value t) (t_target_discount t) u) w) as Hu.
  unfold update_unit in Hu.
  destruct (update_single_variant_discount env (fst u) (snd u) _ _ _ _ w)
    as [[b|e] w1]; cbn [snd] in Hu.
  - pose proof (foreign_publish T u (S c) (if b then S s else s) w1) as Hp.
    destruct (publish_unit_progress _ _ _ _ _ _ w1) as [[[]|e] w2];
      cbn [snd] in Hp.
    + cbn [snd]. eapply keeps_entry_trans; eassumption.
    + eapply keeps_entry_trans; [exact Hu|].
      eapply keeps_entry_trans; [exact Hp|].
      apply foreign_record, Hk.
  - eapply keeps_entry_trans; [exact Hu|]. apply foreign_record, Hk.
Qed.

Lemma foreign_loop (T : nat) (rest : list (Product * Variant)) :
  forall locals, foreign id (loop env t T rest locals).
Proof.
  induction rest as [|u rest IH]; intros [c s]; cbn [loop].
  - apply foreign_mbind; [|intros _; apply foreign_ret].
    apply foreign_registry_modify, other_id.
  - destruct (unit_prices _ _ _ u); [apply foreign_ret|].
    apply foreign_turn, IH.
Qed.

Lemma foreign_after_listing : foreign id (after_listing env t).
Proof.
  unfold after_listing. apply foreign_mbind.
  - intros w. rewrite get_filtered_products_run. apply keeps_entry_refl.
  - intros products. cbv zeta. apply foreign_mbind.
    + apply foreign_registry_modify, other_id.
    + intros _. apply foreign_loop.
Qed.

Lemma foreign_body (p : Point) : foreign id (body env t p).
Proof.
  destruct p as [| |T locals u rest|T locals rest|r]; cbn [body].
  - apply foreign_mbind; [apply foreign_registry_assign, other_id|].
    intros _. destruct (listing_suspends _);
      [apply foreign_ret|apply foreign_after_listing].
  - apply foreign_after_listing.
  - apply foreign_turn, foreign_loop.
  - apply foreign_loop.
  - apply foreign_ret.
Qed.

(** A resumption of a call leaves the entries under other task ids as
    they are. *)
Lemma resume_keeps_entry (p : Point) (w : World) :
  keeps_entry id w (snd (resume env t p w)).
Proof.
  unfold resume.
  assert (Hs : keeps_entry id w (snd (settle t (body env t p) w))).
  { unfold settle, try_except.
    pose proof (foreign_body p w) as Hb.
    destruct (body env t p w) as [[p'|e] w1]; cbn [snd] in Hb; [exact Hb|].
    pose proof (foreign_mbind id
                  (registry_modify (t_task_id t) (set_failed e))
                  (fun _ => ret (Returned (Ok tt)))
                  (foreign_registry_modify id _ _ other_id)
                  (fun _ => foreign_ret id _) w1) as Hh.
    destruct ((registry_modify (t_task_id t) (set_failed e) ;;;
               ret (Returned (Ok tt))) w1) as [[p'|e'] w2];
      cbn [snd] in *; eapply keeps_entry_trans; eassumption. }
  destruct p; exact Hs.
Qed.

End OtherJob.

Section OwnJob.

Variable env : Env.
Variable t : Task.

(** A write of the job that lowers no counter. *)
Lemma live_write (w : World) (since : list (gmap string Progress))
    (entry entry' : Progress) :
  live (t_task_id t) w since entry ->
  counters_le entry entry' ->
  live (t_task_id t)
    (snd (set_registry (<[t_task_id t := entry']> (task_progress w)) w))
    (<[t_task_id t := entry']> (task_progress w) :: since) entry'.
Proof.
  intros (Hp & (tl & Hlog) & Hall & Hsorted) Hle.
  assert (Hnew : (<[t_task_id t := entry']> (task_progress w) : gmap string Progress)
                 !! t_task_id t = Some entry') by apply lookup_insert_eq.
  split; [exact Hnew|].
  rewrite (entry_log_cons _ _ entry' since Hnew).
  split; [eauto|]. split; [constructor; [eauto|exact Hall]|].
  constructor; [exact Hsorted|]. rewrite Hlog. constructor. exact Hle.
Qed.

Lemma live_modify (w : World) (since : list (gmap string Progress))
    (entry : Progress) (f : Progress -> Progress) :
  live (t_task_id t) w since entry ->
  counters_le entry (f entry) ->
  exists w',
    registry_modify (t_task_id t) f w = (Ok tt, w') /\
    registry_log w' = [<[t_task_id t := f entry]> (task_progress w)] ++ registry_log w /\
    live (t_task_id t) w'
      ([<[t_task_id t := f entry]> (task_progress w)] ++ since) (f entry).
Proof.
  intros Hlive Hle. pose proof Hlive as (Hp & _).
  eexists. unfold registry_modify. rewrite Hp. split; [reflexivity|].
  split; [reflexivity|].
  apply (live_write w since entry (f entry)); assumption.
Qed.

(** One turn of the loop of a running job. *)
Lemma turn_steps (T c s : nat) (u : Product * Variant)
    (rest : list (Product * Variant)) (continue : nat * nat -> M Point)
    (w : World) (since : list (gmap string Progress)) (entry : Progress) :
  live (t_task_id t) w since entry ->
  entry_at (AwaitUpdate T (c, s) u rest) entry ->
  steps (t_task_id t) (turn env t T u rest (c, s) continue) w since.
Proof.
  intros Hlive (HT & Hcur & Hpct & Hsucc). pose proof Hlive as (Hp & Hrest).
  destruct (update_unit_total env (t_session_id t) (t_strategy t) (t_value t)
              (t_target_discount t) u w) as (b & w1 & Hu).
  pose proof (quiet_update_unit env (t_session_id t) (t_strategy t) (t_value t)
                (t_target_discount t) u w) as (Q1 & Q2 & _).
  rewrite Hu in Q1, Q2. cbn [snd] in Q1, Q2.
  assert (Hlive1 : live (t_task_id t) w1 since entry).
  { split; [rewrite Q1; exact Hp|exact Hrest]. }
  set (entry' := set_unit_progress (S c) (s + if b then 1 else 0)
                   (pct T (S c)) (item_label (fst u) (snd u)) entry).
  assert (Hle : counters_le entry entry').
  { unfold counters_le, entry'. cbn.
    pose proof (pct_mono T c (S c) HT ltac:(lia)).
    split; [lia|]. split; [lia|].
    destruct (successful entry); cbn in *; [lia|exact I]. }
  exists [<[t_task_id t := entry']> (task_progress w1)].
  exists (AwaitSleep T (S c, (s + if b then 1 else 0)%nat) rest).
  eexists. exists entry'.
  split; [apply (turn_sleeps env t T c s u rest continue w entry b w1 HT Hp Hu)|].
  unfold turn_world. cbn [set_registry snd registry_log].
  split; [rewrite Q2; reflexivity|].
  split; [apply (live_write w1 since entry entry' Hlive1 Hle)|].
  unfold entry'. cbn. repeat split; lia.
Qed.

(** The loop of a running job from the head of an iteration. *)
Lemma loop_steps (T c s : nat) (rest : list (Product * Variant))
    (w : World) (since : list (gmap string Progress)) (entry : Progress) :
  live (t_task_id t) w since entry ->
  (rest <> [] -> (0 < T)%nat) ->
  (current entry <= c)%nat ->
  (percentage entry <= pct T c)%Z ->
  opt_le (successful entry) (Some s) ->
  steps (t_task_id t) (loop env t T rest (c, s)) w since.
Proof.
  intros Hlive HT Hcur Hpct Hsucc.
  destruct rest as [|u rest]; cbn [loop].
  - destruct (live_modify w since entry
                (set_completed (isoformat_now env) c s) Hlive)
      as (w' & Hrun & Hlog & Hlive').
    { unfold counters_le. cbn. repeat split; try lia. apply opt_le_refl. }
    eexists _, (Returned (Ok tt)), w', _.
    unfold mbind, ret. rewrite Hrun. split; [reflexivity|].
    split; [exact Hlog|]. split; [exact Hlive'|exact I].
  - assert (HT' : (0 < T)%nat) by (apply HT; discriminate).
    destruct (unit_prices _ _ _ u).
    + exists [], (AwaitUpdate T (c, s) u rest), w, entry.
      split; [reflexivity|]. split; [reflexivity|].
      split; [exact Hlive|]. repeat split; assumption.
    + apply (turn_steps T c s u rest _ w since entry Hlive).
      repeat split; assumption.
Qed.

(** From the return of the listing on. *)
Lemma after_listing_steps (w : World) (since : list (gmap string Progress))
    (entry : Progress) :
  live (t_task_id t) w since entry ->
  entry_at AwaitListing entry ->
  steps (t_task_id t) (after_listing env t) w since.
Proof.
  intros Hlive (Hcur & Hpct & Hsucc).
  set (products := enumerated env (t_filter_type t) (t_filter_value t)
                     (t_limit_products t)).
  destruct (live_modify w since entry
              (set_processing (count_variants products)) Hlive)
    as (w1 & Hrun & Hlog & Hlive1).
  { unfold counters_le. cbn. repeat split; try lia. apply opt_le_refl. }
  destruct (loop_steps (count_variants products) 0 0 (units products) w1 _ _ Hlive1)
    as (added & p' & w' & entry' & Hloop & Hlog' & Hlive' & Hat).
  { intros Hne. rewrite <- length_units.
    destruct (units products); [contradiction|cbn; lia]. }
  { cbn. lia. }
  { cbn. rewrite pct_zero. lia. }
  { cbn. rewrite Hsucc. exact I. }
  exists (added ++ [<[t_task_id t := set_processing (count_variants products) entry]>
                     (task_progress w)]), p', w', entry'.
  split.
  { unfold after_listing, mbind. rewrite get_filtered_products_run. cbv zeta.
    fold products. rewrite Hrun. exact Hloop. }
  split; [rewrite Hlog', Hlog, app_assoc; reflexivity|].
  split; [rewrite <- app_assoc; exact Hlive'|exact Hat].
Qed.

(** A resumption of a job keeps its state: the registry values it logs
    hold its entry with no counter below an earlier one. *)
Lemma resume_own (p : Point) (w : World) (since : list (gmap string Progress))
    (e0 : option Progress) :
  job_state (t_task_id t) p w since e0 ->
  exists added,
    registry_log (snd (resume env t p w)) = added ++ registry_log w /\
    job_state (t_task_id t) (fst (resume env t p w)) (snd (resume env t p w))
      (added ++ since) e0 /\
    fst (resume env t p w) <> NotStarted.
Proof.
  intros Hstate.
  assert (Hsteps : forall piece,
            steps (t_task_id t) piece w since ->
            exists added,
              registry_log (snd (settle t piece w)) = added ++ registry_log w /\
              job_state (t_task_id t) (fst (settle t piece w))
                (snd (settle t piece w)) (added ++ since) e0 /\
              fst (settle t piece w) <> NotStarted).
  { intros piece (added & p' & w' & entry' & Hrun & Hlog & Hlive & Hat).
    exists added. unfold settle, try_except. rewrite Hrun. cbn [fst snd].
    split; [exact Hlog|].
    destruct p'; try contradiction;
      (split; [exists entry'; split; assumption|discriminate]). }
  destruct p as [| |T [c s] u rest|T [c s] rest|r].
  - destruct Hstate as [-> He0]. unfold resume. apply Hsteps. cbn [body].
    set (reg1 := <[t_task_id t := initial_progress (t_session_id t) (t_strategy t)]>
                   (task_progress w)).
    set (w1 := snd (registry_assign (t_task_id t)
                      (initial_progress (t_session_id t) (t_strategy t)) w)).
    assert (Hlive1 : live (t_task_id t) w1 [reg1]
                       (initial_progress (t_session_id t) (t_strategy t))).
    { assert (Hnew : reg1 !! t_task_id t
                     = Some (initial_progress (t_session_id t) (t_strategy t)))
        by apply lookup_insert_eq.
      split; [exact Hnew|].
      rewrite (entry_log_cons _ _ _ [] Hnew).
      split; [eauto|]. split; [repeat constructor; eauto|].
      repeat constructor. }
    destruct (listing_suspends (t_filter_type t)).
    + exists [reg1], AwaitListing, w1,
        (initial_progress (t_session_id t) (t_strategy t)).
      split; [reflexivity|]. split; [reflexivity|].
      split; [exact Hlive1|]. cbn. repeat split. lia.
    + destruct (after_listing_steps w1 [reg1]
                  (initial_progress (t_session_id t) (t_strategy t)) Hlive1)
        as (added & p' & w' & entry' & Hrun & Hlog & Hlive & Hat).
      { cbn. repeat split. lia. }
      exists (added ++ [reg1]), p', w', entry'.
      split; [unfold mbind; exact Hrun|].
      split; [rewrite Hlog, <- app_assoc; reflexivity|].
      split; [rewrite <- app_assoc; exact Hlive|exact Hat].
  - destruct Hstate as (entry & Hlive & Hat). unfold resume. apply Hsteps.
    cbn [body]. eapply after_listing_steps; eassumption.
  - destruct Hstate as (entry & Hlive & Hat). unfold resume. apply Hsteps.
    cbn [body]. eapply turn_steps; eassumption.
  - destruct Hstate as (entry & Hlive & (HT & Hcur & Hpct & Hsucc)).
    unfold resume. apply Hsteps. cbn [body].
    eapply loop_steps; try eassumption. intros _. exact HT.
  - exists []. cbn [resume fst snd]. split; [reflexivity|].
    split; [exact Hstate|discriminate].
Qed.

End OwnJob.

Section DistinctIds.

Variable env : Env.
Variable i : nat.
Variable t : Task.

(** Registry values that hold the entry of a running job as it is. *)
Lemma live_foreign (w w' : World) (since added : list (gmap string Progress))
    (entry : Progress) :
  live (t_task_id t) w since entry ->
  task_progress w' !! t_task_id t = task_progress w !! t_task_id t ->
  Forall (fun reg : gmap string Progress =>
            reg !! t_task_id t = task_progress w !! t_task_id t) added ->
  live (t_task_id t) w' (added ++ since) entry.
Proof.
  intros (Hp & (tl & Hlog) & Hall & Hsorted) Hsame Hadded.
  split; [congruence|].
  induction Hadded as [|reg added Hreg _ IH]; cbn [app].
  - split; [eauto|]. split; assumption.
  - destruct IH as ((tl' & Hlog') & Hall' & Hsorted').
    assert (Hentry : reg !! t_task_id t = Some entry) by congruence.
    rewrite (entry_log_cons _ _ entry _ Hentry).
    split; [eauto|]. split; [constructor; [eauto|exact Hall']|].
    constructor; [exact Hsorted'|]. rewrite Hlog'. constructor.
    apply counters_le_refl.
Qed.

Lemma run_state (schedule : list nat) :
  forall calls w p since before log0 e0,
    calls !! i = Some (t, p) ->
    alone_under_id (t_task_id t) i calls ->
    registry_log w = since ++ before ++ log0 ->
    Forall (fun reg : gmap string Progress => reg !! t_task_id t = e0) before ->
    job_state (t_task_id t) p w since e0 ->
    exists since' before',
      registry_log (snd (run env schedule calls w)) = since' ++ before' ++ log0 /\
      Forall (fun reg : gmap string Progress => reg !! t_task_id t = e0) before' /\
      Forall (fun reg : gmap string Progress => is_Some (reg !! t_task_id t)) since' /\
      Sorted not_below (entry_log (t_task_id t) since') /\
      (p <> NotStarted \/ In i schedule -> since' <> []).
Proof.
  induction schedule as [|j schedule IH];
    intros calls w p since before log0 e0 Hcall Hothers Hlog Hbefore Hstate.
  - exists since, before. cbn [run snd]. split; [exact Hlog|].
    split; [exact Hbefore|].
    destruct p as [| |T locals u rest|T locals rest|r];
      try (destruct Hstate as (entry & (_ & (tl & Htl) & Hall & Hsorted) & _);
           split; [exact Hall|]; split; [exact Hsorted|];
           intros _ ->; discriminate).
    destruct Hstate as [-> _]. split; [constructor|]. split; [constructor|].
    intros [H|[]]. contradiction.
  - cbn [run]. destruct (calls !! j) as [[tj pj]|] eqn:Hj.
    2:{ destruct (IH calls w p since before log0 e0 Hcall Hothers Hlog Hbefore Hstate)
          as (since' & before' & H1 & H2 & H3 & H4 & H5).
        exists since', before'. repeat split; try assumption.
        intros [Hp|[->|Hin]]; [apply H5; auto| |apply H5; auto].
        rewrite Hcall in Hj. discriminate. }
    destruct (resume env tj pj w) as [p' w'] eqn:Hres.
    destruct (Nat.eq_dec j i) as [->|Hne].
    + rewrite Hcall in Hj. injection Hj as <- <-.
      destruct (resume_own env t p w since e0 Hstate) as (added & Hlog' & Hstate' & Hp').
      rewrite Hres in Hlog', Hstate', Hp'. cbn [fst snd] in Hlog', Hstate', Hp'.
      destruct (IH (<[i := (t, p')]> calls) w' p' (added ++ since) before log0 e0)
        as (since' & before' & H1 & H2 & H3 & H4 & H5).
      * apply list_lookup_insert_eq. eapply lookup_lt_Some, Hcall.
      * intros j' tj' pj' Hj' Hlook. rewrite list_lookup_insert_ne in Hlook by auto.
        eapply Hothers; eassumption.
      * rewrite Hlog', Hlog, <- app_assoc. reflexivity.
      * exact Hbefore.
      * exact Hstate'.
      * exists since', before'. repeat split; try assumption.
        intros _. apply H5. auto.
    + assert (Hid : t_task_id tj <> t_task_id t) by (eapply Hothers; eassumption).
      pose proof (resume_keeps_entry env (t_task_id t) tj Hid pj w)
        as (Hsame & added & Hlog' & Hadded).
      rewrite Hres in Hsame, Hlog'. cbn [snd] in Hsame, Hlog'.
      assert (Hcall' : <[j := (tj, p')]> calls !! i = Some (t, p)).
      { rewrite list_lookup_insert_ne by exact Hne. exact Hcall. }
      assert (Hothers' : alone_under_id (t_task_id t) i (<[j := (tj, p')]> calls)).
      { intros j' tj' pj' Hj' Hlook.
        destruct (Nat.eq_dec j j') as [<-|Hjj].
        - rewrite list_lookup_insert_eq in Hlook by (eapply lookup_lt_Some, Hj).
          injection Hlook as <- <-. exact Hid.
        - rewrite list_lookup_insert_ne in Hlook by exact Hjj.
          eapply Hothers; eassumption. }
      destruct p as [| |T locals u rest|T locals rest|r].
      * destruct Hstate as [-> He0].
        destruct (IH (<[j := (tj, p')]> calls) w' NotStarted [] (added ++ before)
                    log0 e0 Hcall' Hothers')
          as (since' & before' & H1 & H2 & H3 & H4 & H5).
        { rewrite Hlog', Hlog. cbn [app]. rewrite <- app_assoc. reflexivity. }
        { apply Forall_app. split; [|exact Hbefore].
          eapply Forall_impl; [exact Hadded|]. cbn. intros reg Hreg. congruence. }
        { split; [reflexivity|congruence]. }
        exists since', before'. repeat split; try assumption.
        intros [Hp|[->|Hin]]; [contradiction|contradiction|apply H5; auto].
      * destruct Hstate as (entry & Hlive & Hat).
        destruct (IH (<[j := (tj, p')]> calls) w' AwaitListing (added ++ since)
                    before log0 e0 Hcall' Hothers')
          as (since' & before' & H1 & H2 & H3 & H4 & H5).
        { rewrite Hlog', Hlog, <- app_assoc. reflexivity. }
        { exact Hbefore. }
        { exists entry. split; [|exact Hat].
          eapply live_foreign; eassumption. }
        exists since', before'. repeat split; try assumption.
        intros _. apply H5. left. discriminate.
      * destruct Hstate as (entry & Hlive & Hat).
        destruct (IH (<[j := (tj, p')]> calls) w' (AwaitUpdate T locals u rest)
                    (added ++ since) before log0 e0 Hcall' Hothers')
          as (since' & before' & H1 & H2 & H3 & H4 & H5).
        { rewrite Hlog', Hlog, <- app_assoc. reflexivity. }
        { exact Hbefore. }
        { exists entry. split; [|exact Hat].
          eapply live_foreign; eassumption. }
        exists since', before'. repeat split; try assumption.
        intros _. apply H5. left. discriminate.
      * destruct Hstate as (entry & Hlive & Hat).
        destruct (IH (<[j := (tj, p')]> calls) w' (AwaitSleep T locals rest)
                    (added ++ since) before log0 e0 Hcall' Hothers')
          as (since' & before' & H1 & H2 & H3 & H4 & H5).
        { rewrite Hlog', Hlog, <- app_assoc. reflexivity. }
        { exact Hbefore. }
        { exists entry. split; [|exact Hat].
          eapply live_foreign; eassumption. }
        exists since', before'. repeat split; try assumption.
        intros _. apply H5. left. discriminate.
      * destruct Hstate as (entry & Hlive & Hat).
        destruct (IH (<[j := (tj, p')]> calls) w' (Returned r)
                    (added ++ since) before log0 e0 Hcall' Hothers')
          as (since' & before' & H1 & H2 & H3 & H4 & H5).
        { rewrite Hlog', Hlog, <- app_assoc. reflexivity. }
        { exact Hbefore. }
        { exists entry. split; [|exact Hat].
          eapply live_foreign; eassumption. }
        exists since', before'. repeat split; try assumption.
        intros _. apply H5. left. discriminate.
Qed.

(** X25: under any interleaving with calls that run under other task ids,
    the counters of a job never decrease over its lifetime.  Of the registry
    values logged during the run, those logged before the first write of
    the job ([before]) hold what the registry had under its task id, and
    those logged since ([since]) all hold its entry, none with a counter
    below its value in an earlier one. *)
Theorem distinct_task_ids_keep_counters (schedule : list nat)
    (calls : list (Task * Point)) (w : World) :
  calls !! i = Some (t, NotStarted) ->
  (forall j tj pj,
      j <> i -> calls !! j = Some (tj, pj) -> t_task_id tj <> t_task_id t) ->
  exists since before,
    registry_log (snd (run env schedule calls w))
    = since ++ before ++ registry_log w /\
    Forall (fun reg : gmap string Progress =>
              reg !! t_task_id t = task_progress w !! t_task_id t) before /\
    Forall (fun reg : gmap string Progress => is_Some (reg !! t_task_id t)) since /\
    StronglySorted not_below (entry_log (t_task_id t) since) /\
    (In i schedule -> since <> []).
Proof.
  intros Hcall Hothers.
  destruct (run_state schedule calls w NotStarted [] [] (registry_log w)
              (task_progress w !! t_task_id t) Hcall Hothers)
    as (since & before & H1 & H2 & H3 & H4 & H5).
  - reflexivity.
  - constructor.
  - split; reflexivity.
  - exists since, before. repeat split; try assumption.
    + apply Sorted_StronglySorted; [|exact H4].
      intros a b c Hab Hbc. unfold not_below in *.
      eapply counters_le_trans; eassumption.
    + intros Hin. apply H5. right. exact Hin.
Qed.

End DistinctIds.

(** The two jobs of the sample under different task ids, resumed in turn
    to their ends. *)
Lemma distinct_task_ids_keep_counters_witness :
  exists since before,
    registry_log
      (snd (run (env_up [shirt]) [0; 0; 0; 1; 1; 0; 1; 0; 0; 1; 1; 1]%nat
              [(same_second_first, NotStarted); (next_second, NotStarted)]
              world0))
    = since ++ before ++ registry_log world0 /\
    Forall (fun reg : gmap string Progress =>
              reg !! "discount_update_1700000000"
              = task_progress world0 !! "discount_update_1700000000") before /\
    Forall (fun reg : gmap string Progress =>
              is_Some (reg !! "discount_update_1700000000")) since /\
    StronglySorted not_below (entry_log "discount_update_1700000000" since) /\
    (In 0%nat [0; 0; 0; 1; 1; 0; 1; 0; 0; 1; 1; 1]%nat -> since <> []).
Proof.
  apply (distinct_task_ids_keep_counters (env_up [shirt]) 0 same_second_first
           [0; 0; 0; 1; 1; 0; 1; 0; 0; 1; 1; 1]%nat
           [(same_second_first, NotStarted); (next_second, NotStarted)] world0).
  - reflexivity.
  - intros [|[|j]] tj pj Hj Hlook; [contradiction| |discriminate].
    injection Hlook as <- <-. discriminate.
Defined.
